(** * The authentication core of the SaaS analytics dashboard

    A shallow embedding of the token service (services/authService.js),
    the auth middleware (middleware/authMiddleware.js), the auth controller
    and routers, the activity logger, the User model's save hook and the
    client-side axios interceptor (frontend/src/services/api.ts), together
    with the properties the specification states about them.

    Conventions.  An [async] function is a function that returns a
    [Result]: [Ok v] is a fulfilled promise, [Throw e] a rejected one.
    State the code mutates (the Mongo collections, [localStorage], the
    console) is threaded explicitly.  [Date.now()] is an explicit argument
    [now], in milliseconds, read once per request.  Third-party packages
    (jsonwebtoken, bcryptjs, the Mongo driver's failures, the network) are
    interfaces the definitions are parametrised by.  Toasts and the
    free-form [details] of an audit entry are left out. *)

From stdpp Require Import base option strings list gmap countable.
From Stdlib Require Import ZArith Lia Ascii.

Open Scope Z_scope.

(** ** JavaScript errors and the result of a computation that may throw *)

Record Error := Err { message : string }.

Inductive Result (A : Type) : Type :=
| Ok (a : A)
| Throw (e : Error).
Arguments Ok {A} a.
Arguments Throw {A} e.

Global Instance Result_ret : MRet Result := fun A a => Ok a.
Global Instance Result_bind : MBind Result := fun A B f m =>
  match m with
  | Ok a => f a
  | Throw e => Throw e
  end.

(** [try { body } catch (error) { handler error }] *)
Definition try_catch {A} (body : Result A) (handler : Error -> Result A) : Result A :=
  match body with
  | Ok a => Ok a
  | Throw e => handler e
  end.

Definition is_ok {A} (r : Result A) : bool :=
  match r with Ok _ => true | Throw _ => false end.

(** ** JSON Web Tokens (the part of the jsonwebtoken package the service uses) *)

(** The claims this code base puts into a token: [{ userId }] for access
    tokens, [{ userId, type: 'refresh' }] for refresh tokens; [jwt.sign]
    adds [iat] and, with [expiresIn], [exp] (both in seconds). *)
Record Payload := {
  userId : string;
  type : option string;
  iat : Z;
  exp : option Z;
}.

(** A parsed compact token: the signing input and its signature. *)
Record Jwt := {
  payload : Payload;
  signature : string;
}.

Global Instance Payload_eq_dec : EqDecision Payload.
Proof. solve_decision. Defined.
Global Instance Jwt_eq_dec : EqDecision Jwt.
Proof. solve_decision. Defined.

(** The cryptographic and serialisation primitives of the package are an
    interface: the HS256 tag of a signing input under a secret, and the
    compact (base64url) serialisation with its parser. *)
Class JwtLibrary := {
  hmac : string -> Payload -> string;
  jwt_encode : Jwt -> string;
  jwt_decode : string -> option Jwt;
}.

(** Parsing a serialised token gives the token back. *)
Definition codec_ok `{JwtLibrary} : Prop :=
  forall j, jwt_decode (jwt_encode j) = Some j.

(** The idealised MAC: two secrets that tag one input alike are equal. *)
Definition mac_keyed `{JwtLibrary} : Prop :=
  forall k1 k2 p, hmac k1 p = hmac k2 p -> k1 = k2.

Inductive JwtFailure :=
| JsonWebTokenError (reason : string)
| TokenExpiredError.

(** [Math.floor(Date.now() / 1000)] *)
Definition clockTimestamp (now : Z) : Z := now / 1000.

Section Jsonwebtoken.
Context `{JwtLibrary}.

(** [jwt.sign(claims, secret, { expiresIn })] at time [now];
    [expiresIn] is the time span in seconds. *)
Definition jwt_sign (uid : string) (ty : option string)
    (secret : string) (expiresIn : Z) (now : Z) : string :=
  let timestamp := clockTimestamp now in
  let p := {| userId := uid; type := ty; iat := timestamp;
              exp := Some (timestamp + expiresIn) |} in
  jwt_encode {| payload := p; signature := hmac secret p |}.

(** [jwt.verify(token, secret)] at time [now]: parse, recompute the tag
    and compare, then reject when [clockTimestamp >= exp]. *)
Definition jwt_verify (token secret : string) (now : Z) : JwtFailure + Payload :=
  match jwt_decode token with
  | None => inl (JsonWebTokenError "jwt malformed")
  | Some j =>
      if decide (signature j = hmac secret (payload j)) then
        match exp (payload j) with
        | Some e =>
            if decide (e <= clockTimestamp now) then inl TokenExpiredError
            else inr (payload j)
        | None => inr (payload j)
        end
      else inl (JsonWebTokenError "invalid signature")
  end.

(** What [try { return jwt.verify(..) } catch (error) { .. }] sees. *)
Definition jwt_verify_throwing (token secret : string) (now : Z) : Result Payload :=
  match jwt_verify token secret now with
  | inr p => Ok p
  | inl (JsonWebTokenError reason) => Throw (Err reason)
  | inl TokenExpiredError => Throw (Err "jwt expired")
  end.
End Jsonwebtoken.

(** ** services/authService.js: the token service *)

(** [process.env] *)
Record Env := {
  JWT_SECRET : string;
  JWT_REFRESH_SECRET : string;
  NODE_ENV : string;
}.

(** ['15m'] and ['7d'], as the seconds [jwt.sign] adds to [iat]. *)
Definition ACCESS_TOKEN_EXPIRY : Z := 15 * 60.
Definition REFRESH_TOKEN_EXPIRY : Z := 7 * 24 * 60 * 60.

Record TokenPair := {
  accessToken : string;
  refreshToken : string;
}.

Section AuthService.
Context `{JwtLibrary}.
Variable env : Env.

Definition generateTokens (now : Z) (uid : string) : TokenPair :=
  {| accessToken := jwt_sign uid None (JWT_SECRET env) ACCESS_TOKEN_EXPIRY now;
     refreshToken :=
       jwt_sign uid (Some "refresh") (JWT_REFRESH_SECRET env) REFRESH_TOKEN_EXPIRY now |}.

Definition verifyAccessToken (now : Z) (token : string) : Result Payload :=
  try_catch (jwt_verify_throwing token (JWT_SECRET env) now)
    (fun _ => Throw (Err "Invalid or expired access token")).

Definition verifyRefreshToken (now : Z) (token : string) : Result Payload :=
  try_catch
    (decoded ← jwt_verify_throwing token (JWT_REFRESH_SECRET env) now;
     if decide (type decoded = Some "refresh") then Ok decoded
     else Throw (Err "Invalid token type"))
    (fun _ => Throw (Err "Invalid or expired refresh token")).
End AuthService.

(** The instants (in milliseconds) from which a pair issued at [t0] is
    refused: [exp * 1000]. *)
Definition access_expiry (t0 : Z) : Z := (clockTimestamp t0 + ACCESS_TOKEN_EXPIRY) * 1000.
Definition refresh_expiry (t0 : Z) : Z := (clockTimestamp t0 + REFRESH_TOKEN_EXPIRY) * 1000.

(** ** models/User.js: the user collection and its documents *)

Inductive Role := admin | manager | viewer.

Global Instance Role_eq_dec : EqDecision Role.
Proof. solve_decision. Defined.

(** A stored user; [password] is the bcrypt hash. *)
Record User := {
  email : string;
  password : string;
  name : string;
  role : Role;
  isActive : bool;
  lastLogin : option Z;
  createdAt : Z;
  updatedAt : Z;
}.

Global Instance User_eq_dec : EqDecision User.
Proof. solve_decision. Defined.

(** The paths of the schema a document tracks as modified. *)
Inductive Path :=
| path_email | path_password | path_name | path_role
| path_isActive | path_lastLogin | path_updatedAt.

Global Instance Path_eq_dec : EqDecision Path.
Proof. solve_decision. Defined.

(** A hydrated Mongoose document: its [_id], its current field values and
    the paths assigned since it was loaded. *)
Record UserDocument := {
  _id : string;
  fields : User;
  modified : list Path;
}.

Definition isModified (doc : UserDocument) (p : Path) : bool :=
  bool_decide (p ∈ modified doc).

(** [dst] with path [p] taken from [src]: one field of an update's [$set]. *)
Definition copy_path (src : User) (p : Path) (dst : User) : User :=
  match p with
  | path_email =>
      {| email := email src; password := password dst; name := name dst; role := role dst;
         isActive := isActive dst; lastLogin := lastLogin dst;
         createdAt := createdAt dst; updatedAt := updatedAt dst |}
  | path_password =>
      {| email := email dst; password := password src; name := name dst; role := role dst;
         isActive := isActive dst; lastLogin := lastLogin dst;
         createdAt := createdAt dst; updatedAt := updatedAt dst |}
  | path_name =>
      {| email := email dst; password := password dst; name := name src; role := role dst;
         isActive := isActive dst; lastLogin := lastLogin dst;
         createdAt := createdAt dst; updatedAt := updatedAt dst |}
  | path_role =>
      {| email := email dst; password := password dst; name := name dst; role := role src;
         isActive := isActive dst; lastLogin := lastLogin dst;
         createdAt := createdAt dst; updatedAt := updatedAt dst |}
  | path_isActive =>
      {| email := email dst; password := password dst; name := name dst; role := role dst;
         isActive := isActive src; lastLogin := lastLogin dst;
         createdAt := createdAt dst; updatedAt := updatedAt dst |}
  | path_lastLogin =>
      {| email := email dst; password := password dst; name := name dst; role := role dst;
         isActive := isActive dst; lastLogin := lastLogin src;
         createdAt := createdAt dst; updatedAt := updatedAt dst |}
  | path_updatedAt =>
      {| email := email dst; password := password dst; name := name dst; role := role dst;
         isActive := isActive dst; lastLogin := lastLogin dst;
         createdAt := createdAt dst; updatedAt := updatedAt src |}
  end.

(** [doc.path = value of src]: the value is assigned and the path marked
    modified, unless the value is the one the document holds already
    (Mongoose compares the two before it marks a path). *)
Definition assign (p : Path) (src : User) (doc : UserDocument) : UserDocument :=
  if decide (copy_path src p (fields doc) = fields doc) then doc
  else {| _id := _id doc; fields := copy_path src p (fields doc);
          modified := p :: modified doc |}.

Definition with_password (h : string) (u : User) : User :=
  {| email := email u; password := h; name := name u; role := role u;
     isActive := isActive u; lastLogin := lastLogin u;
     createdAt := createdAt u; updatedAt := updatedAt u |}.
Definition with_lastLogin (t : option Z) (u : User) : User :=
  {| email := email u; password := password u; name := name u; role := role u;
     isActive := isActive u; lastLogin := t;
     createdAt := createdAt u; updatedAt := updatedAt u |}.
Definition with_updatedAt (t : Z) (u : User) : User :=
  {| email := email u; password := password u; name := name u; role := role u;
     isActive := isActive u; lastLogin := lastLogin u;
     createdAt := createdAt u; updatedAt := t |}.

(** The bcryptjs package. *)
Class Bcrypt := {
  bcrypt_hash : string -> string -> string;
  bcrypt_compare : string -> string -> bool;
}.

(** ** models/ActivityLog.js *)

Inductive Action :=
| act_login | act_logout | act_user_created | act_user_updated
| act_user_deleted | act_user_status_toggled.

Global Instance Action_eq_dec : EqDecision Action.
Proof. solve_decision. Defined.

Record ActivityLog := {
  log_userId : string;
  log_action : Action;
  log_entityType : option string;
  log_entityId : option string;
  log_ipAddress : option string;
  log_userAgent : option string;
}.

(** ** The state of the server process and its asynchronous computations *)

Record ServerState := {
  users : gmap string User;
  activityLogs : list ActivityLog;
  console : list string;
  unhandledRejections : list Error;
}.

Definition with_users (f : gmap string User -> gmap string User) (s : ServerState) : ServerState :=
  {| users := f (users s); activityLogs := activityLogs s; console := console s;
     unhandledRejections := unhandledRejections s |}.
Definition with_activityLogs (f : list ActivityLog -> list ActivityLog) (s : ServerState)
    : ServerState :=
  {| users := users s; activityLogs := f (activityLogs s); console := console s;
     unhandledRejections := unhandledRejections s |}.
Definition with_console (f : list string -> list string) (s : ServerState) : ServerState :=
  {| users := users s; activityLogs := activityLogs s; console := f (console s);
     unhandledRejections := unhandledRejections s |}.
Definition with_unhandled (f : list Error -> list Error) (s : ServerState) : ServerState :=
  {| users := users s; activityLogs := activityLogs s; console := console s;
     unhandledRejections := f (unhandledRejections s) |}.

(** An [async] function body: it runs on the server state and settles. *)
Definition Async (A : Type) : Type := ServerState -> Result A * ServerState.

Global Instance Async_ret : MRet Async := fun A a s => (Ok a, s).
Global Instance Async_bind : MBind Async := fun A B f m s =>
  match m s with
  | (Ok a, s') => f a s'
  | (Throw e, s') => (Throw e, s')
  end.

Definition throw {A} (e : Error) : Async A := fun s => (Throw e, s).
Definition lift {A} (r : Result A) : Async A := fun s => (r, s).
Definition gets {A} (f : ServerState -> A) : Async A := fun s => (Ok (f s), s).
Definition modify (f : ServerState -> ServerState) : Async unit := fun s => (Ok tt, f s).

Definition try_catch_async {A} (body : Async A) (handler : Error -> Async A) : Async A :=
  fun s =>
    match body s with
    | (Ok a, s') => (Ok a, s')
    | (Throw e, s') => handler e s'
    end.

(** A call to an async function whose promise is dropped (no [await], no
    [.catch]): its effects happen, its value is lost, a rejection is
    unhandled. *)
Definition fire_and_forget {A} (m : Async A) : Async unit :=
  fun s =>
    match m s with
    | (Ok _, s') => (Ok tt, s')
    | (Throw e, s') => (Ok tt, with_unhandled (cons e) s')
    end.

(** ** JavaScript strings and truthiness *)

(** [s.split(c)] for a one-character separator. *)
Fixpoint split_on (c : ascii) (s : string) : list string :=
  match s with
  | EmptyString => [EmptyString]
  | String a rest =>
      if decide (a = c) then EmptyString :: split_on c rest
      else match split_on c rest with
           | [] => [String a EmptyString]
           | w :: ws => String a w :: ws
           end
  end.

(** [s.startsWith(p)] *)
Fixpoint startsWith (p s : string) : bool :=
  match p, s with
  | EmptyString, _ => true
  | String a p', String b s' => bool_decide (a = b) && startsWith p' s'
  | String _ _, EmptyString => false
  end.

(** A string-valued expression that may be [undefined]/[null], kept only
    when truthy: the empty string counts as absent. *)
Definition truthy (v : option string) : option string :=
  match v with
  | Some s => if decide (s = EmptyString) then None else Some s
  | None => None
  end.

(** [a || b] on such values. *)
Definition js_or (a b : option string) : option string :=
  match truthy a with
  | Some s => Some s
  | None => b
  end.

(** [error.message || fallback] *)
Definition message_or (e : Error) (fallback : string) : string :=
  if decide (message e = EmptyString) then fallback else message e.

(** [c.toLowerCase()] on the letters A to Z; every other character is
    left as it is (strings are byte strings here, and the case mapping of
    characters beyond ASCII is not modelled). *)
Definition lower_char (c : ascii) : ascii :=
  let n := nat_of_ascii c in
  if Nat.leb 65 n && Nat.leb n 90 then ascii_of_nat (n + 32) else c.

Fixpoint toLowerCase (s : string) : string :=
  match s with
  | EmptyString => EmptyString
  | String c rest => String (lower_char c) (toLowerCase rest)
  end.

(** The white space [trim] removes, among the ASCII characters: tab,
    line feed, vertical tab, form feed, carriage return and space. *)
Definition is_space (c : ascii) : bool :=
  let n := nat_of_ascii c in
  (Nat.leb 9 n && Nat.leb n 13) || Nat.eqb n 32.

Fixpoint trimStart (s : string) : string :=
  match s with
  | EmptyString => EmptyString
  | String c rest => if is_space c then trimStart rest else s
  end.

Fixpoint trimEnd (s : string) : string :=
  match s with
  | EmptyString => EmptyString
  | String c rest =>
      match trimEnd rest with
      | EmptyString => if is_space c then EmptyString else String c EmptyString
      | kept => String c kept
      end
  end.

(** [s.trim()] *)
Definition trim (s : string) : string := trimEnd (trimStart s).

(** [s.length].  JavaScript counts UTF-16 code units; a string is kept
    here as its UTF-8 bytes, of which a byte that continues a character
    (10xxxxxx) counts nothing, a byte that starts a character of four bytes
    (11110xxx: a character beyond the basic plane, two units in UTF-16)
    counts two, and every other byte one. *)
Definition utf16_units (c : ascii) : nat :=
  let n := nat_of_ascii c in
  if Nat.leb 128 n && Nat.leb n 191 then 0
  else if Nat.leb 240 n then 2
  else 1.

Fixpoint js_length (s : string) : nat :=
  match s with
  | EmptyString => 0
  | String c rest => utf16_units c + js_length rest
  end.

(** A string of ASCII characters only: on these [toLowerCase] and [trim]
    above are JavaScript's. *)
Fixpoint ascii_only (s : string) : bool :=
  match s with
  | EmptyString => true
  | String c rest => Nat.ltb (nat_of_ascii c) 128 && ascii_only rest
  end.

(** ** Express requests and responses *)

Inductive Method := GET | POST | PUT | DELETE | PATCH.

Global Instance Method_eq_dec : EqDecision Method.
Proof. solve_decision. Defined.

(** The user object the services return: a user without its password. *)
Record UserData := {
  ud_id : string;
  ud_email : string;
  ud_name : string;
  ud_role : Role;
  ud_isActive : bool;
  ud_createdAt : Z;
  ud_updatedAt : Z;
}.

(** [req.user]: the decoded payload [protect] attaches, with the [role]
    and [userData] that [authorize] adds. *)
Record ReqUser := {
  decoded : Payload;
  req_role : option Role;
  req_userData : option UserData;
}.

Record Request := {
  method : Method;
  url : string;
  headers : gmap string string;
  cookies : gmap string string;
  body : option (gmap string string);
  user : option ReqUser;
  connection_remoteAddress : option string;
  socket_remoteAddress : option string;
}.

Definition with_user (u : ReqUser) (req : Request) : Request :=
  {| method := method req; url := url req; headers := headers req; cookies := cookies req;
     body := body req; user := Some u;
     connection_remoteAddress := connection_remoteAddress req;
     socket_remoteAddress := socket_remoteAddress req |}.

Record CookieOptions := {
  httpOnly : bool;
  secure : bool;
  sameSite : string;
  maxAge : option Z;
}.

Inductive CookieOp :=
| res_cookie (cname value : string) (opts : CookieOptions)
| res_clearCookie (cname : string) (opts : CookieOptions).

Inductive ResponseData :=
| no_data
| data_session (u : UserData) (token : string)
| data_accessToken (token : string)
| data_user (u : UserData).

(** [res.status(status).json({ success, message, data })] after the
    cookie operations made on [res]. *)
Record Response := {
  status : Z;
  success : bool;
  res_message : option string;
  data : ResponseData;
  cookie_ops : list CookieOp;
}.

Definition json_error (code : Z) (msg : string) : Response :=
  {| status := code; success := false; res_message := Some msg; data := no_data;
     cookie_ops := [] |}.

(** What a middleware or handler does with a request: it ends it with a
    response, or calls [next()] with the request as it left it. *)
Inductive Step :=
| Respond (r : Response)
| Next (req : Request).

(** The store behind [ActivityLog.create]: a write may be refused
    (validation, connectivity) with an error. *)
Class AuditStore := {
  audit_fault : ActivityLog -> option Error;
}.

Section Server.
Context `{JwtLibrary} `{Bcrypt} `{AuditStore}.
Variable env : Env.
(** The clock reading and the [bcrypt.genSalt] output of the request. *)
Variable now : Z.
Variable salt : string.

(** *** Queries and writes on the user collection *)

Definition hydrate (id : string) (u : User) : UserDocument :=
  {| _id := id; fields := u; modified := [] |}.

(** [User.findOne({ email }).select('+password')].  Mongoose casts the
    filter through the schema's setters before it queries, so the email
    looked for is the one given, lower-cased and trimmed. *)
Definition User_findOne (e : string) : Async (option UserDocument) :=
  gets (fun s =>
    match list_find (fun kv : string * User => email kv.2 = trim (toLowerCase e))
            (map_to_list (users s)) with
    | Some (_, kv) => Some (hydrate kv.1 kv.2)
    | None => None
    end).

(** [User.findById(id)], for an id in the spelling [toString()] renders
    ObjectIds in: the ids that tokens carry and the collection is keyed by
    are.  What Mongoose makes of any other string is [castObjectId], in the
    model of [deleteUser]. *)
Definition User_findById (id : string) : Async (option UserDocument) :=
  gets (fun s => hydrate id <$> users s !! id).

(** [userSchema.pre('save')]: hash the password when it was modified. *)
Definition pre_save (doc : UserDocument) : UserDocument :=
  if negb (isModified doc path_password) then doc
  else {| _id := _id doc;
          fields := with_password (bcrypt_hash (password (fields doc)) salt) (fields doc);
          modified := modified doc |}.

(** The [timestamps: true] hook: a modified document gets a new
    [updatedAt]. *)
Definition touch (doc : UserDocument) : UserDocument :=
  match modified doc with
  | [] => doc
  | _ :: _ => assign path_updatedAt (with_updatedAt now (fields doc)) doc
  end.

(** [doc.save()] on a document that exists: run the hooks, then [$set]
    the modified paths on the stored record. *)
Definition save (doc : UserDocument) : Async UserDocument :=
  let doc' := touch (pre_save doc) in
  fun s =>
    (Ok {| _id := _id doc'; fields := fields doc'; modified := [] |},
     with_users
       (alter (fun stored => foldr (copy_path (fields doc')) stored (modified doc')) (_id doc'))
       s).

Definition comparePassword (doc : UserDocument) (candidate : string) : bool :=
  bcrypt_compare candidate (password (fields doc)).

Definition userData (doc : UserDocument) : UserData :=
  {| ud_id := _id doc; ud_email := email (fields doc); ud_name := name (fields doc);
     ud_role := role (fields doc); ud_isActive := isActive (fields doc);
     ud_createdAt := createdAt (fields doc); ud_updatedAt := updatedAt (fields doc) |}.

(** *** services/authService.js, continued *)

Record LoginResult := {
  lr_user : UserData;
  lr_accessToken : string;
  lr_refreshToken : string;
}.

Definition loginUser (e pw : string) : Async LoginResult :=
  found ← User_findOne e;
  match found with
  | None => throw (Err "Invalid email or password")
  | Some doc =>
      if negb (isActive (fields doc)) then
        throw (Err "Account is deactivated. Please contact administrator.")
      else if negb (comparePassword doc pw) then
        throw (Err "Invalid email or password")
      else
        let doc := assign path_lastLogin (with_lastLogin (Some now) (fields doc)) doc in
        saved ← save doc;
        let tokens := generateTokens env now (_id saved) in
        mret {| lr_user := userData saved;
                lr_accessToken := accessToken tokens;
                lr_refreshToken := refreshToken tokens |}
  end.

Definition refreshAccessToken (token : string) : Async TokenPair :=
  decoded ← lift (verifyRefreshToken env now token);
  found ← User_findById (userId decoded);
  match found with
  | None => throw (Err "User not found")
  | Some doc =>
      let tokens := generateTokens env now (_id doc) in
      mret {| accessToken := accessToken tokens; refreshToken := refreshToken tokens |}
  end.

Definition getUserById (id : string) : Async UserData :=
  found ← User_findById id;
  match found with
  | None => throw (Err "User not found")
  | Some doc => mret (userData doc)
  end.

(** *** services/activityLogService.js and utils/activityLogger.js *)

Definition createActivityLog (logData : ActivityLog) : Async ActivityLog :=
  fun s =>
    match audit_fault logData with
    | Some e => (Throw e, s)
    | None => (Ok logData, with_activityLogs (fun l => l ++ [logData]) s)
    end.

Definition getClientIp (req : Request) : string :=
  default "unknown"
    (js_or (headers req !! "x-forwarded-for" ≫= fun v => head (split_on "," v))
      (js_or (headers req !! "x-real-ip")
        (js_or (connection_remoteAddress req)
          (truthy (socket_remoteAddress req))))).

Definition getUserAgent (req : Request) : string :=
  default "unknown" (truthy (headers req !! "user-agent")).

Definition logActivity (uid : string) (action : Action) (entityType entityId : option string)
    (req : option Request) : Async unit :=
  try_catch_async
    (_ ← createActivityLog
           {| log_userId := uid; log_action := action;
              log_entityType := entityType; log_entityId := entityId;
              log_ipAddress := getClientIp <$> req;
              log_userAgent := getUserAgent <$> req |};
     mret tt)
    (fun error =>
       modify (with_console (fun c => c ++ ["Failed to create activity log: " +:+ message error]))).

(** *** middleware/authMiddleware.js *)

(** The token [protect] takes from the Authorization header:
    [authorization.split(' ')[1]] when the header starts with
    ['Bearer'], kept only when truthy. *)
Definition bearer_token (req : Request) : option string :=
  match truthy (headers req !! "authorization") with
  | Some authorization =>
      if startsWith "Bearer" authorization
      then truthy (split_on " " authorization !! 1%nat)
      else None
  | None => None
  end.

Definition protect (req : Request) : Async Step :=
  try_catch_async
    (match bearer_token req with
     | None => mret (Respond (json_error 401 "Not authorized, no token provided"))
     | Some token =>
         payload ← lift (verifyAccessToken env now token);
         mret (Next (with_user {| decoded := payload; req_role := None;
                                  req_userData := None |} req))
     end)
    (fun error =>
       mret (Respond (json_error 401 (message_or error "Not authorized, token failed")))).

Definition role_name (r : Role) : string :=
  match r with
  | admin => "admin"
  | manager => "manager"
  | viewer => "viewer"
  end.

(** [req.user.userId]; reading it when [req.user] is undefined throws. *)
Definition req_user_userId (req : Request) : Async ReqUser :=
  match user req with
  | Some u => mret u
  | None => throw (Err "Cannot read properties of undefined (reading 'userId')")
  end.

Definition authorize (roles : list Role) (req : Request) : Async Step :=
  try_catch_async
    (u ← req_user_userId req;
     found ← getUserById (userId (decoded u));
     if negb (bool_decide (ud_role found ∈ roles)) then
       mret (Respond (json_error 403
         ("User role '" +:+ role_name (ud_role found)
            +:+ "' is not authorized to access this route")))
     else
       mret (Next (with_user {| decoded := decoded u; req_role := Some (ud_role found);
                                req_userData := Some found |} req)))
    (fun _ => mret (Respond (json_error 403 "Authorization failed"))).
End Server.

(** ** controllers/authController.js and the routers *)

Section Controllers.
Context `{JwtLibrary} `{Bcrypt} `{AuditStore}.
Variable env : Env.
Variable now : Z.
Variable salt : string.

Definition refresh_cookie_options : CookieOptions :=
  {| httpOnly := true;
     secure := bool_decide (NODE_ENV env = "production");
     sameSite := "strict";
     maxAge := Some (7 * 24 * 60 * 60 * 1000) |}.

Definition clear_cookie_options : CookieOptions :=
  {| httpOnly := true;
     secure := bool_decide (NODE_ENV env = "production");
     sameSite := "strict";
     maxAge := None |}.

Definition login (req : Request) : Async Step :=
  try_catch_async
    (_ ← modify (with_console (fun c => c ++ ["Login request received:"]));
     match body req with
     | None =>
         mret (Respond (json_error 400
           "Request body is missing or invalid. Please ensure Content-Type is application/json"))
     | Some b =>
         match truthy (b !! "email"), truthy (b !! "password") with
         | Some e, Some pw =>
             result ← loginUser env now salt e pw;
             _ ← fire_and_forget
                   (logActivity (ud_id (lr_user result)) act_login (Some "auth") None (Some req));
             mret (Respond
               {| status := 200; success := true; res_message := None;
                  data := data_session (lr_user result) (lr_accessToken result);
                  cookie_ops :=
                    [res_cookie "refreshToken" (lr_refreshToken result)
                       refresh_cookie_options] |})
         | _, _ => mret (Respond (json_error 400 "Email and password are required"))
         end
     end)
    (fun error => mret (Respond (json_error 401 (message_or error "Login failed")))).

Definition refresh (req : Request) : Async Step :=
  try_catch_async
    (match js_or (cookies req !! "refreshToken")
                 (truthy (body req ≫= fun b => b !! "refreshToken")) with
     | None => mret (Respond (json_error 401 "Refresh token is required"))
     | Some token =>
         tokens ← refreshAccessToken env now token;
         mret (Respond
           {| status := 200; success := true; res_message := None;
              data := data_accessToken (accessToken tokens);
              cookie_ops :=
                [res_cookie "refreshToken" (refreshToken tokens) refresh_cookie_options] |})
     end)
    (fun error => mret (Respond (json_error 401 (message_or error "Token refresh failed")))).

Definition logout (req : Request) : Async Step :=
  _ ← match user req ≫= fun u => truthy (Some (userId (decoded u))) with
      | Some uid =>
          fire_and_forget (logActivity uid act_logout (Some "auth") None (Some req))
      | None => mret tt
      end;
  mret (Respond
    {| status := 200; success := true; res_message := Some "Logged out successfully";
       data := no_data;
       cookie_ops := [res_clearCookie "refreshToken" clear_cookie_options] |}).

Definition getMe (req : Request) : Async Step :=
  try_catch_async
    (u ← req_user_userId req;
     found ← getUserById (userId (decoded u));
     mret (Respond
       {| status := 200; success := true; res_message := None; data := data_user found;
          cookie_ops := [] |}))
    (fun error => mret (Respond (json_error 404 (message_or error "User not found")))).

(** *** Routers *)

Definition Handler : Type := Request -> Async Step.

Record Route := {
  route_method : Method;
  route_path : string;
  route_chain : list Handler;
}.

(** The handlers of one route, each run when the one before called
    [next()]. *)
Fixpoint run_chain (chain : list Handler) (req : Request) : Async Step :=
  match chain with
  | [] => mret (Next req)
  | h :: rest =>
      st ← h req;
      match st with
      | Respond r => mret (Respond r)
      | Next req' => run_chain rest req'
      end
  end.

Fixpoint router (routes : list Route) (req : Request) : Async Step :=
  match routes with
  | [] => mret (Next req)
  | r :: rest =>
      if bool_decide (route_method r = method req /\ route_path r = url req) then
        st ← run_chain (route_chain r) req;
        match st with
        | Respond x => mret (Respond x)
        | Next req' => router rest req'
        end
      else router rest req
  end.

(** routes/authRoutes.js; the register controller is a parameter. *)
Definition authRoutes (register : Handler) : list Route :=
  [ {| route_method := POST; route_path := "/register"; route_chain := [register] |};
    {| route_method := POST; route_path := "/login"; route_chain := [login] |};
    {| route_method := POST; route_path := "/refresh"; route_chain := [refresh] |};
    {| route_method := POST; route_path := "/logout"; route_chain := [logout] |};
    {| route_method := GET; route_path := "/me";
       route_chain := [protect env now; getMe] |} ].

(** routes/userRoutes.js: [router.use(protect)],
    [router.use(authorize('admin'))], then the routes of the user
    controller, which are a parameter. *)
Definition userRoutes (userController : Handler) : Handler :=
  run_chain [protect env now; authorize [admin]; userController].
End Controllers.

(** ** The single-page application: storage, auth slice, axios client *)

Module Client.

(** [s.includes(needle)] *)
Fixpoint includes (needle s : string) : bool :=
  startsWith needle s ||
  match s with
  | EmptyString => false
  | String _ rest => includes needle rest
  end.

(** A value written where a string is expected: [undefined] becomes
    the text ["undefined"]. *)
Definition js_string (v : option string) : string := default "undefined" v.

(** *** utils/storage.ts *)

Record Browser := {
  localStorage : gmap string string;
  storage_available : bool;
  pathname : string;
}.

Definition with_localStorage (f : gmap string string -> gmap string string) (b : Browser)
    : Browser :=
  {| localStorage := f (localStorage b); storage_available := storage_available b;
     pathname := pathname b |}.
Definition with_pathname (p : string) (b : Browser) : Browser :=
  {| localStorage := localStorage b; storage_available := storage_available b;
     pathname := p |}.

Definition storage_setItem (key value : string) (b : Browser) : Browser :=
  if storage_available b then with_localStorage <[key := value]> b else b.
Definition storage_getItem (key : string) (b : Browser) : option string :=
  if storage_available b then localStorage b !! key else None.
Definition storage_removeItem (key : string) (b : Browser) : Browser :=
  if storage_available b then with_localStorage (delete key) b else b.

Definition ACCESS_TOKEN : string := "accessToken".
Definition REFRESH_TOKEN : string := "refreshToken".
Definition USER : string := "user".

Definition getAccessToken (b : Browser) : option string := storage_getItem ACCESS_TOKEN b.
Definition setAccessToken (token : string) (b : Browser) : Browser :=
  storage_setItem ACCESS_TOKEN token b.
Definition getRefreshToken (b : Browser) : option string := storage_getItem REFRESH_TOKEN b.
Definition setRefreshToken (token : string) (b : Browser) : Browser :=
  storage_setItem REFRESH_TOKEN token b.
Definition clearTokens (b : Browser) : Browser :=
  storage_removeItem REFRESH_TOKEN (storage_removeItem ACCESS_TOKEN b).

(** A user object on the client is kept as its JSON text, and
    [JSON.parse] is not modelled: [getUser] is [None] for an entry that is
    absent or empty, as in the code; for any other entry it is the text,
    which stands for the object only when the text is the JSON of one (the
    code reads a text that does not parse, or parses to [null], as no
    user). *)
Definition getUser (b : Browser) : option string := truthy (storage_getItem USER b).
Definition setUser (u : string) (b : Browser) : Browser := storage_setItem USER u b.
Definition removeUser (b : Browser) : Browser := storage_removeItem USER b.

Definition clearAuthData (b : Browser) : Browser := removeUser (clearTokens b).

(** [if (window.location.pathname !== '/login') window.location.href = '/login'] *)
Definition redirect_to_login (b : Browser) : Browser :=
  if decide (pathname b = "/login") then b else with_pathname "/login" b.

(** *** features/auth/slice/authSlice.ts *)

Record AuthState := {
  auth_user : option string;
  auth_accessToken : option string;
  auth_refreshToken : option string;
  isAuthenticated : bool;
}.

Definition initialState (b : Browser) : AuthState :=
  {| auth_user := getUser b;
     auth_accessToken := getAccessToken b;
     auth_refreshToken := getRefreshToken b;
     isAuthenticated :=
       bool_decide (is_Some (getUser b)) && bool_decide (is_Some (truthy (getAccessToken b))) |}.

(** The [setCredentials] reducer with its writes to [localStorage]. *)
Definition setCredentials (u : option string) (token : option string)
    (refresh : option string) (st : AuthState) (b : Browser) : AuthState * Browser :=
  let st' := {| auth_user := u; auth_accessToken := token;
                auth_refreshToken :=
                  match truthy refresh with
                  | Some r => Some r
                  | None => auth_refreshToken st
                  end;
                isAuthenticated := true |} in
  let b1 := setAccessToken (js_string token) (setUser (js_string u) b) in
  let b2 := match truthy refresh with
            | Some r => setRefreshToken r b1
            | None => b1
            end in
  (st', b2).

Definition logout (st : AuthState) (b : Browser) : AuthState * Browser :=
  ({| auth_user := None; auth_accessToken := None; auth_refreshToken := None;
      isAuthenticated := false |},
   clearTokens (removeUser b)).

(** *** axios: configurations, responses, errors and the wire *)

Record Config := {
  cfg_url : option string;
  cfg_method : Method;
  Authorization : option string;
  cfg_data : option string;
  _retry : bool;
}.

Definition with_Authorization (a : string) (cfg : Config) : Config :=
  {| cfg_url := cfg_url cfg; cfg_method := cfg_method cfg; Authorization := Some a;
     cfg_data := cfg_data cfg; _retry := _retry cfg |}.
Definition with_retry (cfg : Config) : Config :=
  {| cfg_url := cfg_url cfg; cfg_method := cfg_method cfg;
     Authorization := Authorization cfg; cfg_data := cfg_data cfg; _retry := true |}.

(** The JSON bodies of the API: [{ success, message, data }] with
    [data] holding what the auth endpoints return. *)
Record BodyData := {
  d_user : option string;
  d_accessToken : option string;
  d_refreshToken : option string;
}.
Record Body := {
  b_success : bool;
  b_message : option string;
  b_data : option BodyData;
}.

(** What leaves the browser: a request of the [apiClient] instance, or
    the bare [axios.post] to the refresh endpoint. *)
Inductive WireEvent :=
| ev_request (cfg : Config)
| ev_refresh (token : string).

Inductive WireResult :=
| wire_response (code : Z) (b : Body)
| wire_failure.

(** The other side of the wire: any function of what was sent so far. *)
Class Network := {
  server : list WireEvent -> WireEvent -> WireResult;
}.

Record AxiosResponse := {
  r_status : Z;
  r_data : Body;
  r_config : option Config;
}.

Inductive ClientError :=
| AxiosError (config : option Config) (response : option (Z * Body))
| TypeError (msg : string).

Inductive Settled :=
| Fulfilled (r : AxiosResponse)
| Rejected (e : ClientError).

Record ClientState := {
  browser : Browser;
  wire : list WireEvent;
}.

Definition with_browser (f : Browser -> Browser) (c : ClientState) : ClientState :=
  {| browser := f (browser c); wire := wire c |}.

Definition error_status (e : ClientError) : option Z :=
  match e with
  | AxiosError _ (Some (code, _)) => Some code
  | _ => None
  end.

(** *** services/api.ts: the axios instance and its interceptors *)

Section Axios.
Context `{Network}.
Variable API_BASE_URL : string.

(** The request interceptor: inject the stored access token. *)
Definition request_interceptor (config : Config) (b : Browser) : Config :=
  match truthy (getAccessToken b) with
  | Some token => with_Authorization ("Bearer " +:+ token) config
  | None => config
  end.

(** Put one request on the wire and take the answer. *)
Definition send (ev : WireEvent) (c : ClientState) : WireResult * ClientState :=
  (server (wire c) ev, {| browser := browser c; wire := wire c ++ [ev] |}).

(** axios' default [validateStatus]. *)
Definition validateStatus (code : Z) : bool :=
  bool_decide (200 <= code) && bool_decide (code < 300).

(** [await axios.post(`${API_BASE_URL}/auth/refresh`, { refreshToken })]
    followed by the destructuring of [response.data.data]: the new
    tokens, or what the [catch] block receives. *)
Definition refresh_call (token : string) (c : ClientState)
    : (ClientError + BodyData) * ClientState :=
  let refresh_config :=
    {| cfg_url := Some (API_BASE_URL +:+ "/auth/refresh"); cfg_method := POST;
       Authorization := None; cfg_data := Some token; _retry := false |} in
  let '(res, c') := send (ev_refresh token) c in
  match res with
  | wire_response code b =>
      if validateStatus code then
        match b_data b with
        | Some d => (inr d, c')
        | None =>
            (inl (TypeError "Cannot destructure property 'accessToken' of undefined"), c')
        end
      else (inl (AxiosError (Some refresh_config) (Some (code, b))), c')
  | wire_failure => (inl (AxiosError (Some refresh_config) None), c')
  end.

(** The rejected-response interceptor.  [retry] is the instance
    itself, [apiClient(originalRequest)]. *)
Definition response_rejected
    (retry : Config -> ClientState -> option (Settled * ClientState))
    (error : ClientError) (c : ClientState) : option (Settled * ClientState) :=
  match error with
  | TypeError _ | AxiosError None _ =>
      Some (Rejected (TypeError "Cannot read properties of undefined (reading 'url')"), c)
  | AxiosError (Some originalRequest) _ =>
      let isLoginEndpoint :=
        match cfg_url originalRequest with
        | Some u => includes "/auth/login" u
        | None => false
        end in
      if bool_decide (error_status error = Some 401)
         && negb (_retry originalRequest) && negb isLoginEndpoint
      then
        let originalRequest := with_retry originalRequest in
        match truthy (getRefreshToken (browser c)) with
        | None =>
            Some (Rejected error,
                  with_browser (fun b => redirect_to_login (clearAuthData b)) c)
        | Some token =>
            match refresh_call token c with
            | (inr d, c1) =>
                let c2 := with_browser (setAccessToken (js_string (d_accessToken d))) c1 in
                let c3 := match truthy (d_refreshToken d) with
                          | Some r => with_browser (setRefreshToken r) c2
                          | None => c2
                          end in
                retry (with_Authorization ("Bearer " +:+ js_string (d_accessToken d))
                         originalRequest) c3
            | (inl refreshError, c1) =>
                Some (Rejected refreshError,
                      with_browser (fun b => redirect_to_login (clearAuthData b)) c1)
            end
        end
      else Some (Rejected error, c)
  end.

(** [apiClient(config)]: request interceptor, the wire, response
    interceptors.  The interceptor calls the instance again, so the
    depth of that recursion is bounded by [fuel]; [None] is fuel
    exhausted. *)
Fixpoint apiClient (fuel : nat) (config : Config) (c : ClientState)
    : option (Settled * ClientState) :=
  match fuel with
  | O => None
  | S fuel' =>
      let config := request_interceptor config (browser c) in
      let '(res, c') := send (ev_request config) c in
      match res with
      | wire_response code b =>
          if validateStatus code then
            Some (Fulfilled {| r_status := code; r_data := b; r_config := Some config |}, c')
          else
            response_rejected (apiClient fuel') (AxiosError (Some config) (Some (code, b))) c'
      | wire_failure =>
          response_rejected (apiClient fuel') (AxiosError (Some config) None) c'
      end
  end.

(** *** app/api/apiSlice.ts *)

Inductive QueryResult :=
| query_data (b : Body)
| query_error (code : Z) (b : option Body).

Definition axiosBaseQuery (fuel : nat) (url : option string) (method : Method)
    (body : option string) (c : ClientState) : option (QueryResult * ClientState) :=
  match truthy url with
  | None => Some (query_error 500 None, c)
  | Some u =>
      match apiClient fuel {| cfg_url := Some u; cfg_method := method;
                              Authorization := None; cfg_data := body;
                              _retry := false |} c with
      | None => None
      | Some (Fulfilled r, c') => Some (query_data (r_data r), c')
      | Some (Rejected err, c') =>
          let c'' :=
            if bool_decide (error_status err = Some 401) && negb (includes "/auth/login" u)
            then with_browser (fun b => redirect_to_login (clearAuthData b)) c'
            else c' in
          Some (query_error
                  (match error_status err with
                   | Some code => if decide (code = 0) then 500 else code
                   | None => 500
                   end)
                  (match err with
                   | AxiosError _ (Some (_, b)) => Some b
                   | _ => None
                   end),
                c'')
      end
  end.

(** *** features/auth/pages/LoginPage.tsx: [onSubmit] *)

Definition onSubmit (fuel : nat) (credentials : string) (st : AuthState) (c : ClientState)
    : option (AuthState * ClientState) :=
  match axiosBaseQuery fuel (Some "/auth/login") POST (Some credentials) c with
  | None => None
  | Some (query_data result, c') =>
      match (if b_success result then b_data result else None) with
      | Some d =>
          let '(st', b') :=
            setCredentials (d_user d) (d_accessToken d) None st (browser c') in
          Some (st', {| browser := with_pathname "/dashboard" b'; wire := wire c' |})
      | None => Some (st, c')
      end
  | Some (query_error _ _, c') => Some (st, c')
  end.
End Axios.

Definition is_request (ev : WireEvent) : bool :=
  match ev with ev_request _ => true | ev_refresh _ => false end.
Definition is_refresh (ev : WireEvent) : bool :=
  match ev with ev_refresh _ => true | ev_request _ => false end.

(** How many requests of the instance, and how many refresh calls, a
    wire history holds. *)
Definition count_requests (w : list WireEvent) : nat := length (List.filter is_request w).
Definition count_refreshes (w : list WireEvent) : nat := length (List.filter is_refresh w).
End Client.

(** ** Reference instances of the library interfaces

    A symbolic implementation of the JWT primitives: the tag of an input
    under a secret is the pair of both, written as a bit string, and a
    token is serialised as the bit string of its code. *)

Global Instance Payload_countable : Countable Payload.
Proof.
  apply (inj_countable' (fun p => (userId p, type p, iat p, exp p))
           (fun t => {| userId := t.1.1.1; type := t.1.1.2; iat := t.1.2; exp := t.2 |})).
  by intros [].
Defined.

Global Instance Jwt_countable : Countable Jwt.
Proof.
  apply (inj_countable' (fun j => (payload j, signature j))
           (fun t => {| payload := t.1; signature := t.2 |})).
  by intros [].
Defined.

Fixpoint pos_to_bits (p : positive) : string :=
  match p with
  | xH => EmptyString
  | xO q => String "0" (pos_to_bits q)
  | xI q => String "1" (pos_to_bits q)
  end.

Fixpoint bits_to_pos (s : string) : option positive :=
  match s with
  | EmptyString => Some xH
  | String c rest =>
      if decide (c = "0"%char) then xO <$> bits_to_pos rest
      else if decide (c = "1"%char) then xI <$> bits_to_pos rest
      else None
  end.

Definition symbolic_jwt : JwtLibrary :=
  {| hmac k p := pos_to_bits (encode (k, p));
     jwt_encode j := pos_to_bits (encode j);
     jwt_decode s := bits_to_pos s ≫= decode |}.





(** bcrypt as a tagged pair: the hash of [pw] under [salt] is [salt$pw]. *)
Definition symbolic_bcrypt : Bcrypt :=
  {| bcrypt_hash pw salt := salt +:+ "$" +:+ pw;
     bcrypt_compare candidate h :=
       bool_decide (split_on "$" h !! 1%nat = Some candidate) |}.

(** An audit store that accepts every entry, and one that refuses all. *)
Definition audit_up : AuditStore := {| audit_fault _ := None |}.
Definition audit_down : AuditStore :=
  {| audit_fault _ := Some (Err "MongoNetworkError: connection lost") |}.

Definition sample_env : Env :=
  {| JWT_SECRET := "access-secret"; JWT_REFRESH_SECRET := "refresh-secret";
     NODE_ENV := "production" |}.

(** The payloads of the two tokens of a pair issued for [uid] at [t0]. *)
Definition access_payload (uid : string) (t0 : Z) : Payload :=
  {| userId := uid; type := None; iat := clockTimestamp t0;
     exp := Some (clockTimestamp t0 + ACCESS_TOKEN_EXPIRY) |}.
Definition refresh_payload (uid : string) (t0 : Z) : Payload :=
  {| userId := uid; type := Some "refresh"; iat := clockTimestamp t0;
     exp := Some (clockTimestamp t0 + REFRESH_TOKEN_EXPIRY) |}.

(** What makes [verifyRefreshToken] refuse a token at [now]: it does not
    parse, its signature is not the tag of its payload under the refresh
    secret, it has expired, or its type is not ['refresh']. *)
Definition refresh_token_defect `{JwtLibrary} (env : Env) (now : Z) (token : string) : Prop :=
  match jwt_decode token with
  | None => True
  | Some j =>
      signature j <> hmac (JWT_REFRESH_SECRET env) (payload j)
      \/ (exists e, exp (payload j) = Some e /\ e <= clockTimestamp now)
      \/ type (payload j) <> Some "refresh"
  end.

(** The same for [verifyAccessToken], which looks at no type. *)
Definition access_token_defect `{JwtLibrary} (env : Env) (now : Z) (token : string) : Prop :=
  match jwt_decode token with
  | None => True
  | Some j =>
      signature j <> hmac (JWT_SECRET env) (payload j)
      \/ (exists e, exp (payload j) = Some e /\ e <= clockTimestamp now)
  end.

Definition sample_user (r : Role) : User :=
  {| email := "ada@example.com"; password := "pepper$correct horse"; name := "Ada";
     role := r; isActive := true; lastLogin := None;
     createdAt := 1000; updatedAt := 1000 |}.

(** A server with one account, of the given role. *)
Definition sample_state (r : Role) : ServerState :=
  {| users := {[ "64f0c0ffee" := sample_user r ]};
     activityLogs := []; console := []; unhandledRejections := [] |}.

(** A request as it reaches the server, carrying the given Authorization
    header (or none). *)
Definition request_with (m : Method) (path : string) (authorization : option string)
    : Request :=
  {| method := m; url := path;
     headers := match authorization with
                | Some a => {[ "authorization" := a ]}
                | None => ∅
                end;
     cookies := ∅; body := Some ∅; user := None;
     connection_remoteAddress := Some "203.0.113.7";
     socket_remoteAddress := Some "203.0.113.7" |}.

(** Whether the character occurs in the string. *)
Fixpoint has_char (c : ascii) (s : string) : bool :=
  match s with
  | EmptyString => false
  | String a rest => bool_decide (a = c) || has_char c rest
  end.

(** A stand-in for the user controller: it leaves a trace on the console
    and answers 200. *)
Definition sample_userController : Handler :=
  fun req s =>
    (Ok (Respond {| status := 200; success := true; res_message := None; data := no_data;
                    cookie_ops := [] |}),
     with_console (fun c => c ++ ["user controller reached"]) s).

(** A request for the user list that carries the access token issued at
    instant 5000 to the sample account. *)
Definition sample_users_request : Request :=
  request_with GET "/"
    (Some ("Bearer " +:+
           accessToken (@generateTokens symbolic_jwt sample_env 5000 "64f0c0ffee"))).

(** The body of every answer of the logout controller. *)
Definition logout_response (env : Env) : Response :=
  {| status := 200; success := true; res_message := Some "Logged out successfully";
     data := no_data;
     cookie_ops := [res_clearCookie "refreshToken" (clear_cookie_options env)] |}.

(** A logout call, at the router's path, that carries the access token
    issued at instant 5000 to the sample account. *)
Definition sample_logout_request : Request :=
  request_with POST "/logout"
    (Some ("Bearer " +:+
           accessToken (@generateTokens symbolic_jwt sample_env 5000 "64f0c0ffee"))).

(** A stand-in for the register controller. *)
Definition sample_register : Handler :=
  fun req => mret (Respond (json_error 400 "Email, password, and name are required")).

(** The entry [logActivity] hands to the store. *)
Definition audit_entry (uid : string) (action : Action) (entityType entityId : option string)
    (req : option Request) : ActivityLog :=
  {| log_userId := uid; log_action := action;
     log_entityType := entityType; log_entityId := entityId;
     log_ipAddress := getClientIp <$> req;
     log_userAgent := getUserAgent <$> req |}.

(** A stored user after a login at [now]: [lastLogin] and [updatedAt]
    are the login time; a user whose [lastLogin] is that very instant
    already is not written at all. *)
Definition login_update (now : Z) (u : User) : User :=
  if decide (lastLogin u = Some now) then u
  else with_updatedAt now (with_lastLogin (Some now) u).

(** A server as the backend is: the login endpoint answers 200 with the
    user and an access token in the body (the refresh token travels in a
    cookie the page cannot read), and every other call is answered 401,
    as for an access token that has expired. *)
Definition expired_server : Client.Network :=
  {| Client.server history ev :=
       match ev with
       | Client.ev_request cfg =>
           if bool_decide (Client.cfg_url cfg = Some "/auth/login") then
             Client.wire_response 200
               {| Client.b_success := true; Client.b_message := None;
                  Client.b_data :=
                    Some {| Client.d_user := Some "{ada}";
                            Client.d_accessToken := Some "access-1";
                            Client.d_refreshToken := None |} |}
           else
             Client.wire_response 401
               {| Client.b_success := false;
                  Client.b_message := Some "Invalid or expired access token";
                  Client.b_data := None |}
       | Client.ev_refresh _ =>
           Client.wire_response 401
             {| Client.b_success := false;
                Client.b_message := Some "Refresh token is required";
                Client.b_data := None |}
       end |}.

(** A browser that never held a session, on the login page. *)
Definition fresh_client : Client.ClientState :=
  {| Client.browser := {| Client.localStorage := ∅; Client.storage_available := true;
                          Client.pathname := "/login" |};
     Client.wire := [] |}.

Definition signed_out : Client.AuthState := Client.initialState (Client.browser fresh_client).

(** A call to a protected endpoint. *)
Definition kpis_call : Client.Config :=
  {| Client.cfg_url := Some "/dashboard/kpis"; Client.cfg_method := GET;
     Client.Authorization := None; Client.cfg_data := None; Client._retry := false |}.

(** A call to the refresh endpoint with the given cookie and body
    tokens. *)
Definition refresh_request (cookie in_body : option string) : Request :=
  {| method := POST; url := "/refresh"; headers := ∅;
     cookies := match cookie with
                | Some t => {[ "refreshToken" := t ]}
                | None => ∅
                end;
     body := Some match in_body with
                  | Some t => {[ "refreshToken" := t ]}
                  | None => ∅
                  end;
     user := None;
     connection_remoteAddress := None; socket_remoteAddress := None |}.

(** A [GET /me] that carries the access token issued at instant 5000 to
    the sample account. *)
Definition sample_me_request : Request :=
  request_with GET "/me"
    (Some ("Bearer " +:+
           accessToken (@generateTokens symbolic_jwt sample_env 5000 "64f0c0ffee"))).

(** A server with no account at all. *)
Definition empty_state : ServerState :=
  {| users := ∅; activityLogs := []; console := []; unhandledRejections := [] |}.

(** An environment that signs both kinds of token with one secret. *)
Definition one_secret_env : Env :=
  {| JWT_SECRET := "shared-secret"; JWT_REFRESH_SECRET := "shared-secret";
     NODE_ENV := "production" |}.

(** A login call with the given credentials. *)
Definition sample_login_request (e pw : string) : Request :=
  {| method := POST; url := "/login"; headers := ∅; cookies := ∅;
     body := Some {[ "email" := e; "password" := pw ]};
     user := None; connection_remoteAddress := None;
     socket_remoteAddress := None |}.

(** The server state once the login controller has written its debug
    line. *)
Definition login_received (s : ServerState) : ServerState :=
  with_console (fun c => c ++ ["Login request received:"]) s.

(** The sample account after an administrator deactivated it. *)
Definition deactivated_state : ServerState :=
  {| users := {[ "64f0c0ffee" := {| email := "ada@example.com"; password := "pepper$correct horse";
                                    name := "Ada"; role := viewer; isActive := false;
                                    lastLogin := None; createdAt := 1000;
                                    updatedAt := 1000 |} ]};
     activityLogs := []; console := []; unhandledRejections := [] |}.

(** ** services/authService.js: registration; services/userService.js *)

(** What Mongoose and the database add to the code of the model: the
    identifier of a new document, the schema validation that runs before a
    save, and the error of the unique index on [email]. *)
Class Mongoose := {
  new_ObjectId : gmap string User -> string;
  validation_error : UserDocument -> option Error;
  duplicate_key_error : string -> Error;
}.

Definition with_isActive (a : bool) (u : User) : User :=
  {| email := email u; password := password u; name := name u; role := role u;
     isActive := a; lastLogin := lastLogin u;
     createdAt := createdAt u; updatedAt := updatedAt u |}.

(** The role a schema string stands for. *)
Definition role_of_string (r : string) : option Role :=
  if decide (r = "admin") then Some admin
  else if decide (r = "manager") then Some manager
  else if decide (r = "viewer") then Some viewer
  else None.

(** [['admin', 'manager', 'viewer'].includes(role)] *)
Definition validRoles_includes (r : string) : bool :=
  bool_decide (r ∈ ["admin"; "manager"; "viewer"]).

(** A user as [.select('-password')] returns it. *)
Record PublicUser := {
  pu_id : string;
  pu_email : string;
  pu_name : string;
  pu_role : Role;
  pu_isActive : bool;
  pu_lastLogin : option Z;
  pu_createdAt : Z;
  pu_updatedAt : Z;
}.

Definition select_without_password (doc : UserDocument) : PublicUser :=
  {| pu_id := _id doc; pu_email := email (fields doc); pu_name := name (fields doc);
     pu_role := role (fields doc); pu_isActive := isActive (fields doc);
     pu_lastLogin := lastLogin (fields doc); pu_createdAt := createdAt (fields doc);
     pu_updatedAt := updatedAt (fields doc) |}.

(** How [findById] and [findByIdAndDelete] read the id they are given:
    Mongoose casts it to an ObjectId and throws a CastError for a string that
    is none.  The cast is the library's, a parameter here: [castObjectId id]
    is [None] when the cast throws, and otherwise the id in the spelling that
    [toString()] renders, by which the collection is keyed. *)
Class ObjectIdCast := {
  castObjectId : string -> option string;
}.

Definition double_quote : string := String (ascii_of_nat 34) EmptyString.

(** The CastError of a query by [_id] on the User model. *)
Definition cast_error (value : string) : Error :=
  Err ("Cast to ObjectId failed for value " +:+ double_quote +:+ value +:+ double_quote
       +:+ " (type string) at path " +:+ double_quote +:+ "_id" +:+ double_quote
       +:+ " for model " +:+ double_quote +:+ "User" +:+ double_quote).

Section UserService.
Context `{JwtLibrary} `{Bcrypt} `{Mongoose} `{AuditStore} `{ObjectIdCast}.
Variable env : Env.
Variable now : Z.
Variable salt : string.

(** [doc.save()] with the validation that [save] runs first by default. *)
Definition save_validated (doc : UserDocument) : Async UserDocument :=
  match validation_error doc with
  | Some e => throw e
  | None => save now salt doc
  end.

(** [User.create({ email, password, name, role, isActive })]: a new
    document with every given path set through the schema's setters
    ([lowercase] and [trim] on the email, [trim] on the name), validated,
    passed through the save hook, stamped and inserted; the unique index
    refuses an email that is stored already. *)
Definition User_create (e pw n : string) (r : Role) (active : bool) : Async UserDocument :=
  fun s =>
    let doc :=
      {| _id := new_ObjectId (users s);
         fields := {| email := trim (toLowerCase e); password := pw; name := trim n;
                      role := r; isActive := active; lastLogin := None;
                      createdAt := now; updatedAt := now |};
         modified := [path_email; path_password; path_name; path_role; path_isActive] |} in
    match validation_error doc with
    | Some err => (Throw err, s)
    | None =>
        let doc' := pre_save salt doc in
        if bool_decide (is_Some (users s !! _id doc'))
           || bool_decide (Exists (fun kv : string * User => email kv.2 = email (fields doc'))
                             (map_to_list (users s)))
        then (Throw (duplicate_key_error (email (fields doc'))), s)
        else
          (Ok {| _id := _id doc'; fields := fields doc'; modified := [] |},
           with_users <[_id doc' := fields doc']> s)
    end.

Definition registerUser (e pw n : string) (r : option string) : Async LoginResult :=
  existingUser ← User_findOne (toLowerCase e);
  match existingUser with
  | Some _ => throw (Err "User with this email already exists")
  | None =>
      let role := default "viewer" r in
      if bool_decide (is_Some (truthy (Some role))) && negb (validRoles_includes role) then
        throw (Err "Invalid role. Must be admin, manager, or viewer")
      else
        doc ← User_create (toLowerCase e) pw n
                (default viewer (role_of_string (default "viewer" (truthy (Some role)))))
                true;
        let tokens := generateTokens env now (_id doc) in
        mret {| lr_user := userData doc;
                lr_accessToken := accessToken tokens;
                lr_refreshToken := refreshToken tokens |}
  end.

(** controllers/authController.js: [register] *)
Definition register (req : Request) : Async Step :=
  try_catch_async
    (match body req with
     | None =>
         mret (Respond (json_error 400
           "Request body is missing or invalid. Please ensure Content-Type is application/json"))
     | Some b =>
         match truthy (b !! "email"), truthy (b !! "password"), truthy (b !! "name") with
         | Some e, Some pw, Some n =>
             if Nat.ltb (js_length pw) 6 then
               mret (Respond (json_error 400 "Password must be at least 6 characters"))
             else if bool_decide (is_Some (truthy (b !! "role")))
                     && negb (validRoles_includes (default EmptyString (b !! "role"))) then
               mret (Respond (json_error 400
                 "Invalid role. Must be admin, manager, or viewer"))
             else
               result ← registerUser e pw n (b !! "role");
               _ ← fire_and_forget
                     (logActivity (ud_id (lr_user result)) act_login (Some "auth") None
                        (Some req));
               mret (Respond
                 {| status := 201; success := true; res_message := None;
                    data := data_session (lr_user result) (lr_accessToken result);
                    cookie_ops :=
                      [res_cookie "refreshToken" (lr_refreshToken result)
                         (refresh_cookie_options env)] |})
         | _, _, _ =>
             mret (Respond (json_error 400 "Email, password, and name are required"))
         end
     end)
    (fun error =>
       _ ← modify (with_console (fun c =>
             c ++ ["Registration error: " +:+ message error; "Error stack:"]));
       mret (Respond (json_error 400 (message_or error "Registration failed")))).

(** services/userService.js: [deleteUser] and [toggleUserStatus].  The
    guard of [deleteUser] compares the two ids as strings; the queries after
    it go by the ObjectId the string casts to. *)
Definition deleteUser (userId currentUserId : string) : Async unit :=
  if decide (userId = currentUserId) then
    throw (Err "You cannot delete your own account")
  else
    match castObjectId userId with
    | None => throw (cast_error userId)
    | Some k =>
        found ← User_findById k;
        match found with
        | None => throw (Err "User not found")
        | Some _ => modify (with_users (delete k))
        end
    end.

Definition toggleUserStatus (userId : string) : Async (option PublicUser) :=
  found ← User_findById userId;
  match found with
  | None => throw (Err "User not found")
  | Some doc =>
      let doc := assign path_isActive
                   (with_isActive (negb (isActive (fields doc))) (fields doc)) doc in
      _ ← save_validated doc;
      again ← User_findById userId;
      mret (select_without_password <$> again)
  end.

(** controllers/userController.js: [remove], for the route parameter
    [id]. *)
Definition remove (id : string) (req : Request) : Async Step :=
  try_catch_async
    (u ← req_user_userId req;
     let currentUserId := userId (decoded u) in
     _ ← deleteUser id currentUserId;
     _ ← fire_and_forget
           (logActivity currentUserId act_user_deleted (Some "user") (Some id) (Some req));
     mret (Respond
       {| status := 200; success := true; res_message := Some "User deleted successfully";
          data := no_data; cookie_ops := [] |}))
    (fun error =>
       let statusCode :=
         if decide (message error = "You cannot delete your own account") then 403
         else if decide (message error = "User not found") then 404
         else 400 in
       mret (Respond (json_error statusCode (message_or error "Failed to delete user")))).
End UserService.

(** ** server.js: the origin check of the CORS middleware *)

(** The [origin] callback, for the parsed list of allowed origins:
    whether the request's origin is let in. *)
Definition cors_origin_allowed (allAllowedOrigins : list string) (env : Env)
    (origin : option string) : bool :=
  match truthy origin with
  | None => true
  | Some o =>
      if bool_decide (o ∈ allAllowedOrigins) then true
      else if Client.includes ".netlify.app" o then true
      else if negb (bool_decide (NODE_ENV env = "production")) then true
      else false
  end.

(** ** The client, continued: the auth hook and the theme setting *)

(** features/auth/slice/authSlice.ts: [updateAccessToken] *)
Definition updateAccessToken (token : string) (st : Client.AuthState) (b : Client.Browser)
    : Client.AuthState * Client.Browser :=
  ({| Client.auth_user := Client.auth_user st;
      Client.auth_accessToken := Some token;
      Client.auth_refreshToken := Client.auth_refreshToken st;
      Client.isAuthenticated := Client.isAuthenticated st |},
   Client.setAccessToken token b).

(** features/auth/hooks/useAuth.ts: [logout].  The logout call, then,
    whatever became of it, the [logout] reducer and the way to the login
    page. *)
Definition useAuth_logout `{Client.Network} (API_BASE_URL : string) (fuel : nat)
    (st : Client.AuthState) (c : Client.ClientState)
    : option (Client.AuthState * Client.ClientState) :=
  match Client.axiosBaseQuery API_BASE_URL fuel (Some "/auth/logout") POST None c with
  | None => None
  | Some (_, c') =>
      let '(st', b') := Client.logout st (Client.browser c') in
      Some (st', {| Client.browser := Client.with_pathname "/login" b';
                    Client.wire := Client.wire c' |})
  end.

(** utils/storage.ts: [themeStorage] *)
Inductive ThemeMode := theme_light | theme_dark | theme_system.

Definition theme_name (m : ThemeMode) : string :=
  match m with
  | theme_light => "light"
  | theme_dark => "dark"
  | theme_system => "system"
  end.

Definition getTheme (b : Client.Browser) : ThemeMode :=
  match Client.storage_getItem "theme" b with
  | Some t =>
      if decide (t = "dark") then theme_dark
      else if decide (t = "light") then theme_light
      else theme_system
  | None => theme_system
  end.

Definition setTheme (m : ThemeMode) (b : Client.Browser) : Client.Browser :=
  match m with
  | theme_system => Client.storage_removeItem "theme" b
  | _ => Client.storage_setItem "theme" (theme_name m) b
  end.

Fixpoint tally (n : nat) : string :=
  match n with
  | O => EmptyString
  | S k => String "f" (tally k)
  end.

(** A database layer for the examples: it accepts every document and
    numbers new documents by the size of the collection. *)
Definition sample_mongoose : Mongoose :=
  {| new_ObjectId db := "64f0c0ff" +:+ tally (size db);
     validation_error _ := None;
     duplicate_key_error e := Err ("E11000 duplicate key error: " +:+ e) |}.

(** A database layer whose validation refuses every document. *)
Definition strict_mongoose : Mongoose :=
  {| new_ObjectId db := "64f0c0ff" +:+ tally (size db);
     validation_error _ := Some (Err "User validation failed");
     duplicate_key_error e := Err ("E11000 duplicate key error: " +:+ e) |}.

(** The sample account as an administrator's, with a second account. *)
Definition two_users_state : ServerState :=
  {| users := {[ "64f0c0ffee" := sample_user admin;
                 "64f0c0ffab" :=
                   {| email := "bob@example.com"; password := "pepper$hunter22";
                      name := "Bob"; role := viewer; isActive := true;
                      lastLogin := None; createdAt := 2000; updatedAt := 2000 |} ]};
     activityLogs := []; console := []; unhandledRejections := [] |}.

(** A stored user after its status was toggled at [now]. *)
Definition toggled (now : Z) (u : User) : User :=
  {| email := email u; password := password u; name := name u; role := role u;
     isActive := negb (isActive u); lastLogin := lastLogin u;
     createdAt := createdAt u; updatedAt := now |}.

(** A registration call. *)
Definition sample_register_request (e pw n : string) : Request :=
  {| method := POST; url := "/register"; headers := ∅; cookies := ∅;
     body := Some {[ "email" := e; "password" := pw; "name" := n ]};
     user := None; connection_remoteAddress := None;
     socket_remoteAddress := None |}.

(** The user [User.create] stores for a registration. *)
Definition registered_user `{Bcrypt} (now : Z) (salt e pw n : string) (r : Role) : User :=
  {| email := trim (toLowerCase e); password := bcrypt_hash pw salt; name := trim n;
     role := r; isActive := true; lastLogin := None;
     createdAt := now; updatedAt := now |}.

(** The role a registration ends up with. *)
Definition registered_role (r : option string) : Role :=
  default viewer (role_of_string (default "viewer" (truthy (Some (default "viewer" r))))).

(** A browser that holds a session, on the dashboard, with a theme chosen. *)
Definition signed_in_client : Client.ClientState :=
  {| Client.browser :=
       {| Client.localStorage :=
            {[ "accessToken" := "access-1"; "refreshToken" := "refresh-1";
               "user" := "{ada}"; "theme" := "dark" ]};
          Client.storage_available := true;
          Client.pathname := "/dashboard" |};
     Client.wire := [] |}.

(** The same browser with its storage out of reach (private mode). *)
Definition private_browser : Client.Browser :=
  {| Client.localStorage := ∅; Client.storage_available := false;
     Client.pathname := "/login" |}.

(** The auth state of a client that is not signed in. *)
Definition no_session : Client.AuthState :=
  {| Client.auth_user := None; Client.auth_accessToken := None;
     Client.auth_refreshToken := None; Client.isAuthenticated := false |}.

(** A server that takes the access token [access-2] only and hands it
    out for the refresh token [refresh-1]. *)
Definition refreshing_server : Client.Network :=
  {| Client.server history ev :=
       match ev with
       | Client.ev_request cfg =>
           if bool_decide (Client.Authorization cfg = Some "Bearer access-2") then
             Client.wire_response 200
               {| Client.b_success := true; Client.b_message := None;
                  Client.b_data := None |}
           else
             Client.wire_response 401
               {| Client.b_success := false;
                  Client.b_message := Some "Invalid or expired access token";
                  Client.b_data := None |}
       | Client.ev_refresh token =>
           if bool_decide (token = "refresh-1") then
             Client.wire_response 200
               {| Client.b_success := true; Client.b_message := None;
                  Client.b_data :=
                    Some {| Client.d_user := None;
                            Client.d_accessToken := Some "access-2";
                            Client.d_refreshToken := None |} |}
           else
             Client.wire_response 401
               {| Client.b_success := false;
                  Client.b_message := Some "Invalid or expired refresh token";
                  Client.b_data := None |}
       end |}.

(** An email in the form the schema stores: [lowercase] and [trim] leave
    it as it is.  Mongoose casts the filter of a query through the same
    setters, so a query for such an email looks for the very string given. *)
Definition stored_form (e : string) : Prop := trim (toLowerCase e) = e.

(** The cast of a string to an ObjectId as the current driver does it: a
    string of 24 hexadecimal digits, in either case, is an ObjectId, rendered
    in lower case; every other string is refused. *)
Definition is_hex_digit (c : ascii) : bool :=
  let n := nat_of_ascii c in
  (Nat.leb 48 n && Nat.leb n 57) || (Nat.leb 65 n && Nat.leb n 70)
  || (Nat.leb 97 n && Nat.leb n 102).

Fixpoint all_hex (s : string) : bool :=
  match s with
  | EmptyString => true
  | String c rest => is_hex_digit c && all_hex rest
  end.

Definition hex_cast : ObjectIdCast :=
  {| castObjectId id :=
       if Nat.eqb (String.length id) 24 && all_hex id then Some (toLowerCase id)
       else None |}.

(** An administrator and a second account, under ObjectIds. *)
Definition hex_admin_id : string := "64f0c0ffee64f0c0ffee64f0".
Definition hex_other_id : string := "64f0c0ffab64f0c0ffab64f0".

Definition hex_users_state : ServerState :=
  {| users := {[ hex_admin_id := sample_user admin;
                 hex_other_id :=
                   {| email := "bob@example.com"; password := "pepper$hunter22";
                      name := "Bob"; role := viewer; isActive := true;
                      lastLogin := None; createdAt := 2000; updatedAt := 2000 |} ]};
     activityLogs := []; console := []; unhandledRejections := [] |}.

(** A [DELETE] call that carries the access token issued at instant 5000
    to that administrator. *)
Definition hex_admin_request : Request :=
  request_with DELETE "/"
    (Some ("Bearer " +:+
           accessToken (@generateTokens symbolic_jwt sample_env 5000 hex_admin_id))).

(** * Properties *)

(** ** The result monad and the library model *)

Lemma bits_to_pos_to_bits p : bits_to_pos (pos_to_bits p) = Some p.
Proof. induction p as [q IH|q IH|]; simpl; rewrite ?IH; done. Qed.

Lemma symbolic_codec_ok : @codec_ok symbolic_jwt.
Proof.
  intros j. simpl. rewrite bits_to_pos_to_bits. simpl. apply decode_encode.
Qed.



Lemma clockTimestamp_lt (t e : Z) : clockTimestamp t < e <-> t < e * 1000.
Proof.
  unfold clockTimestamp.
  pose proof (Z.div_mod t 1000 ltac:(lia)) as E.
  pose proof (Z.mod_pos_bound t 1000 ltac:(lia)) as B.
  lia.
Qed.

(** The expiry instant is fifteen minutes (seven days) after issuance,
    short of the part of a second [iat] drops. *)
Lemma access_expiry_bounds (t0 : Z) :
  t0 + 15 * 60 * 1000 - 999 <= access_expiry t0 <= t0 + 15 * 60 * 1000.
Proof.
  unfold access_expiry, clockTimestamp, ACCESS_TOKEN_EXPIRY.
  pose proof (Z.div_mod t0 1000 ltac:(lia)) as E.
  pose proof (Z.mod_pos_bound t0 1000 ltac:(lia)) as B.
  lia.
Qed.

Lemma refresh_expiry_bounds (t0 : Z) :
  t0 + 7 * 24 * 60 * 60 * 1000 - 999 <= refresh_expiry t0 <= t0 + 7 * 24 * 60 * 60 * 1000.
Proof.
  unfold refresh_expiry, clockTimestamp, REFRESH_TOKEN_EXPIRY.
  pose proof (Z.div_mod t0 1000 ltac:(lia)) as E.
  pose proof (Z.mod_pos_bound t0 1000 ltac:(lia)) as B.
  lia.
Qed.

Section TokenProperties.
Context `{JwtLibrary}.

(** Verifying, under the signing secret, a token that [jwt.sign] made
    with life time [d] at [t0]: the payload until [exp], expired from
    then on. *)
Lemma jwt_verify_sign uid ty k d t0 t :
  codec_ok ->
  jwt_verify (jwt_sign uid ty k d t0) k t =
    if decide (clockTimestamp t0 + d <= clockTimestamp t) then inl TokenExpiredError
    else inr {| userId := uid; type := ty; iat := clockTimestamp t0;
                exp := Some (clockTimestamp t0 + d) |}.
Proof.
  intros Hc. unfold jwt_verify, jwt_sign. rewrite Hc. simpl.
  rewrite decide_True by done. done.
Qed.

(** Under another secret the signature does not verify. *)
Lemma jwt_verify_other_secret uid ty k k' d t0 t :
  codec_ok -> mac_keyed -> k <> k' ->
  jwt_verify (jwt_sign uid ty k d t0) k' t = inl (JsonWebTokenError "invalid signature").
Proof.
  intros Hc Hm Hk. unfold jwt_verify, jwt_sign. rewrite Hc. simpl.
  rewrite decide_False; [done|]. intros E. by apply Hm in E.
Qed.
End TokenProperties.

(** ** The token service *)

Section TokenService.
Context `{JwtLibrary}.
Variable env : Env.

Lemma verifyAccessToken_issued uid t0 t :
  codec_ok ->
  verifyAccessToken env t (accessToken (generateTokens env t0 uid)) =
    if decide (t < access_expiry t0) then Ok (access_payload uid t0)
    else Throw (Err "Invalid or expired access token").
Proof.
  intros Hc. unfold verifyAccessToken, jwt_verify_throwing, generateTokens. simpl.
  rewrite jwt_verify_sign by done.
  unfold access_expiry. pose proof (clockTimestamp_lt t (clockTimestamp t0 + ACCESS_TOKEN_EXPIRY)).
  repeat case_decide; simpl; try done; lia.
Qed.

Lemma verifyRefreshToken_issued uid t0 t :
  codec_ok ->
  verifyRefreshToken env t (refreshToken (generateTokens env t0 uid)) =
    if decide (t < refresh_expiry t0) then Ok (refresh_payload uid t0)
    else Throw (Err "Invalid or expired refresh token").
Proof.
  intros Hc. unfold verifyRefreshToken, jwt_verify_throwing, generateTokens. simpl.
  rewrite jwt_verify_sign by done.
  unfold refresh_expiry.
  pose proof (clockTimestamp_lt t (clockTimestamp t0 + REFRESH_TOKEN_EXPIRY)).
  repeat case_decide; simpl; try done; lia.
Qed.

(** C2. The pair that [generateTokens] issues for a subject at [t0]:
    [verifyAccessToken] accepts the access token, and
    [verifyRefreshToken] the refresh token, at every instant before the
    token's expiry, decoding to that subject; each refuses its token at
    the expiry and at every instant after it.  The expiries are those
    of [access_expiry_bounds] and [refresh_expiry_bounds]: 15 minutes
    and 7 days. *)
Theorem issued_pair_verifies_until_expiry (uid : string) (t0 t : Z) :
  codec_ok ->
  let pair := generateTokens env t0 uid in
  (t < access_expiry t0 ->
     exists p, verifyAccessToken env t (accessToken pair) = Ok p /\ userId p = uid) /\
  (access_expiry t0 <= t ->
     verifyAccessToken env t (accessToken pair)
       = Throw (Err "Invalid or expired access token")) /\
  (t < refresh_expiry t0 ->
     exists p, verifyRefreshToken env t (refreshToken pair) = Ok p /\ userId p = uid) /\
  (refresh_expiry t0 <= t ->
     verifyRefreshToken env t (refreshToken pair)
       = Throw (Err "Invalid or expired refresh token")).
Proof.
  intros Hc pair. subst pair.
  rewrite verifyAccessToken_issued, verifyRefreshToken_issued by done.
  repeat split; intros Ht.
  - rewrite decide_True by done. by eexists.
  - rewrite decide_False by lia. done.
  - rewrite decide_True by done. by eexists.
  - rewrite decide_False by lia. done.
Qed.



End TokenService.

Lemma issued_pair_verifies_until_expiry_witness :
  let pair := @generateTokens symbolic_jwt sample_env 5000 "64f0c0ffee" in
  (exists p, @verifyAccessToken symbolic_jwt sample_env 904999 (accessToken pair) = Ok p
             /\ userId p = "64f0c0ffee") /\
  @verifyAccessToken symbolic_jwt sample_env 905000 (accessToken pair)
    = Throw (Err "Invalid or expired access token") /\
  (exists p, @verifyRefreshToken symbolic_jwt sample_env 604804999 (refreshToken pair) = Ok p
             /\ userId p = "64f0c0ffee") /\
  @verifyRefreshToken symbolic_jwt sample_env 604805000 (refreshToken pair)
    = Throw (Err "Invalid or expired refresh token").
Proof.
  intros pair.
  pose proof (@issued_pair_verifies_until_expiry symbolic_jwt sample_env
                "64f0c0ffee" 5000 904999 symbolic_codec_ok) as (A1 & _ & R1 & _).
  pose proof (@issued_pair_verifies_until_expiry symbolic_jwt sample_env
                "64f0c0ffee" 5000 905000 symbolic_codec_ok) as (_ & A2 & _ & _).
  pose proof (@issued_pair_verifies_until_expiry symbolic_jwt sample_env
                "64f0c0ffee" 5000 604805000 symbolic_codec_ok) as (_ & _ & _ & R2).
  pose proof (@issued_pair_verifies_until_expiry symbolic_jwt sample_env
                "64f0c0ffee" 5000 604804999 symbolic_codec_ok) as (_ & _ & R3 & _).
  split; [|split; [|split]].
  - apply A1. reflexivity.
  - apply A2. vm_compute. discriminate.
  - apply R3. reflexivity.
  - apply R2. vm_compute. discriminate.
Defined.



(** ** Refreshing *)

Section Refresh.
Context `{JwtLibrary}.
Variable env : Env.
Variable now : Z.

Lemma verifyRefreshToken_defect token :
  refresh_token_defect env now token ->
  verifyRefreshToken env now token = Throw (Err "Invalid or expired refresh token").
Proof.
  unfold refresh_token_defect, verifyRefreshToken, jwt_verify_throwing, jwt_verify.
  destruct (jwt_decode token) as [j|]; [|done].
  intros [Hs|[(e & He & Hle)|Ht]].
  - by rewrite decide_False.
  - rewrite He. repeat case_decide; simpl; repeat case_decide; done || lia.
  - destruct (exp (payload j)); repeat case_decide; simpl; repeat case_decide; done.
Qed.

Lemma verifyRefreshToken_sound token :
  ~ refresh_token_defect env now token ->
  exists j, jwt_decode token = Some j /\
            verifyRefreshToken env now token = Ok (payload j).
Proof.
  unfold refresh_token_defect, verifyRefreshToken, jwt_verify_throwing, jwt_verify.
  destruct (jwt_decode token) as [j|]; [|tauto].
  intros Hn. exists j. split; [done|].
  destruct (decide (signature j = hmac (JWT_REFRESH_SECRET env) (payload j)))
    as [Hsig|Hsig]; [|tauto].
  destruct (decide (type (payload j) = Some "refresh")) as [Ht|Ht]; [|tauto].
  destruct (exp (payload j)) as [x|] eqn:He; simpl.
  - destruct (decide (x <= clockTimestamp now)) as [Hx|Hx].
    + exfalso. apply Hn. right. left. by exists x.
    + simpl. by rewrite decide_True.
  - by rewrite decide_True.
Qed.

(** [refreshAccessToken] as one equation: on every token and store. *)
Lemma refreshAccessToken_unfold token s :
  refreshAccessToken env now token s =
    match verifyRefreshToken env now token with
    | Throw e => (Throw e, s)
    | Ok p =>
        match users s !! userId p with
        | None => (Throw (Err "User not found"), s)
        | Some _ => (Ok (generateTokens env now (userId p)), s)
        end
    end.
Proof.
  unfold refreshAccessToken, lift, mbind, Async_bind, User_findById, gets.
  destruct (verifyRefreshToken env now token) as [p|e]; [|done].
  destruct (users s !! userId p); simpl; [|done].
  reflexivity.
Qed.

(** C4. [refreshAccessToken] on any token: a token that does not
    parse, has a bad signature, has expired or is not of type
    ['refresh'] fails with the generic invalid-or-expired error; a token
    that verifies but whose subject is not in the user collection fails
    with ['User not found']; any other token yields the pair that
    [generateTokens] issues now for the subject, and the access token of
    that pair verifies, decoding to the subject.  The store is left as
    it was in every case. *)
Theorem refreshAccessToken_spec (token : string) (s : ServerState) :
  codec_ok ->
  (refresh_token_defect env now token ->
     refreshAccessToken env now token s
       = (Throw (Err "Invalid or expired refresh token"), s)) /\
  (~ refresh_token_defect env now token ->
     exists p, verifyRefreshToken env now token = Ok p /\
       match users s !! userId p with
       | None =>
           refreshAccessToken env now token s = (Throw (Err "User not found"), s)
       | Some _ =>
           refreshAccessToken env now token s
             = (Ok (generateTokens env now (userId p)), s) /\
           verifyAccessToken env now (accessToken (generateTokens env now (userId p)))
             = Ok (access_payload (userId p) now)
       end).
Proof.
  intros Hc. rewrite refreshAccessToken_unfold. split.
  - intros Hd. by rewrite verifyRefreshToken_defect.
  - intros Hn. destruct (verifyRefreshToken_sound token Hn) as (j & _ & Hv).
    exists (payload j). split; [done|]. rewrite Hv.
    destruct (users s !! userId (payload j)); [|done].
    split; [done|]. rewrite verifyAccessToken_issued by done.
    rewrite decide_True; [done|].
    pose proof (access_expiry_bounds now). lia.
Qed.
End Refresh.

Lemma refreshAccessToken_spec_witness :
  let issued := refreshToken (@generateTokens symbolic_jwt sample_env 5000 "64f0c0ffee") in
  @refreshAccessToken symbolic_jwt sample_env 6000 "not-a-token" (sample_state viewer)
    = (Throw (Err "Invalid or expired refresh token"), sample_state viewer) /\
  @refreshAccessToken symbolic_jwt sample_env 6000 issued (sample_state viewer)
    = (Ok (@generateTokens symbolic_jwt sample_env 6000 "64f0c0ffee"), sample_state viewer).
Proof.
  intros issued.
  split.
  - apply (@refreshAccessToken_spec symbolic_jwt sample_env 6000 "not-a-token"
             (sample_state viewer) symbolic_codec_ok).
    vm_compute. exact I.
  - destruct (@refreshAccessToken_spec symbolic_jwt sample_env 6000 issued
                (sample_state viewer) symbolic_codec_ok) as [_ Hvalid].
    destruct Hvalid as (p & Hv & Hm).
    + vm_compute. intros [Hs|[(x & Hx & Hle)|Ht]].
      * by apply Hs.
      * injection Hx as <-. by apply Hle.
      * by apply Ht.
    + assert (p = refresh_payload "64f0c0ffee" 5000) as ->.
      { vm_compute in Hv. injection Hv as <-. reflexivity. }
      apply Hm.
Defined.

(** ** The auth middleware *)

Lemma split_on_no_separator c s : has_char c s = false -> split_on c s = [s].
Proof.
  induction s as [|a rest IH]; simpl; [done|].
  intros Hc. apply orb_false_iff in Hc as [Ha Hrest].
  apply bool_decide_eq_false in Ha.
  rewrite decide_False by done. by rewrite IH.
Qed.

(** The standard header [Bearer <token>] yields the token. *)
Lemma bearer_token_standard (req : Request) (token : string) :
  headers req !! "authorization" = Some ("Bearer " +:+ token) ->
  token <> EmptyString -> has_char " " token = false ->
  bearer_token req = Some token.
Proof.
  intros Hh Hne Hsp. unfold bearer_token. rewrite Hh. simpl.
  change (EmptyString +:+ token) with token.
  rewrite (split_on_no_separator _ _ Hsp). simpl.
  by rewrite decide_False.
Qed.

Lemma bearer_token_no_header (req : Request) :
  headers req !! "authorization" = None -> bearer_token req = None.
Proof. intros Hh. unfold bearer_token. by rewrite Hh. Qed.

Lemma bearer_token_other_scheme (req : Request) (a : string) :
  headers req !! "authorization" = Some a -> startsWith "Bearer" a = false ->
  bearer_token req = None.
Proof.
  intros Hh Hs. unfold bearer_token, truthy at 1. rewrite Hh.
  destruct (decide (a = EmptyString)); [done|]. by rewrite Hs.
Qed.

Section Middleware.
Context `{JwtLibrary}.
Variable env : Env.
Variable now : Z.

(** Every error of [verifyAccessToken] has the one generic message. *)
Lemma verifyAccessToken_error token e :
  verifyAccessToken env now token = Throw e ->
  e = Err "Invalid or expired access token".
Proof.
  unfold verifyAccessToken.
  destruct (jwt_verify_throwing token (JWT_SECRET env) now); simpl; congruence.
Qed.

Lemma protect_without_token (req : Request) (s : ServerState) :
  bearer_token req = None ->
  protect env now req s
    = (Ok (Respond (json_error 401 "Not authorized, no token provided")), s).
Proof. intros Hb. unfold protect, try_catch_async. by rewrite Hb. Qed.

Lemma protect_refused_token (req : Request) (s : ServerState) (token : string) (e : Error) :
  bearer_token req = Some token -> verifyAccessToken env now token = Throw e ->
  protect env now req s
    = (Ok (Respond (json_error 401 "Invalid or expired access token")), s).
Proof.
  intros Hb Hv. pose proof (verifyAccessToken_error _ _ Hv) as ->.
  unfold protect, try_catch_async. rewrite Hb.
  unfold mbind, Async_bind, lift. by rewrite Hv.
Qed.

Lemma protect_accepted_token (req : Request) (s : ServerState) (token : string) (p : Payload) :
  bearer_token req = Some token -> verifyAccessToken env now token = Ok p ->
  protect env now req s
    = (Ok (Next (with_user {| decoded := p; req_role := None; req_userData := None |}
                   req)), s).
Proof.
  intros Hb Hv. unfold protect, try_catch_async. rewrite Hb.
  unfold mbind, Async_bind, lift. by rewrite Hv.
Qed.

(** C5. [protect] on any request; the server state is never touched.

    No bearer token: when the request has no Authorization header, or one
    that does not start with ['Bearer'], or one from which
    [authorization.split(' ')[1]] takes nothing, the response is 401 'Not
    authorized, no token provided'.

    A token that fails: when the header is ['Bearer ' + token] (or the
    extraction yields [token] in any other way) and [verifyAccessToken]
    refuses the token, the response is 401 with the verifier's message.

    A token that verifies: [next()] is called with the request as it came,
    but for [req.user], which now is the decoded payload, whose [userId] is
    the subject identifier of the token. *)
Theorem protect_spec (req : Request) (s : ServerState) :
  let unauthorized msg :=
    (Ok (Respond {| status := 401; success := false; res_message := Some msg;
                    data := no_data; cookie_ops := [] |}), s) in
  let presents token :=
    (headers req !! "authorization" = Some ("Bearer " +:+ token) /\
     token <> EmptyString /\ has_char " " token = false)
    \/ bearer_token req = Some token in
  (headers req !! "authorization" = None ->
   protect env now req s = unauthorized "Not authorized, no token provided") /\
  (forall a, headers req !! "authorization" = Some a -> startsWith "Bearer" a = false ->
   protect env now req s = unauthorized "Not authorized, no token provided") /\
  (bearer_token req = None ->
   protect env now req s = unauthorized "Not authorized, no token provided") /\
  (forall token e,
     presents token -> verifyAccessToken env now token = Throw e ->
     protect env now req s = unauthorized "Invalid or expired access token") /\
  (forall token p,
     presents token -> verifyAccessToken env now token = Ok p ->
     exists req',
       protect env now req s = (Ok (Next req'), s) /\
       user req' = Some {| decoded := p; req_role := None; req_userData := None |} /\
       (userId ∘ decoded) <$> user req' = Some (userId p) /\
       method req' = method req /\ url req' = url req /\ headers req' = headers req /\
       cookies req' = cookies req /\ body req' = body req /\
       connection_remoteAddress req' = connection_remoteAddress req /\
       socket_remoteAddress req' = socket_remoteAddress req).
Proof.
  intros unauthorized presents.
  assert (forall token, presents token -> bearer_token req = Some token) as Hext.
  { intros token [(Hh & Hne & Hsp)|Hb]; [|done]. by apply bearer_token_standard. }
  split; [|split; [|split; [|split]]].
  - intros Hh. apply protect_without_token. by apply bearer_token_no_header.
  - intros a Hh Hs. apply protect_without_token. by apply (bearer_token_other_scheme req a).
  - apply protect_without_token.
  - intros token e Hp Hv. by apply (protect_refused_token req s token e); [apply Hext|].
  - intros token p Hp Hv. eexists. split.
    + by apply (protect_accepted_token req s token p); [apply Hext|].
    + done.
Qed.

(** The three outcomes are all there is: [protect] answers 401 or calls
    [next()] with [req.user] set. *)
Lemma protect_cases (req : Request) (s : ServerState) :
  (exists r, protect env now req s = (Ok (Respond r), s) /\ status r = 401) \/
  (exists p, protect env now req s
     = (Ok (Next (with_user {| decoded := p; req_role := None; req_userData := None |}
                    req)), s)).
Proof.
  destruct (bearer_token req) as [token|] eqn:Hb.
  - destruct (verifyAccessToken env now token) as [p|e] eqn:Hv.
    + right. exists p. by apply (protect_accepted_token _ _ token).
    + left. eexists. split; [by apply (protect_refused_token _ _ token e)|done].
  - left. eexists. split; [by apply protect_without_token|done].
Qed.
End Middleware.

Lemma protect_spec_witness :
  @protect symbolic_jwt sample_env 6000 (request_with GET "/" None) (sample_state viewer)
  = (Ok (Respond {| status := 401; success := false;
                    res_message := Some "Not authorized, no token provided";
                    data := no_data; cookie_ops := [] |}), sample_state viewer) /\
  @protect symbolic_jwt sample_env 6000 (request_with GET "/" (Some "Bearer forged"))
    (sample_state viewer)
  = (Ok (Respond {| status := 401; success := false;
                    res_message := Some "Invalid or expired access token";
                    data := no_data; cookie_ops := [] |}), sample_state viewer) /\
  exists req',
    @protect symbolic_jwt sample_env 6000 sample_users_request (sample_state viewer)
    = (Ok (Next req'), sample_state viewer) /\
    (userId ∘ decoded) <$> user req' = Some "64f0c0ffee".
Proof.
  split; [|split].
  - apply (proj1 (@protect_spec symbolic_jwt sample_env 6000 (request_with GET "/" None)
                    (sample_state viewer))).
    reflexivity.
  - destruct (@protect_spec symbolic_jwt sample_env 6000
                (request_with GET "/" (Some "Bearer forged")) (sample_state viewer))
      as (_ & _ & _ & Hfail & _).
    apply (Hfail "forged" (Err "Invalid or expired access token")).
    + left. split; [reflexivity|]. split; [discriminate|reflexivity].
    + vm_compute. reflexivity.
  - destruct (@protect_spec symbolic_jwt sample_env 6000 sample_users_request
                (sample_state viewer)) as (_ & _ & _ & _ & Hok).
    destruct (Hok (accessToken (@generateTokens symbolic_jwt sample_env 5000 "64f0c0ffee"))
                (access_payload "64f0c0ffee" 5000)) as (req' & Hp & _ & Hid & _).
    + left. split; [reflexivity|]. split.
      * intros E. apply (f_equal (fun t => bool_decide (t = EmptyString))) in E.
        vm_compute in E. discriminate.
      * vm_compute. reflexivity.
    + apply (verifyAccessToken_issued sample_env "64f0c0ffee" 5000 6000 symbolic_codec_ok).
    + exists req'. split; [exact Hp|exact Hid].
Defined.

(** ** Role checks *)

Section Authorization.
Context `{JwtLibrary}.
Variable env : Env.
Variable now : Z.

Lemma getUserById_found (id : string) (u : User) (s : ServerState) :
  users s !! id = Some u ->
  getUserById id s = (Ok (userData (hydrate id u)), s).
Proof.
  intros Hu. unfold getUserById, mbind, Async_bind, User_findById, gets.
  by rewrite Hu.
Qed.

(** [authorize] on a request that [protect] let through. *)
Lemma authorize_forbidden (roles : list Role) (req : Request) (ru : ReqUser)
    (u : User) (s : ServerState) :
  user req = Some ru -> users s !! userId (decoded ru) = Some u -> role u ∉ roles ->
  authorize roles req s
    = (Ok (Respond (json_error 403
             ("User role '" +:+ role_name (role u)
                +:+ "' is not authorized to access this route"))), s).
Proof.
  intros Hru Hu Hr. unfold authorize, try_catch_async, req_user_userId.
  rewrite Hru. unfold mbind at 1, Async_bind at 1. unfold mret at 1, Async_ret at 1.
  unfold mbind, Async_bind. rewrite (getUserById_found _ _ _ Hu). simpl.
  by rewrite bool_decide_eq_false_2.
Qed.

(** C6. A request with a valid access token whose subject's stored
    role is not among the roles a route allows: after [protect],
    [authorize] looks the subject up in the user collection by the
    token's subject identifier and answers 403, naming the stored role;
    the handler behind it is not run, whatever it is, and the server
    state is unchanged.  [userRoutes] is this chain with the roles
    [[admin]]. *)
Theorem role_gate_forbids (roles : list Role) (handler : Handler)
    (req : Request) (s : ServerState) (token : string) (p : Payload) (u : User) :
  bearer_token req = Some token ->
  verifyAccessToken env now token = Ok p ->
  users s !! userId p = Some u ->
  role u ∉ roles ->
  run_chain [protect env now; authorize roles; handler] req s
    = (Ok (Respond (json_error 403
             ("User role '" +:+ role_name (role u)
                +:+ "' is not authorized to access this route"))), s).
Proof.
  intros Hb Hv Hu Hr.
  pose proof (protect_accepted_token env now req s token p Hb Hv) as Hgood.
  cbn [run_chain]. unfold mbind at 1, Async_bind at 1. rewrite Hgood.
  unfold mbind at 1, Async_bind at 1.
  rewrite (authorize_forbidden roles _ {| decoded := p; req_role := None;
                                           req_userData := None |} u); done.
Qed.
End Authorization.

Lemma role_gate_forbids_witness :
  @userRoutes symbolic_jwt sample_env 6000 sample_userController
     sample_users_request (sample_state viewer)
  = (Ok (Respond (json_error 403
           "User role 'viewer' is not authorized to access this route")),
     sample_state viewer).
Proof.
  apply (@role_gate_forbids symbolic_jwt sample_env 6000 [admin] sample_userController
           sample_users_request (sample_state viewer)
           (accessToken (@generateTokens symbolic_jwt sample_env 5000 "64f0c0ffee"))
           (access_payload "64f0c0ffee" 5000) (sample_user viewer)).
  - apply bearer_token_standard.
    + reflexivity.
    + intros E.
      apply (f_equal (fun t => bool_decide (t = EmptyString))) in E.
      vm_compute in E. discriminate.
    + vm_compute. reflexivity.
  - vm_compute. reflexivity.
  - reflexivity.
  - intros Hin. apply list_elem_of_singleton in Hin. discriminate.
Defined.

(** ** Logging out *)

Section Logout.
Context `{JwtLibrary} `{Bcrypt} `{AuditStore}.
Variable env : Env.
Variable now : Z.
Variable salt : string.

(** Without [req.user] the controller skips the audit call. *)
Lemma logout_without_user (req : Request) (s : ServerState) :
  user req = None -> logout env req s = (Ok (Respond (logout_response env)), s).
Proof. intros Hu. unfold logout. rewrite Hu. reflexivity. Qed.

(** With [req.user] set, as [protect] would set it, and a store that takes
    the entry, the controller does record the logout. *)
Lemma logout_with_user (req : Request) (ru : ReqUser) (s : ServerState) :
  user req = Some ru -> userId (decoded ru) <> EmptyString ->
  (forall entry, audit_fault entry = None) ->
  exists entry,
    logout env req s
      = (Ok (Respond (logout_response env)), with_activityLogs (fun l => l ++ [entry]) s)
    /\ log_userId entry = userId (decoded ru) /\ log_action entry = act_logout.
Proof.
  intros Hu Hne Hup. unfold logout. rewrite Hu. simpl. rewrite decide_False by done.
  eexists. split.
  - unfold mbind, Async_bind, fire_and_forget, logActivity, try_catch_async,
      createActivityLog. rewrite Hup. reflexivity.
  - done.
Qed.

(** What the code does with a logout call (claim C8).  The router of
    routes/authRoutes.js mounts the logout controller with no [protect]
    before it, so a request reaches it as it came from the network, with
    no [req.user]: whatever the request carries, the answer is 200 and
    the server state, the activity log with it, is unchanged. *)
Theorem logout_route_records_nothing (register : Handler) (req : Request) (s : ServerState) :
  method req = POST -> url req = "/logout" -> user req = None ->
  router (authRoutes env now salt register) req s
    = (Ok (Respond (logout_response env)), s).
Proof.
  intros Hm Hp Hu. unfold authRoutes. cbn [router route_method route_path route_chain].
  rewrite Hm, Hp.
  rewrite bool_decide_eq_false_2 by (intros [_ E]; discriminate).
  rewrite bool_decide_eq_false_2 by (intros [_ E]; discriminate).
  rewrite bool_decide_eq_false_2 by (intros [_ E]; discriminate).
  rewrite bool_decide_eq_true_2 by done.
  cbn [run_chain]. unfold mbind, Async_bind.
  rewrite (logout_without_user req s Hu). reflexivity.
Qed.
End Logout.

Lemma logout_route_records_nothing_witness :
  bearer_token sample_logout_request
    = Some (accessToken (@generateTokens symbolic_jwt sample_env 5000 "64f0c0ffee")) /\
  @router
     (@authRoutes symbolic_jwt symbolic_bcrypt audit_up sample_env 6000 "pepper"
        sample_register)
     sample_logout_request (sample_state viewer)
  = (Ok (Respond (logout_response sample_env)), sample_state viewer).
Proof.
  split.
  - apply bearer_token_standard.
    + reflexivity.
    + intros E.
      apply (f_equal (fun t => bool_decide (t = EmptyString))) in E.
      vm_compute in E. discriminate.
    + vm_compute. reflexivity.
  - apply (@logout_route_records_nothing symbolic_jwt symbolic_bcrypt audit_up sample_env
             6000 "pepper" sample_register sample_logout_request (sample_state viewer));
      reflexivity.
Defined.

(** ** The activity logger *)

Section ActivityLogger.
Context `{AuditStore}.

(** [logActivity] settles fulfilled: with the entry appended when the
    store takes it, with one console line and nothing else when the store
    fails with [e]. *)
Lemma logActivity_settles uid action entityType entityId req (s : ServerState) :
  logActivity uid action entityType entityId req s =
    match audit_fault (audit_entry uid action entityType entityId req) with
    | None =>
        (Ok tt, with_activityLogs
                  (fun l => l ++ [audit_entry uid action entityType entityId req]) s)
    | Some e =>
        (Ok tt, with_console
                  (fun c => c ++ ["Failed to create activity log: " +:+ message e]) s)
    end.
Proof.
  unfold logActivity, try_catch_async, mbind, Async_bind, createActivityLog, audit_entry.
  destruct (audit_fault _); reflexivity.
Qed.
End ActivityLogger.

(** ** Logging in: what is written to the user collection *)

Section Login.
Context `{JwtLibrary} `{Bcrypt}.
Variable env : Env.
Variable now : Z.
Variable salt : string.

(** The hook leaves a document alone unless its password was modified,
    and hashes the password when it was. *)
Lemma pre_save_unmodified (doc : UserDocument) :
  isModified doc path_password = false -> pre_save salt doc = doc.
Proof. intros Hm. unfold pre_save. by rewrite Hm. Qed.

Lemma pre_save_modified (doc : UserDocument) :
  isModified doc path_password = true ->
  password (fields (pre_save salt doc)) = bcrypt_hash (password (fields doc)) salt.
Proof. intros Hm. unfold pre_save. by rewrite Hm. Qed.

(** A document that [findOne] returns is a stored one, with no modified
    path. *)
Lemma User_findOne_stored (e : string) (s : ServerState) :
  exists found,
    User_findOne e s = (Ok found, s) /\
    forall doc, found = Some doc ->
      users s !! _id doc = Some (fields doc) /\ modified doc = [] /\
      email (fields doc) = trim (toLowerCase e).
Proof.
  unfold User_findOne, gets. eexists. split; [reflexivity|].
  intros doc Hd.
  destruct (list_find _ _) as [[i [id u]]|] eqn:Hf; [|discriminate].
  injection Hd as <-. apply list_find_Some in Hf as (Hl & He & _).
  simpl in *. split; [|done].
  apply elem_of_map_to_list, list_elem_of_lookup. by exists i.
Qed.

(** Saving a stored document after [doc.lastLogin = new Date()]. *)
Lemma save_after_lastLogin (id : string) (u : User) (s : ServerState) :
  users s !! id = Some u ->
  save now salt (assign path_lastLogin (with_lastLogin (Some now) u) (hydrate id u)) s
    = (Ok (hydrate id (login_update now u)),
       with_users <[id := login_update now u]> s).
Proof.
  intros Hu. unfold login_update.
  destruct (decide (lastLogin u = Some now)) as [Hll|Hll].
  - assert (assign path_lastLogin (with_lastLogin (Some now) u) (hydrate id u) = hydrate id u)
      as ->.
    { unfold assign. rewrite decide_True; [done|].
      destruct u; cbn in *. by rewrite Hll. }
    assert (touch now (pre_save salt (hydrate id u)) = hydrate id u) as Hdoc by reflexivity.
    unfold save. rewrite Hdoc. unfold with_users, hydrate. cbn. do 2 f_equal.
    apply map_eq. intros k. destruct (decide (k = id)) as [->|Hk].
    + by rewrite lookup_alter_eq, lookup_insert_eq, Hu.
    + by rewrite lookup_alter_ne, lookup_insert_ne.
  - assert (assign path_lastLogin (with_lastLogin (Some now) u) (hydrate id u)
            = {| _id := id; fields := with_lastLogin (Some now) u;
                 modified := [path_lastLogin] |}) as ->.
    { unfold assign. rewrite decide_False.
      - by destruct u.
      - destruct u; cbn in *. intros [= E]. by apply Hll. }
    assert (touch now (pre_save salt
              {| _id := id; fields := with_lastLogin (Some now) u;
                 modified := [path_lastLogin] |})
            = assign path_updatedAt (with_updatedAt now (with_lastLogin (Some now) u))
                {| _id := id; fields := with_lastLogin (Some now) u;
                   modified := [path_lastLogin] |}) as Hdoc by reflexivity.
    unfold save. rewrite Hdoc. clear Hdoc. unfold assign. cbn [fields _id modified].
    destruct (decide (copy_path _ path_updatedAt _ = _)) as [E|E];
      unfold with_users, hydrate; cbn [fields _id modified users activityLogs console
                                        unhandledRejections].
    + assert (updatedAt u = now) as Hua by (destruct u; cbn in E; by injection E).
      do 2 f_equal; try (destruct u; cbn in *; by rewrite Hua).
      apply map_eq. intros k. destruct (decide (k = id)) as [->|Hk].
      * rewrite lookup_alter_eq, lookup_insert_eq, Hu. cbn. f_equal.
        destruct u; cbn in *. by rewrite Hua.
      * by rewrite lookup_alter_ne, lookup_insert_ne.
    + do 2 f_equal; try (by destruct u).
      apply map_eq. intros k. destruct (decide (k = id)) as [->|Hk].
      * rewrite lookup_alter_eq, lookup_insert_eq, Hu. cbn. by destruct u.
      * by rewrite lookup_alter_ne, lookup_insert_ne.
Qed.

(** A login that succeeds found an active stored user with that email
    and password, and wrote [login_update] of it; a login that fails
    wrote nothing. *)
Lemma loginUser_cases (e pw : string) (s : ServerState) :
  (exists err, loginUser env now salt e pw s = (Throw err, s)) \/
  (exists id u,
     users s !! id = Some u /\ email u = trim (toLowerCase e) /\ isActive u = true /\
     bcrypt_compare pw (password u) = true /\
     loginUser env now salt e pw s
       = (Ok {| lr_user := userData (hydrate id (login_update now u));
                lr_accessToken := accessToken (generateTokens env now id);
                lr_refreshToken := refreshToken (generateTokens env now id) |},
          with_users <[id := login_update now u]> s)).
Proof.
  destruct (User_findOne_stored e s) as (found & Hf & Hdoc).
  remember (loginUser env now salt e pw s) as outcome eqn:Ho.
  unfold loginUser, mbind at 1, Async_bind at 1 in Ho. rewrite Hf in Ho.
  destruct found as [doc|]; [|left; by eexists].
  destruct (Hdoc doc eq_refl) as (Hu & Hm & He). destruct doc as [id u m].
  simpl in Hu, Hm, He. subst m. cbn [fields] in Ho.
  destruct (isActive u) eqn:Ha; cbn [negb] in Ho; [|left; by eexists].
  unfold comparePassword in Ho. cbn [fields] in Ho.
  destruct (bcrypt_compare pw (password u)) eqn:Hp; cbn [negb] in Ho; [|left; by eexists].
  right. exists id, u. repeat (split; [done|]).
  unfold mbind, Async_bind in Ho.
  change {| _id := id; fields := u; modified := [] |} with (hydrate id u) in Ho.
  rewrite (save_after_lastLogin id u s Hu) in Ho. exact Ho.
Qed.

(** The record [login_update] leaves, field by field. *)
Lemma login_update_fields (u : User) :
  login_update now u
  = {| email := email u; password := password u; name := name u; role := role u;
       isActive := isActive u; lastLogin := Some now; createdAt := createdAt u;
       updatedAt := if decide (lastLogin u = Some now) then updatedAt u else now |}.
Proof.
  unfold login_update. destruct (decide (lastLogin u = Some now)) as [E|E].
  - destruct u; cbn in *. by rewrite E.
  - by destruct u.
Qed.

(** C10. A login that succeeds changes, in the whole server state, one
    stored user only, and of that user the [lastLogin] field, which is the
    login time afterwards, and [updatedAt] only: the password hash and every
    other field are as they were, because the document reaches the save hook
    with a password that is not modified ([pre_save_unmodified]).
    [updatedAt] becomes the login time too, unless [lastLogin] held that very
    instant already: then no path is modified and nothing is written.

    The first part is about [loginUser] as modelled, whose query lower-cases
    the letters A to Z only.  The second part is about the two statements
    that write, [user.lastLogin = new Date(); await user.save()], on any
    stored user: it covers every login whichever user the query returned. *)
Theorem login_writes_lastLogin_only (s : ServerState) :
  (forall e pw r s',
     loginUser env now salt e pw s = (Ok r, s') ->
     exists id u,
       users s !! id = Some u /\ ud_id (lr_user r) = id /\
       users s' !! id
         = Some {| email := email u; password := password u; name := name u;
                   role := role u; isActive := isActive u; lastLogin := Some now;
                   createdAt := createdAt u;
                   updatedAt := if decide (lastLogin u = Some now)
                                then updatedAt u else now |} /\
       (forall id', id' <> id -> users s' !! id' = users s !! id') /\
       activityLogs s' = activityLogs s) /\
  (forall id u,
     users s !! id = Some u ->
     exists doc s',
       save now salt (assign path_lastLogin (with_lastLogin (Some now) u) (hydrate id u)) s
         = (Ok doc, s') /\
       users s' !! id
         = Some {| email := email u; password := password u; name := name u;
                   role := role u; isActive := isActive u; lastLogin := Some now;
                   createdAt := createdAt u;
                   updatedAt := if decide (lastLogin u = Some now)
                                then updatedAt u else now |} /\
       (forall id', id' <> id -> users s' !! id' = users s !! id') /\
       activityLogs s' = activityLogs s).
Proof.
  split.
  - intros e pw r s' Hl.
    destruct (loginUser_cases e pw s) as [(err & Hf)|(id & u & Hu & _ & _ & _ & Hs)];
      [congruence|].
    rewrite Hs in Hl. injection Hl as <- <-. exists id, u.
    split; [done|]. split; [done|]. cbn [users with_users activityLogs].
    split; [by rewrite lookup_insert_eq, login_update_fields|].
    split; [|done]. intros id' Hne. by rewrite lookup_insert_ne.
  - intros id u Hu. rewrite (save_after_lastLogin id u s Hu). eexists _, _.
    split; [reflexivity|]. cbn [users with_users activityLogs].
    split; [by rewrite lookup_insert_eq, login_update_fields|].
    split; [|done]. intros id' Hne. by rewrite lookup_insert_ne.
Qed.

Lemma loginUser_failure_writes_nothing (e pw : string) (s s' : ServerState) (err : Error) :
  loginUser env now salt e pw s = (Throw err, s') -> s' = s.
Proof.
  intros Hl. destruct (loginUser_cases e pw s) as [(err' & Hf)|(id & u & _ & _ & _ & _ & Hs)];
    congruence.
Qed.
End Login.

Lemma login_writes_lastLogin_only_witness :
  exists r s',
    @loginUser symbolic_jwt symbolic_bcrypt sample_env 6000 "pepper"
      " Ada@Example.COM" "correct horse" (sample_state viewer) = (Ok r, s') /\
    users s' !! "64f0c0ffee"
      = Some {| email := "ada@example.com"; password := "pepper$correct horse";
                name := "Ada"; role := viewer; isActive := true;
                lastLogin := Some 6000; createdAt := 1000; updatedAt := 6000 |}.
Proof.
  assert (is_ok (@loginUser symbolic_jwt symbolic_bcrypt sample_env 6000 "pepper"
                   " Ada@Example.COM" "correct horse" (sample_state viewer)).1 = true) as Hok
    by (vm_compute; reflexivity).
  destruct (@loginUser symbolic_jwt symbolic_bcrypt sample_env 6000 "pepper"
              " Ada@Example.COM" "correct horse" (sample_state viewer))
    as [[r|err] s'] eqn:Hl; [|discriminate Hok].
  exists r, s'. split; [reflexivity|].
  destruct (proj1 (@login_writes_lastLogin_only symbolic_jwt symbolic_bcrypt sample_env 6000
                     "pepper" (sample_state viewer))
              " Ada@Example.COM" "correct horse" r s' Hl)
    as (id & u & Hu & _ & Hstored & _).
  cbn [sample_state users] in Hu.
  apply lookup_singleton_Some in Hu as [<- <-]. exact Hstored.
Defined.

(** ** The activity logger never fails its caller *)

Section AuditFailures.
Context `{JwtLibrary} `{Bcrypt}.
Variable env : Env.
Variable now : Z.
Variable salt : string.

(** The login controller, whatever the audit store does: the response is
    the one it gives with any other store, and no promise is left
    rejected. *)
Lemma login_ignores_audit_store (store1 store2 : AuditStore) (req : Request)
    (s : ServerState) :
  (@login _ _ store1 env now salt req s).1 = (@login _ _ store2 env now salt req s).1 /\
  unhandledRejections (@login _ _ store1 env now salt req s).2 = unhandledRejections s.
Proof.
  assert (forall e pw s0 r s1,
            loginUser env now salt e pw s0 = (r, s1) ->
            unhandledRejections s1 = unhandledRejections s0) as Hkeep.
  { intros e pw s0 r s1 Hl.
    destruct (loginUser_cases env now salt e pw s0)
      as [(err & Hf)|(id & u & _ & _ & _ & _ & Hs)]; rewrite Hl in *.
    - by injection Hf as _ ->.
    - by injection Hs as _ ->. }
  unfold login, try_catch_async, mbind, Async_bind, modify, fire_and_forget.
  destruct (body req) as [b|]; [|done].
  destruct (truthy (b !! "email")) as [e|]; [|done].
  destruct (truthy (b !! "password")) as [pw|]; [|done].
  destruct (loginUser env now salt e pw _) as [[r|err] s1] eqn:Hl;
    apply Hkeep in Hl; [|done].
  rewrite !logActivity_settles.
  destruct (@audit_fault store1 _), (@audit_fault store2 _); done.
Qed.
End AuditFailures.

(** C9. [logActivity], on every input and with every store, settles
    fulfilled: when the write fails the error goes to the console and
    nowhere else, the rest of the server state being as it was.  So the
    login controller answers the same whether the audit write fails or
    not, and leaves no rejected promise behind. *)
Theorem logActivity_never_rejects :
  (forall (store : AuditStore) uid action entityType entityId req (s : ServerState),
     exists s',
       logActivity uid action entityType entityId req s = (Ok tt, s') /\
       users s' = users s /\ unhandledRejections s' = unhandledRejections s /\
       forall e, audit_fault (audit_entry uid action entityType entityId req) = Some e ->
         s' = with_console
                (fun c => c ++ ["Failed to create activity log: " +:+ message e]) s) /\
  (forall (jwt : JwtLibrary) (bc : Bcrypt) (failing working : AuditStore)
          env now salt (req : Request) (s : ServerState),
     (@login jwt bc failing env now salt req s).1
       = (@login jwt bc working env now salt req s).1 /\
     unhandledRejections (@login jwt bc failing env now salt req s).2
       = unhandledRejections s).
Proof.
  split.
  - intros store uid action entityType entityId req s.
    rewrite logActivity_settles.
    destruct (audit_fault _) as [e|]; eexists; (split; [reflexivity|]);
      (split; [done|]); (split; [done|]).
    + by intros ? [= <-].
    + by intros ? [=].
  - intros. apply login_ignores_audit_store.
Qed.

(** ** The client interceptor *)

Section Interceptor.
Import Client.
Context `{Network}.
Variable API_BASE_URL : string.

Lemma request_interceptor_retry (config : Config) (b : Browser) :
  _retry (request_interceptor config b) = _retry config.
Proof. unfold request_interceptor. by destruct (truthy _). Qed.

Lemma request_interceptor_url (config : Config) (b : Browser) :
  cfg_url (request_interceptor config b) = cfg_url config.
Proof. unfold request_interceptor. by destruct (truthy _). Qed.

(** An error on a request whose flag is set is handed to the caller. *)
Lemma response_rejected_retried retry (config : Config) response (c : ClientState) :
  _retry config = true ->
  response_rejected API_BASE_URL retry (AxiosError (Some config) response) c
    = Some (Rejected (AxiosError (Some config) response), c).
Proof.
  intros Hr. unfold response_rejected. rewrite Hr.
  by rewrite andb_false_r.
Qed.

(** The interceptor calls the instance on flagged requests only. *)
Lemma response_rejected_ext retry1 retry2 (error : ClientError) (c : ClientState) :
  (forall config c', _retry config = true -> retry1 config c' = retry2 config c') ->
  response_rejected API_BASE_URL retry1 error c
    = response_rejected API_BASE_URL retry2 error c.
Proof.
  intros Hext. unfold response_rejected.
  destruct error as [[config|] response|msg]; try done.
  destruct (_ && _); [|done].
  destruct (truthy _) as [token|]; [|done].
  destruct (refresh_call _ _ _) as [[err|d] c1]; [done|].
  by apply Hext.
Qed.

(** A flagged request: one request on the wire, then the outcome. *)
Lemma apiClient_retried (n : nat) (config : Config) (c : ClientState) :
  _retry config = true ->
  exists r,
    apiClient API_BASE_URL (S n) config c
      = Some (r, {| browser := browser c;
                    wire := wire c ++ [ev_request (request_interceptor config (browser c))] |})
    /\ apiClient API_BASE_URL 1 config c = apiClient API_BASE_URL (S n) config c.
Proof.
  intros Hr. cbn [apiClient]. unfold send.
  pose proof (request_interceptor_retry config (browser c)) as Hr'. rewrite Hr in Hr'.
  destruct (server _ _) as [code b|].
  - destruct (validateStatus code); [by eexists|].
    rewrite !response_rejected_retried by done. by eexists.
  - rewrite !response_rejected_retried by done. by eexists.
Qed.

(** Two levels are all the recursion there is. *)
Lemma apiClient_fuel (n : nat) (config : Config) (c : ClientState) :
  apiClient API_BASE_URL (S (S n)) config c = apiClient API_BASE_URL 2 config c.
Proof.
  assert (forall cfg c', _retry cfg = true ->
            apiClient API_BASE_URL (S n) cfg c' = apiClient API_BASE_URL 1 cfg c') as Hext.
  { intros cfg c' Hr. destruct (apiClient_retried n cfg c' Hr) as (r & _ & E). done. }
  change (apiClient API_BASE_URL (S (S n)) config c) with
    (let config := request_interceptor config (browser c) in
     let '(res, c') := send (ev_request config) c in
     match res with
     | wire_response code b =>
         if validateStatus code then
           Some (Fulfilled {| r_status := code; r_data := b; r_config := Some config |}, c')
         else
           response_rejected API_BASE_URL (apiClient API_BASE_URL (S n))
             (AxiosError (Some config) (Some (code, b))) c'
     | wire_failure =>
         response_rejected API_BASE_URL (apiClient API_BASE_URL (S n))
           (AxiosError (Some config) None) c'
     end).
  cbn [apiClient]. cbv zeta. unfold send.
  destruct (server _ _) as [code b|].
  - destruct (validateStatus code); [done|]. by apply response_rejected_ext.
  - by apply response_rejected_ext.
Qed.
End Interceptor.

Section RetryOnce.
Import Client.
Context `{Network}.
Variable API_BASE_URL : string.

Ltac count_wire :=
  unfold Client.count_requests, Client.count_refreshes; simpl; lia.

(** What [apiClient] puts on the wire for one call. *)
Lemma apiClient_wire (config : Config) (c : ClientState) :
  exists r c' sent,
    apiClient API_BASE_URL 2 config c = Some (r, c') /\
    wire c' = wire c ++ sent /\
    (count_requests sent <= 2)%nat /\ (count_refreshes sent <= 1)%nat.
Proof.
  cbn [apiClient]. cbv zeta. unfold send.
  set (config1 := request_interceptor config (browser c)).
  set (c1 := {| browser := browser c; wire := wire c ++ [ev_request config1] |}).
  assert (forall r : Settled, exists r' c' sent,
            Some (r, c1) = Some (r', c') /\ wire c' = wire c ++ sent /\
            (count_requests sent <= 2)%nat /\ (count_refreshes sent <= 1)%nat) as Hone.
  { intros r. exists r, c1, [ev_request config1].
    split; [reflexivity|]. split; [reflexivity|]. count_wire. }
  assert (forall error, exists r c' sent,
            response_rejected API_BASE_URL (apiClient API_BASE_URL 1) error c1
              = Some (r, c') /\ wire c' = wire c ++ sent /\
            (count_requests sent <= 2)%nat /\ (count_refreshes sent <= 1)%nat) as Hrej.
  { intros error. unfold response_rejected.
    destruct error as [[originalRequest|] response|msg]; try apply Hone.
    destruct (_ && _); [|apply Hone].
    destruct (truthy _) as [token|].
    - unfold refresh_call, send.
      destruct (server _ _) as [code b|].
      + destruct (validateStatus code).
        * destruct (b_data b) as [d|].
          -- match goal with
             | |- context [apiClient _ 1 ?cfg ?c3] =>
                 destruct (apiClient_retried API_BASE_URL 0 cfg c3 eq_refl) as (r & Hr & _);
                 rewrite Hr; exists r; eexists;
                 exists [ev_request config1; ev_refresh token;
                         ev_request (request_interceptor cfg (browser c3))]
             end.
             split; [reflexivity|]. split; [|count_wire].
             destruct (truthy (d_refreshToken d)); simpl; by rewrite <- !app_assoc.
          -- eexists _, _, [ev_request config1; ev_refresh token].
             split; [reflexivity|]. simpl. rewrite <- !app_assoc. split; [reflexivity|count_wire].
        * eexists _, _, [ev_request config1; ev_refresh token].
          split; [reflexivity|]. simpl. rewrite <- !app_assoc. split; [reflexivity|count_wire].
      + eexists _, _, [ev_request config1; ev_refresh token].
        split; [reflexivity|]. simpl. rewrite <- !app_assoc. split; [reflexivity|count_wire].
    - eexists _, _, [ev_request config1].
      split; [reflexivity|]. simpl. split; [reflexivity|count_wire]. }
  destruct (server _ _) as [code b|].
  - destruct (validateStatus code); [apply Hone|apply Hrej].
  - apply Hrej.
Qed.

(** C7. One call of the axios instance, on any server and in any client
    state: it settles, and it puts on the wire at most two requests of the
    instance (the original one and one retry) and at most one refresh
    call.  A request that bears the retry flag, as the one the interceptor
    re-issues does, is sent once and handed to the caller whatever the
    answer: no refresh, no further retry.  The flag is a field of the
    request's own configuration; the client state holds none. *)
Theorem one_retry_per_request (config : Config) (c : ClientState) :
  (exists r c' sent,
     (forall fuel, (2 <= fuel)%nat -> apiClient API_BASE_URL fuel config c = Some (r, c')) /\
     wire c' = wire c ++ sent /\
     (count_requests sent <= 2)%nat /\ (count_refreshes sent <= 1)%nat) /\
  (_retry config = true ->
   exists r,
     forall fuel, (1 <= fuel)%nat ->
       apiClient API_BASE_URL fuel config c
         = Some (r, {| browser := browser c;
                       wire := wire c
                                 ++ [ev_request (request_interceptor config (browser c))] |})).
Proof.
  split.
  - destruct (apiClient_wire config c) as (r & c' & sent & Ha & Hw & Hq & Hf).
    exists r, c', sent. split; [|done].
    intros [|[|n]] Hfuel; try lia. by rewrite apiClient_fuel.
  - intros Hr. destruct (apiClient_retried API_BASE_URL 0 config c Hr) as (r & Hone & _).
    exists r. intros [|n] Hfuel; [lia|].
    destruct (apiClient_retried API_BASE_URL n config c Hr) as (r' & Hn & E).
    rewrite <- E. exact Hone.
Qed.
End RetryOnce.

(** ** Sessions that start with a login *)

Section LoginSession.
Import Client.
Context `{Network}.
Variable API_BASE_URL : string.

(** Writing the user or the access token leaves the refresh token. *)
Lemma getRefreshToken_setItem (key value : string) (b : Browser) :
  key <> REFRESH_TOKEN ->
  getRefreshToken (storage_setItem key value b) = getRefreshToken b.
Proof.
  intros Hk. unfold getRefreshToken, storage_getItem, storage_setItem.
  destruct (storage_available b) eqn:Ha; simpl; rewrite Ha; [|done].
  by rewrite lookup_insert_ne.
Qed.

(** [setCredentials] as the login page calls it, without a refresh
    token, stores none. *)
Lemma setCredentials_no_refresh (u token : option string) (st : AuthState) (b : Browser) :
  getRefreshToken (setCredentials u token None st b).2 = getRefreshToken b.
Proof.
  unfold setCredentials. simpl. unfold setAccessToken, setUser.
  rewrite !getRefreshToken_setItem; done.
Qed.

(** A call to the login endpoint never touches the browser. *)
Lemma apiClient_login_browser (fuel : nat) (config : Config) (c c' : ClientState) (r : Settled)
    (u : string) :
  cfg_url config = Some u -> includes "/auth/login" u = true ->
  apiClient API_BASE_URL fuel config c = Some (r, c') ->
  browser c' = browser c.
Proof.
  intros Hu Hl. destruct fuel as [|n]; [done|].
  cbn [apiClient]. cbv zeta. unfold send, response_rejected.
  rewrite request_interceptor_url, Hu, Hl. cbn [negb].
  destruct (server _ _) as [code b|]; [destruct (validateStatus code)|];
    rewrite ?andb_false_r; intros [= <- <-]; done.
Qed.

(** After [onSubmit], whatever the server answered, the browser holds the
    refresh token it held before. *)
Lemma onSubmit_refresh_token (fuel : nat) (credentials : string) (st st1 : AuthState)
    (c c1 : ClientState) :
  onSubmit API_BASE_URL fuel credentials st c = Some (st1, c1) ->
  getRefreshToken (browser c1) = getRefreshToken (browser c).
Proof.
  unfold onSubmit, axiosBaseQuery. simpl.
  destruct (apiClient _ _ _ _) as [[r c']|] eqn:Ha; [|done].
  eapply (apiClient_login_browser _ _ _ _ _ "/auth/login") in Ha; [|done..].
  destruct r as [r|err].
  - destruct (if b_success (r_data r) then b_data (r_data r) else None) as [d|].
    + pose proof (setCredentials_no_refresh (d_user d) (d_accessToken d) st (browser c'))
        as Hk.
      intros [= <- <-]. rewrite <- Ha. exact Hk.
    + intros [= <- <-]. by rewrite Ha.
  - rewrite andb_false_r. intros [= <- <-]. by rewrite Ha.
Qed.

(** Without a stored refresh token, a 401 on a call that is not a retry
    and not the login is handed to the caller as it is: nothing but the
    call went on the wire, the stored session is cleared and the page is
    sent to the login. *)
Lemma unauthorized_without_refresh_token (n : nat) (config : Config) (c : ClientState)
    (b : Body) :
  truthy (getRefreshToken (browser c)) = None ->
  _retry config = false ->
  (forall u, cfg_url config = Some u -> includes "/auth/login" u = false) ->
  server (wire c) (ev_request (request_interceptor config (browser c)))
    = wire_response 401 b ->
  apiClient API_BASE_URL (S n) config c
    = Some (Rejected (AxiosError (Some (request_interceptor config (browser c)))
                        (Some (401, b))),
            {| browser := redirect_to_login (clearAuthData (browser c));
               wire := wire c ++ [ev_request (request_interceptor config (browser c))] |}).
Proof.
  intros Hk Hr Hu Hs. cbn [apiClient]. cbv zeta. unfold send. rewrite Hs.
  change (validateStatus 401) with false. cbv iota.
  unfold response_rejected.
  rewrite request_interceptor_retry, request_interceptor_url, Hr.
  assert (match cfg_url config with
          | Some u => includes "/auth/login" u
          | None => false
          end = false) as ->.
  { destruct (cfg_url config) as [u|]; [by apply Hu|done]. }
  simpl. rewrite Hk. done.
Qed.

(** What the code does for the session of claim C1.  A browser that holds
    no refresh token logs in through the login page; whatever the login
    answered, the next call to an endpoint other than the login that is
    answered 401 is not refreshed: no refresh call is made, the caller is
    handed the 401, the stored session is cleared and the page goes to the
    login. *)
Theorem login_session_401_reaches_caller (credentials : string) (st st1 : AuthState)
    (c c1 : ClientState) (config : Config) (b : Body) :
  getRefreshToken (browser c) = None ->
  onSubmit API_BASE_URL 2 credentials st c = Some (st1, c1) ->
  _retry config = false ->
  (forall u, cfg_url config = Some u -> includes "/auth/login" u = false) ->
  server (wire c1) (ev_request (request_interceptor config (browser c1)))
    = wire_response 401 b ->
  apiClient API_BASE_URL 2 config c1
    = Some (Rejected (AxiosError (Some (request_interceptor config (browser c1)))
                        (Some (401, b))),
            {| browser := redirect_to_login (clearAuthData (browser c1));
               wire := wire c1 ++ [ev_request (request_interceptor config (browser c1))] |}).
Proof.
  intros Hk Hl Hr Hu Hs.
  apply unauthorized_without_refresh_token; try done.
  by rewrite (onSubmit_refresh_token _ _ _ _ _ _ Hl), Hk.
Qed.
End LoginSession.

Lemma login_session_401_reaches_caller_witness :
  exists st1 c1 b,
    @Client.onSubmit expired_server "/api" 2 "{ada}" signed_out fresh_client = Some (st1, c1) /\
    Client.isAuthenticated st1 = true /\
    Client.getAccessToken (Client.browser c1) = Some "access-1" /\
    @Client.apiClient expired_server "/api" 2 kpis_call c1
      = Some (Client.Rejected
                (Client.AxiosError
                   (Some (Client.request_interceptor kpis_call (Client.browser c1)))
                   (Some (401, b))),
              {| Client.browser :=
                   Client.redirect_to_login (Client.clearAuthData (Client.browser c1));
                 Client.wire :=
                   Client.wire c1
                     ++ [Client.ev_request
                           (Client.request_interceptor kpis_call (Client.browser c1))] |}).
Proof.
  destruct (@Client.onSubmit expired_server "/api" 2 "{ada}" signed_out fresh_client)
    as [[st1 c1]|] eqn:Hl; [|vm_compute in Hl; discriminate Hl].
  exists st1, c1. eexists. split; [reflexivity|].
  assert (Hl' := Hl). vm_compute in Hl'. injection Hl' as Hst Hc.
  split; [by rewrite <- Hst|]. split; [by rewrite <- Hc|].
  apply (@login_session_401_reaches_caller expired_server "/api" "{ada}" signed_out st1
           fresh_client c1 kpis_call _ eq_refl Hl eq_refl).
  - intros u [= <-]. reflexivity.
  - rewrite <- Hc. reflexivity.
Defined.

(** The refresh path itself does what it is written for: with a refresh
    token in storage, a refresh call that succeeds and a server that then
    accepts the request, the caller gets the answer to the retry and never
    sees the 401. *)
Lemma stored_refresh_token_refreshes `{Client.Network} (API_BASE_URL : string)
    (config : Client.Config) (c : Client.ClientState) (b body b2 : Client.Body)
    (token : string) (d : Client.BodyData) :
  truthy (Client.getRefreshToken (Client.browser c)) = Some token ->
  Client._retry config = false ->
  (forall u, Client.cfg_url config = Some u -> Client.includes "/auth/login" u = false) ->
  let first :=
    Client.ev_request (Client.request_interceptor config (Client.browser c)) in
  Client.server (Client.wire c) first = Client.wire_response 401 b ->
  Client.server (Client.wire c ++ [first]) (Client.ev_refresh token)
    = Client.wire_response 200 body ->
  Client.b_data body = Some d ->
  (forall cfg,
     Client.server (Client.wire c ++ [first; Client.ev_refresh token]) (Client.ev_request cfg)
       = Client.wire_response 200 b2) ->
  exists cfg c',
    Client.apiClient API_BASE_URL 2 config c
      = Some (Client.Fulfilled
                {| Client.r_status := 200; Client.r_data := b2;
                   Client.r_config := Some cfg |}, c')
    /\ Client._retry cfg = true.
Proof.
  intros Hk Hr Hu first H401 Hrefresh Hd Hretry.
  cbn [Client.apiClient]. cbv zeta. unfold Client.send at 1. fold first. rewrite H401.
  change (Client.validateStatus 401) with false. cbv iota.
  unfold Client.response_rejected.
  rewrite request_interceptor_retry, request_interceptor_url, Hr.
  assert (match Client.cfg_url config with
          | Some u => Client.includes "/auth/login" u
          | None => false
          end = false) as ->.
  { destruct (Client.cfg_url config) as [u|]; [by apply Hu|done]. }
  simpl. rewrite Hk. unfold Client.refresh_call, Client.send. simpl. rewrite Hrefresh.
  change (Client.validateStatus 200) with true. cbv iota. rewrite Hd.
  assert (forall c3 : Client.ClientState,
            Client.wire c3 = (Client.wire c ++ [first]) ++ [Client.ev_refresh token] ->
            forall cfg, Client.server (Client.wire c3) (Client.ev_request cfg)
                        = Client.wire_response 200 b2) as Hthen.
  { intros c3 -> cfg. rewrite <- app_assoc. apply Hretry. }
  destruct (truthy (Client.d_refreshToken d)); rewrite Hthen by done;
    eexists _, _; (split; [reflexivity|]); by rewrite request_interceptor_retry.
Qed.

(** ** The definitions at work on concrete inputs *)

Example split_on_bearer : split_on " " "Bearer abc.def" = ["Bearer"; "abc.def"].
Proof. reflexivity. Qed.

Example split_on_trailing : split_on " " "Bearer " = ["Bearer"; EmptyString].
Proof. reflexivity. Qed.

Example bearer_token_missing_value :
  bearer_token (request_with GET "/me" (Some "Bearer")) = None /\
  bearer_token (request_with GET "/me" (Some "Bearer ")) = None /\
  bearer_token (request_with GET "/me" (Some "Basic dXNlcjpwdw==")) = None /\
  bearer_token (request_with GET "/me" None) = None.
Proof. repeat split; reflexivity. Qed.

Example protect_no_token :
  @protect symbolic_jwt sample_env 6000 (request_with GET "/me" None) (sample_state viewer)
  = (Ok (Respond (json_error 401 "Not authorized, no token provided")), sample_state viewer).
Proof. reflexivity. Qed.

Example protect_garbage_token :
  @protect symbolic_jwt sample_env 6000 (request_with GET "/me" (Some "Bearer abc.def"))
    (sample_state viewer)
  = (Ok (Respond (json_error 401 "Invalid or expired access token")), sample_state viewer).
Proof. vm_compute. reflexivity. Qed.

Example protect_issued_token :
  match @protect symbolic_jwt sample_env 6000 sample_users_request (sample_state viewer) with
  | (Ok (Next req), _) => decoded <$> user req
  | _ => None
  end = Some (access_payload "64f0c0ffee" 5000).
Proof. vm_compute. reflexivity. Qed.

Example protect_issued_token_expired :
  (@protect symbolic_jwt sample_env (access_expiry 5000) sample_users_request
     (sample_state viewer)).1
  = Ok (Respond (json_error 401 "Invalid or expired access token")).
Proof. vm_compute. reflexivity. Qed.

Example admin_passes_role_gate :
  (@userRoutes symbolic_jwt sample_env 6000 sample_userController
     sample_users_request (sample_state admin)).2
  = with_console (fun c => c ++ ["user controller reached"]) (sample_state admin).
Proof. vm_compute. reflexivity. Qed.

Example audit_down_login_still_succeeds :
  match (@login symbolic_jwt symbolic_bcrypt audit_down sample_env 6000 "pepper"
           {| method := POST; url := "/login"; headers := ∅; cookies := ∅;
              body := Some {[ "email" := "ada@example.com";
                              "password" := "correct horse" ]};
              user := None; connection_remoteAddress := None;
              socket_remoteAddress := None |}
           (sample_state viewer)) with
  | (Ok (Respond r), s') => Some (status r, activityLogs s', length (console s'))
  | _ => None
  end = Some (200, [], 2%nat).
Proof. vm_compute. reflexivity. Qed.

(** With a refresh token in storage and a server that refuses everything,
    one call makes one request and one refresh call, and stops. *)
Example refused_refresh_stops :
  match @Client.apiClient expired_server "/api" 5 kpis_call
          {| Client.browser :=
               {| Client.localStorage := {[ "accessToken" := "access-0";
                                            "refreshToken" := "refresh-0" ]};
                  Client.storage_available := true; Client.pathname := "/dashboard" |};
             Client.wire := [] |} with
  | Some (Client.Rejected e, c') =>
      Some (Client.error_status e, Client.count_requests (Client.wire c'),
            Client.count_refreshes (Client.wire c'), Client.pathname (Client.browser c'),
            Client.getAccessToken (Client.browser c'))
  | _ => None
  end = Some (Some 401, 1%nat, 1%nat, "/login", None).
Proof. vm_compute. reflexivity. Qed.

(** * More of the code: properties beyond the specification's *)

(** ** The role check and the refresh endpoint *)

Lemma authorize_allowed (roles : list Role) (req : Request) (ru : ReqUser) (u : User)
    (s : ServerState) :
  user req = Some ru -> users s !! userId (decoded ru) = Some u -> role u ∈ roles ->
  authorize roles req s
    = (Ok (Next (with_user
                   {| decoded := decoded ru; req_role := Some (role u);
                      req_userData :=
                        Some (userData (hydrate (userId (decoded ru)) u)) |} req)), s).
Proof.
  intros Hu Hs Hin. unfold authorize, try_catch_async, req_user_userId. rewrite Hu.
  unfold mbind, Async_bind, mret at 1, Async_ret at 1.
  rewrite (getUserById_found _ _ _ Hs). simpl.
  by rewrite bool_decide_eq_true_2.
Qed.

(** X1. [authorize] on any request and store: it answers 403 with no
    cookie, or it calls [next()] and then the request carried a
    [req.user] whose subject is stored with a role among the allowed
    ones, which it attaches with the user data.  It never changes the
    server state. *)
Theorem authorize_sound (roles : list Role) (req : Request) (s : ServerState) :
  (exists r, authorize roles req s = (Ok (Respond r), s)
             /\ status r = 403 /\ cookie_ops r = []) \/
  (exists ru u,
     user req = Some ru /\ users s !! userId (decoded ru) = Some u /\ role u ∈ roles /\
     authorize roles req s
       = (Ok (Next (with_user
                      {| decoded := decoded ru; req_role := Some (role u);
                         req_userData :=
                           Some (userData (hydrate (userId (decoded ru)) u)) |} req)), s)).
Proof.
  destruct (user req) as [ru|] eqn:Hu.
  - destruct (users s !! userId (decoded ru)) as [u|] eqn:Hs.
    + destruct (decide (role u ∈ roles)) as [Hin|Hout].
      * right. exists ru, u. repeat (split; [done|]).
        by apply authorize_allowed.
      * left. eexists. split; [by apply (authorize_forbidden roles req ru u)|done].
    + left. unfold authorize, try_catch_async, req_user_userId. rewrite Hu.
      unfold mbind, Async_bind, mret at 1, Async_ret at 1.
      unfold getUserById, mbind, Async_bind, User_findById, gets. rewrite Hs.
      by eexists.
  - left. unfold authorize, try_catch_async, req_user_userId. rewrite Hu. by eexists.
Qed.

(** X2. The refresh controller on any request and store: the answer is
    200 with an access token in the body and exactly one cookie,
    [refreshToken], set with the refresh cookie options, or it is 401
    with no body data and no cookie.  The server state is never changed. *)
Theorem refresh_answers `{JwtLibrary} (env : Env) (now : Z) (req : Request)
    (s : ServerState) :
  exists r,
    refresh env now req s = (Ok (Respond r), s) /\
    ((status r = 200 /\
      exists a t, data r = data_accessToken a /\
                  cookie_ops r = [res_cookie "refreshToken" t (refresh_cookie_options env)])
     \/ (status r = 401 /\ data r = no_data /\ cookie_ops r = [])).
Proof.
  unfold refresh, try_catch_async.
  destruct (js_or _ _) as [token|]; [|eexists; split; [reflexivity|right; done]].
  unfold mbind, Async_bind. rewrite refreshAccessToken_unfold.
  destruct (verifyRefreshToken env now token) as [p|e].
  - destruct (users s !! userId p).
    + eexists; split; [reflexivity|]. left. split; [done|]. by eexists _, _.
    + eexists; split; [reflexivity|right; done].
  - eexists; split; [reflexivity|right; done].
Qed.

(** X3. A refresh token in the cookie wins over one in the body: two
    requests with the same non-empty [refreshToken] cookie get the same
    answer, whatever their bodies hold. *)
Theorem refresh_prefers_cookie `{JwtLibrary} (env : Env) (now : Z) (req req' : Request)
    (s : ServerState) (t : string) :
  cookies req !! "refreshToken" = Some t -> t <> EmptyString ->
  cookies req' = cookies req ->
  refresh env now req' s = refresh env now req s.
Proof.
  intros Hc Hne Heq. unfold refresh. rewrite Heq, Hc.
  unfold js_or, truthy at 1 3. by rewrite decide_False.
Qed.

Lemma refresh_prefers_cookie_witness :
  @refresh symbolic_jwt sample_env 6000 (refresh_request (Some "cookie-token") (Some "other"))
    (sample_state viewer)
  = @refresh symbolic_jwt sample_env 6000 (refresh_request (Some "cookie-token") None)
      (sample_state viewer).
Proof.
  apply (@refresh_prefers_cookie symbolic_jwt sample_env 6000
           (refresh_request (Some "cookie-token") None)
           (refresh_request (Some "cookie-token") (Some "other"))
           (sample_state viewer) "cookie-token"); [reflexivity|discriminate|reflexivity].
Defined.

(** X4. Refreshing revokes nothing.  After a refresh at [t1] with the
    refresh token issued at [t0], the store is as it was, and at any later
    [t2] the old refresh token is accepted again until its own expiry, as
    is the new one until its. *)
Theorem refresh_does_not_revoke `{JwtLibrary} (env : Env) (uid : string) (u : User)
    (s : ServerState) (t0 t1 t2 : Z) :
  codec_ok -> users s !! uid = Some u ->
  t1 < refresh_expiry t0 -> t2 < refresh_expiry t0 -> t2 < refresh_expiry t1 ->
  let old := refreshToken (generateTokens env t0 uid) in
  let new := refreshToken (generateTokens env t1 uid) in
  refreshAccessToken env t1 old s = (Ok (generateTokens env t1 uid), s) /\
  refreshAccessToken env t2 old s = (Ok (generateTokens env t2 uid), s) /\
  refreshAccessToken env t2 new s = (Ok (generateTokens env t2 uid), s).
Proof.
  intros Hc Hu H1 H2 H3 old new. subst old new.
  rewrite !refreshAccessToken_unfold, !verifyRefreshToken_issued by done.
  rewrite !decide_True by done. simpl. by rewrite Hu.
Qed.

Lemma refresh_does_not_revoke_witness :
  let old := refreshToken (@generateTokens symbolic_jwt sample_env 5000 "64f0c0ffee") in
  let new := refreshToken (@generateTokens symbolic_jwt sample_env 6000 "64f0c0ffee") in
  @refreshAccessToken symbolic_jwt sample_env 6000 old (sample_state viewer)
    = (Ok (@generateTokens symbolic_jwt sample_env 6000 "64f0c0ffee"), sample_state viewer) /\
  @refreshAccessToken symbolic_jwt sample_env 9000 old (sample_state viewer)
    = (Ok (@generateTokens symbolic_jwt sample_env 9000 "64f0c0ffee"), sample_state viewer) /\
  @refreshAccessToken symbolic_jwt sample_env 9000 new (sample_state viewer)
    = (Ok (@generateTokens symbolic_jwt sample_env 9000 "64f0c0ffee"), sample_state viewer).
Proof.
  apply (@refresh_does_not_revoke symbolic_jwt sample_env "64f0c0ffee" (sample_user viewer)
           (sample_state viewer) 5000 6000 9000 symbolic_codec_ok); reflexivity.
Defined.

(** X5. [GET /me] behind [protect], for a request whose bearer token
    verifies: the answer is 200 with the stored user's data, password
    left out, or 404 'User not found' when the subject is no longer in
    the collection.  The server state is unchanged. *)
Theorem me_route `{JwtLibrary} `{Bcrypt} `{AuditStore} (env : Env) (now : Z) (salt : string)
    (register : Handler) (req : Request) (s : ServerState) (token : string) (p : Payload) :
  method req = GET -> url req = "/me" ->
  bearer_token req = Some token -> verifyAccessToken env now token = Ok p ->
  router (authRoutes env now salt register) req s =
    match users s !! userId p with
    | Some u =>
        (Ok (Respond {| status := 200; success := true; res_message := None;
                        data := data_user (userData (hydrate (userId p) u));
                        cookie_ops := [] |}), s)
    | None => (Ok (Respond (json_error 404 "User not found")), s)
    end.
Proof.
  intros Hm Hp Hb Hv. unfold authRoutes.
  cbn [router route_method route_path route_chain]. rewrite Hm, Hp.
  do 4 (rewrite bool_decide_eq_false_2 by (intros [E1 E2]; discriminate)).
  rewrite bool_decide_eq_true_2 by done.
  cbn [run_chain]. unfold mbind at 1 2, Async_bind at 1 2.
  rewrite (protect_accepted_token env now req s token p Hb Hv).
  unfold mbind at 1, Async_bind at 1.
  unfold getMe, try_catch_async, req_user_userId. cbn [user with_user].
  unfold mbind, Async_bind, mret at 1, Async_ret at 1. cbn [decoded].
  destruct (users s !! userId p) as [u|] eqn:Hs.
  - rewrite (getUserById_found _ _ _ Hs). reflexivity.
  - unfold getUserById, mbind, Async_bind, User_findById, gets. rewrite Hs. reflexivity.
Qed.

Lemma sample_me_request_token :
  bearer_token sample_me_request
  = Some (accessToken (@generateTokens symbolic_jwt sample_env 5000 "64f0c0ffee")).
Proof.
  apply bearer_token_standard.
  - reflexivity.
  - intros E. apply (f_equal (fun t => bool_decide (t = EmptyString))) in E.
    vm_compute in E. discriminate.
  - vm_compute. reflexivity.
Qed.

Lemma me_route_witness :
  @router (@authRoutes symbolic_jwt symbolic_bcrypt audit_up sample_env 6000 "pepper"
             sample_register) sample_me_request (sample_state viewer)
  = (Ok (Respond {| status := 200; success := true; res_message := None;
                    data := data_user
                              {| ud_id := "64f0c0ffee"; ud_email := "ada@example.com";
                                 ud_name := "Ada"; ud_role := viewer; ud_isActive := true;
                                 ud_createdAt := 1000; ud_updatedAt := 1000 |};
                    cookie_ops := [] |}), sample_state viewer) /\
  @router (@authRoutes symbolic_jwt symbolic_bcrypt audit_up sample_env 6000 "pepper"
             sample_register) sample_me_request empty_state
  = (Ok (Respond (json_error 404 "User not found")), empty_state).
Proof.
  assert (@verifyAccessToken symbolic_jwt sample_env 6000
            (accessToken (@generateTokens symbolic_jwt sample_env 5000 "64f0c0ffee"))
          = Ok (access_payload "64f0c0ffee" 5000)) as Hv by (vm_compute; reflexivity).
  split.
  - rewrite (@me_route symbolic_jwt symbolic_bcrypt audit_up sample_env 6000 "pepper"
               sample_register sample_me_request (sample_state viewer) _ _
               eq_refl eq_refl sample_me_request_token Hv).
    reflexivity.
  - rewrite (@me_route symbolic_jwt symbolic_bcrypt audit_up sample_env 6000 "pepper"
               sample_register sample_me_request empty_state _ _
               eq_refl eq_refl sample_me_request_token Hv).
    reflexivity.
Defined.

(** ** The requester's address *)

Lemma split_on_first (c : ascii) (first rest : string) :
  has_char c first = false ->
  split_on c (first +:+ String c rest) = first :: split_on c rest.
Proof.
  induction first as [|a first IH]; simpl; intros Hc.
  - by rewrite decide_True.
  - apply orb_false_iff in Hc as [Ha Hf]. apply bool_decide_eq_false in Ha.
    rewrite decide_False by done. by rewrite IH.
Qed.

Lemma truthy_nonempty (v : option string) (t : string) : truthy v = Some t -> t <> EmptyString.
Proof. unfold truthy. destruct v as [x|]; [|done]. by case_decide; intros [= <-]. Qed.

Lemma js_or_nonempty (a b : option string) (t : string) :
  (forall x, b = Some x -> x <> EmptyString) -> js_or a b = Some t -> t <> EmptyString.
Proof.
  intros Hb. unfold js_or. destruct (truthy a) as [x|] eqn:Ha.
  - intros [= <-]. by apply (truthy_nonempty a).
  - apply Hb.
Qed.

(** X6. [getClientIp] never yields the empty string; it yields the
    first entry of a comma-separated [x-forwarded-for] header when that
    entry is not empty, whatever the other headers and addresses are; and
    ['unknown'] when the request has neither of the two headers nor an
    address. *)
Theorem getClientIp_spec (req : Request) :
  getClientIp req <> EmptyString /\
  (forall first rest,
     headers req !! "x-forwarded-for" = Some (first +:+ String "," rest) ->
     has_char "," first = false -> first <> EmptyString ->
     getClientIp req = first) /\
  (headers req !! "x-forwarded-for" = None -> headers req !! "x-real-ip" = None ->
   connection_remoteAddress req = None -> socket_remoteAddress req = None ->
   getClientIp req = "unknown").
Proof.
  split; [|split].
  - unfold getClientIp.
    destruct (js_or _ _) as [t|] eqn:Hj; [|done]. simpl.
    revert Hj. apply js_or_nonempty. intros x.
    apply js_or_nonempty. intros y. apply js_or_nonempty. intros z. apply truthy_nonempty.
  - intros first rest Hh Hc Hne. unfold getClientIp. rewrite Hh. simpl.
    rewrite split_on_first by done. simpl. unfold js_or at 1, truthy at 1.
    by rewrite decide_False.
  - intros H1 H2 H3 H4. unfold getClientIp. by rewrite H1, H2, H3, H4.
Qed.

(** ** One secret for both kinds of token *)

(** X7. [verifyAccessToken] looks at no token type: when the two
    signing secrets are the same, the refresh token of an issued pair is
    accepted as an access token until the refresh token expires, seven
    days after issuance. *)
Theorem refresh_token_passes_as_access_token `{JwtLibrary} (env : Env) (uid : string)
    (t0 t : Z) :
  codec_ok -> JWT_SECRET env = JWT_REFRESH_SECRET env -> t < refresh_expiry t0 ->
  verifyAccessToken env t (refreshToken (generateTokens env t0 uid))
    = Ok (refresh_payload uid t0).
Proof.
  intros Hc Hs Ht. unfold verifyAccessToken, jwt_verify_throwing, generateTokens. simpl.
  rewrite Hs, jwt_verify_sign by done.
  unfold refresh_expiry in Ht.
  pose proof (clockTimestamp_lt t (clockTimestamp t0 + REFRESH_TOKEN_EXPIRY)).
  rewrite decide_False by lia. done.
Qed.

Lemma refresh_token_passes_as_access_token_witness :
  @verifyAccessToken symbolic_jwt one_secret_env (access_expiry 5000 + 86400000)
    (refreshToken (@generateTokens symbolic_jwt one_secret_env 5000 "64f0c0ffee"))
  = Ok (refresh_payload "64f0c0ffee" 5000).
Proof.
  apply (@refresh_token_passes_as_access_token symbolic_jwt one_secret_env "64f0c0ffee"
           5000 _ symbolic_codec_ok); reflexivity.
Defined.

(** ** The login controller *)

Section LoginController.
Context `{JwtLibrary} `{Bcrypt} `{AuditStore}.
Variable env : Env.
Variable now : Z.
Variable salt : string.

(** What [findOne] finds decides the login. *)
Lemma loginUser_by_found (e pw : string) (s : ServerState) :
  exists found,
    User_findOne e s = (Ok found, s) /\
    (found = None ->
     forall id u, users s !! id = Some u -> email u <> trim (toLowerCase e)) /\
    (forall doc, found = Some doc ->
       users s !! _id doc = Some (fields doc) /\
       email (fields doc) = trim (toLowerCase e)) /\
    loginUser env now salt e pw s =
      match found with
      | None => (Throw (Err "Invalid email or password"), s)
      | Some doc =>
          if negb (isActive (fields doc)) then
            (Throw (Err "Account is deactivated. Please contact administrator."), s)
          else if negb (bcrypt_compare pw (password (fields doc))) then
            (Throw (Err "Invalid email or password"), s)
          else loginUser env now salt e pw s
      end.
Proof.
  destruct (User_findOne_stored e s) as (found & Hf & Hdoc).
  exists found. split; [done|]. split; [|split].
  - intros -> id u Hu He. unfold User_findOne, gets in Hf.
    destruct (list_find _ _) as [[i [k v]]|] eqn:Hl; [discriminate|].
    apply list_find_None in Hl.
    apply elem_of_map_to_list in Hu. rewrite Forall_forall in Hl.
    apply list_elem_of_In in Hu. exact (Hl (id, u) Hu He).
  - intros doc ->. destruct (Hdoc doc eq_refl) as (? & _ & ?). done.
  - remember (loginUser env now salt e pw s) as outcome eqn:Ho.
    destruct found as [doc|].
    + destruct (negb (isActive (fields doc))) eqn:Ha.
      * subst outcome. unfold loginUser, mbind at 1, Async_bind at 1. rewrite Hf.
        by rewrite Ha.
      * destruct (negb (comparePassword doc pw)) eqn:Hp; unfold comparePassword in Hp;
          rewrite Hp; [|done].
        subst outcome. unfold loginUser, mbind at 1, Async_bind at 1. rewrite Hf.
        rewrite Ha. unfold comparePassword. by rewrite Hp.
    + subst outcome. unfold loginUser, mbind at 1, Async_bind at 1. by rewrite Hf.
Qed.

Lemma login_with_credentials (req : Request) (b : gmap string string) (e pw : string)
    (s : ServerState) :
  body req = Some b -> truthy (b !! "email") = Some e -> truthy (b !! "password") = Some pw ->
  login env now salt req s =
    match loginUser env now salt e pw (login_received s) with
    | (Ok result, s1) =>
        match fire_and_forget
                (logActivity (ud_id (lr_user result)) act_login (Some "auth") None (Some req))
                s1 with
        | (_, s2) =>
            (Ok (Respond
                   {| status := 200; success := true; res_message := None;
                      data := data_session (lr_user result) (lr_accessToken result);
                      cookie_ops :=
                        [res_cookie "refreshToken" (lr_refreshToken result)
                           (refresh_cookie_options env)] |}), s2)
        end
    | (Throw error, s1) =>
        (Ok (Respond (json_error 401 (message_or error "Login failed"))), s1)
    end.
Proof.
  intros Hb He Hp. unfold login, try_catch_async, mbind, Async_bind, modify, login_received.
  rewrite Hb, He, Hp.
  destruct (loginUser env now salt e pw _) as [[result|error] s1]; [|done].
  unfold fire_and_forget. rewrite logActivity_settles.
  by destruct (audit_fault _).
Qed.


(** X9. A deactivated account: for an email in stored form, when the
    stored users with that email are inactive, and there is one, the login
    controller answers 401 'Account is deactivated. Please contact
    administrator.' whatever the password is, sets no cookie and issues no
    token. *)
Theorem login_deactivated (req : Request) (b : gmap string string) (e pw : string)
    (s : ServerState) (id : string) (u : User) :
  stored_form e ->
  body req = Some b -> truthy (b !! "email") = Some e -> truthy (b !! "password") = Some pw ->
  users s !! id = Some u -> email u = e ->
  (forall id' u', users s !! id' = Some u' -> email u' = e -> isActive u' = false) ->
  login env now salt req s
    = (Ok (Respond (json_error 401 "Account is deactivated. Please contact administrator.")),
       login_received s).
Proof.
  intros Hform Hb He Hp Hu Hemail Hall.
  rewrite (login_with_credentials req b e pw s Hb He Hp).
  destruct (loginUser_by_found e pw (login_received s)) as (found & _ & Hnone & Hdoc & ->).
  rewrite Hform in Hnone, Hdoc.
  destruct found as [doc|].
  - destruct (Hdoc doc eq_refl) as (Hd & Hde). by rewrite (Hall _ _ Hd Hde).
  - exfalso. by apply (Hnone eq_refl id u).
Qed.
End LoginController.


Lemma login_deactivated_witness :
  @login symbolic_jwt symbolic_bcrypt audit_up sample_env 6000 "pepper"
    (sample_login_request "ada@example.com" "correct horse") deactivated_state
  = (Ok (Respond (json_error 401 "Account is deactivated. Please contact administrator.")),
     login_received deactivated_state).
Proof.
  apply (@login_deactivated symbolic_jwt symbolic_bcrypt audit_up sample_env 6000 "pepper"
           (sample_login_request "ada@example.com" "correct horse") _
           "ada@example.com" "correct horse" deactivated_state "64f0c0ffee" _
           eq_refl eq_refl eq_refl eq_refl eq_refl eq_refl).
  intros id u Hu _. cbn [deactivated_state users] in Hu.
  apply lookup_singleton_Some in Hu as [_ <-]. reflexivity.
Defined.

Section LoginSuccess.
Context `{JwtLibrary} `{Bcrypt} `{AuditStore}.
Variable env : Env.
Variable now : Z.
Variable salt : string.

(** X10. A login that succeeds, for an email in stored form: the
    controller answers 200 with the
    user and the access token in the body and the refresh token in one
    cookie that is HTTP-only, same-site strict and lives seven days; both
    tokens verify now, for the user's id; the user collection is as
    [loginUser] left it; and when the audit store takes the entry, one
    'login' entry for that user is appended to the activity log. *)
Theorem login_success (req : Request) (b : gmap string string) (e pw : string)
    (s s1 : ServerState) (r : LoginResult) :
  stored_form e ->
  codec_ok ->
  body req = Some b -> truthy (b !! "email") = Some e -> truthy (b !! "password") = Some pw ->
  loginUser env now salt e pw (login_received s) = (Ok r, s1) ->
  exists s2,
    login env now salt req s
      = (Ok (Respond
               {| status := 200; success := true; res_message := None;
                  data := data_session (lr_user r) (lr_accessToken r);
                  cookie_ops :=
                    [res_cookie "refreshToken" (lr_refreshToken r)
                       {| httpOnly := true;
                          secure := bool_decide (NODE_ENV env = "production");
                          sameSite := "strict"; maxAge := Some 604800000 |}] |}), s2) /\
    users s2 = users s1 /\
    verifyAccessToken env now (lr_accessToken r)
      = Ok (access_payload (ud_id (lr_user r)) now) /\
    verifyRefreshToken env now (lr_refreshToken r)
      = Ok (refresh_payload (ud_id (lr_user r)) now) /\
    ((forall entry, audit_fault entry = None) ->
     activityLogs s2
       = activityLogs s
           ++ [audit_entry (ud_id (lr_user r)) act_login (Some "auth") None (Some req)]).
Proof.
  intros _ Hc Hb He Hp Hl.
  rewrite (login_with_credentials env now salt req b e pw s Hb He Hp).
  rewrite Hl. unfold fire_and_forget. rewrite logActivity_settles.
  destruct (loginUser_cases env now salt e pw (login_received s))
    as [(err & Hf)|(id & u & _ & _ & _ & _ & Hs)]; [congruence|].
  rewrite Hs in Hl. injection Hl as <- <-. cbn [lr_user lr_accessToken lr_refreshToken].
  assert (now < access_expiry now) as Ha by (pose proof (access_expiry_bounds now); lia).
  assert (now < refresh_expiry now) as Hr by (pose proof (refresh_expiry_bounds now); lia).
  pose proof (verifyAccessToken_issued env id now now Hc) as Hva.
  pose proof (verifyRefreshToken_issued env id now now Hc) as Hvr.
  rewrite decide_True in Hva by done. rewrite decide_True in Hvr by done.
  unfold generateTokens in Hva, Hvr. cbn [accessToken refreshToken] in Hva, Hvr.
  destruct (audit_fault _) as [err|] eqn:Hfault; eexists; (split; [reflexivity|]);
    (split; [reflexivity|]); rewrite Hva, Hvr;
    (split; [reflexivity|]); (split; [reflexivity|]).
  - intros Hup. by rewrite Hup in Hfault.
  - intros _. reflexivity.
Qed.
End LoginSuccess.

Lemma login_success_witness :
  exists r s1 s2,
    @loginUser symbolic_jwt symbolic_bcrypt sample_env 6000 "pepper"
      "ada@example.com" "correct horse" (login_received (sample_state viewer)) = (Ok r, s1) /\
    (@login symbolic_jwt symbolic_bcrypt audit_up sample_env 6000 "pepper"
       (sample_login_request "ada@example.com" "correct horse") (sample_state viewer)).2 = s2 /\
    map log_action (activityLogs s2) = [act_login] /\
    @verifyAccessToken symbolic_jwt sample_env 6000 (lr_accessToken r)
      = Ok (access_payload (ud_id (lr_user r)) 6000).
Proof.
  assert (is_ok (@loginUser symbolic_jwt symbolic_bcrypt sample_env 6000 "pepper"
                   "ada@example.com" "correct horse"
                   (login_received (sample_state viewer))).1 = true) as Hok
    by (vm_compute; reflexivity).
  destruct (@loginUser symbolic_jwt symbolic_bcrypt sample_env 6000 "pepper"
              "ada@example.com" "correct horse" (login_received (sample_state viewer)))
    as [[r|err] s1] eqn:Hl; [|discriminate Hok].
  destruct (@login_success symbolic_jwt symbolic_bcrypt audit_up sample_env 6000 "pepper"
              (sample_login_request "ada@example.com" "correct horse") _
              "ada@example.com" "correct horse" (sample_state viewer) s1 r
              eq_refl symbolic_codec_ok eq_refl eq_refl eq_refl Hl)
    as (s2 & Hlogin & _ & Hva & _ & Hlog).
  exists r, s1, s2. split; [reflexivity|]. split; [by rewrite Hlogin|].
  split; [|exact Hva].
  rewrite Hlog by reflexivity. reflexivity.
Defined.

(** ** Deactivated accounts *)

(** X11. Deactivating an account stops logins only.  For a stored user
    with [isActive] false, the refresh token issued before still yields a
    new pair, and a request with the access token still passes [protect]
    and [authorize] for the user's role: neither looks at [isActive]. *)
Theorem deactivated_tokens_still_work `{JwtLibrary} (env : Env) (now t0 : Z)
    (roles : list Role) (req : Request) (s : ServerState) (uid : string) (u : User) :
  codec_ok ->
  users s !! uid = Some u -> isActive u = false -> role u ∈ roles ->
  now < access_expiry t0 -> now < refresh_expiry t0 ->
  bearer_token req = Some (accessToken (generateTokens env t0 uid)) ->
  refreshAccessToken env now (refreshToken (generateTokens env t0 uid)) s
    = (Ok (generateTokens env now uid), s) /\
  exists req',
    run_chain [protect env now; authorize roles] req s = (Ok (Next req'), s) /\
    (req_role <$> user req') = Some (Some (role u)).
Proof.
  intros Hc Hu Hact Hr Ha Hf Hb. split.
  - rewrite refreshAccessToken_unfold, verifyRefreshToken_issued by done.
    rewrite decide_True by done. simpl. by rewrite Hu.
  - pose proof (verifyAccessToken_issued env uid t0 now Hc) as Hv.
    rewrite decide_True in Hv by done.
    pose proof (protect_accepted_token env now req s _ _ Hb Hv) as Hp.
    eexists. cbn [run_chain]. unfold mbind at 1, Async_bind at 1. rewrite Hp.
    unfold mbind at 1, Async_bind at 1.
    rewrite (authorize_allowed roles
               (with_user {| decoded := access_payload uid t0; req_role := None;
                             req_userData := None |} req)
               {| decoded := access_payload uid t0; req_role := None; req_userData := None |}
               u s eq_refl Hu Hr).
    split; reflexivity.
Qed.

Lemma deactivated_tokens_still_work_witness :
  @refreshAccessToken symbolic_jwt sample_env 6000
     (refreshToken (@generateTokens symbolic_jwt sample_env 5000 "64f0c0ffee"))
     deactivated_state
  = (Ok (@generateTokens symbolic_jwt sample_env 6000 "64f0c0ffee"), deactivated_state) /\
  exists req',
    run_chain [@protect symbolic_jwt sample_env 6000; authorize [viewer; manager]]
      sample_me_request deactivated_state = (Ok (Next req'), deactivated_state) /\
    (req_role <$> user req') = Some (Some viewer).
Proof.
  apply (@deactivated_tokens_still_work symbolic_jwt sample_env 6000 5000 [viewer; manager]
           sample_me_request deactivated_state "64f0c0ffee" _ symbolic_codec_ok eq_refl
           eq_refl).
  - apply list_elem_of_here.
  - reflexivity.
  - reflexivity.
  - exact sample_me_request_token.
Defined.

(** ** Logging in after the collection changed *)

Section LoginOutcome.
Context `{JwtLibrary} `{Bcrypt}.
Variable env : Env.
Variable now : Z.
Variable salt : string.

(** [loginUser] in full, by the document [findOne] returns. *)
Lemma loginUser_outcome (e pw : string) (s : ServerState) :
  exists found,
    (found = None ->
     forall id u, users s !! id = Some u -> email u <> trim (toLowerCase e)) /\
    (forall doc, found = Some doc ->
       users s !! _id doc = Some (fields doc) /\
       email (fields doc) = trim (toLowerCase e)) /\
    loginUser env now salt e pw s =
      match found with
      | None => (Throw (Err "Invalid email or password"), s)
      | Some doc =>
          if negb (isActive (fields doc)) then
            (Throw (Err "Account is deactivated. Please contact administrator."), s)
          else if negb (bcrypt_compare pw (password (fields doc))) then
            (Throw (Err "Invalid email or password"), s)
          else
            (Ok {| lr_user := userData (hydrate (_id doc) (login_update now (fields doc)));
                   lr_accessToken := accessToken (generateTokens env now (_id doc));
                   lr_refreshToken := refreshToken (generateTokens env now (_id doc)) |},
             with_users <[_id doc := login_update now (fields doc)]> s)
      end.
Proof.
  destruct (loginUser_by_found env now salt e pw s) as (found & Hf & Hnone & Hdoc & Hl).
  exists found. split; [done|]. split; [done|].
  destruct found as [doc|]; [|done].
  destruct (negb (isActive (fields doc))) eqn:Ha; [done|].
  destruct (negb (bcrypt_compare pw (password (fields doc)))) eqn:Hp; [done|].
  clear Hl. destruct (Hdoc doc eq_refl) as (Hu & _).
  destruct (User_findOne_stored e s) as (found' & Hf' & Hdoc').
  rewrite Hf in Hf'. injection Hf' as <-.
  destruct (Hdoc' doc eq_refl) as (_ & Hm & _).
  unfold loginUser, mbind at 1, Async_bind at 1. rewrite Hf, Ha.
  unfold comparePassword. rewrite Hp. destruct doc as [id u m]. simpl in *. subst m.
  unfold mbind, Async_bind.
  change {| _id := id; fields := u; modified := [] |} with (hydrate id u).
  rewrite (save_after_lastLogin now salt id u s Hu). reflexivity.
Qed.

(** When one stored user only has the email the query looks for,
    [loginUser] decides on that user. *)
Lemma loginUser_unique (e pw : string) (s : ServerState) (id : string) (u : User) :
  users s !! id = Some u -> email u = trim (toLowerCase e) ->
  (forall id' u', users s !! id' = Some u' -> email u' = trim (toLowerCase e) -> id' = id) ->
  loginUser env now salt e pw s =
    if negb (isActive u) then
      (Throw (Err "Account is deactivated. Please contact administrator."), s)
    else if negb (bcrypt_compare pw (password u)) then
      (Throw (Err "Invalid email or password"), s)
    else
      (Ok {| lr_user := userData (hydrate id (login_update now u));
             lr_accessToken := accessToken (generateTokens env now id);
             lr_refreshToken := refreshToken (generateTokens env now id) |},
       with_users <[id := login_update now u]> s).
Proof.
  intros Hu He Huniq.
  destruct (loginUser_outcome e pw s) as (found & Hnone & Hdoc & ->).
  destruct found as [doc|].
  - destruct (Hdoc doc eq_refl) as (Hd & Hde).
    pose proof (Huniq _ _ Hd Hde) as Hid. destruct doc as [id' u' m]. simpl in *.
    subst id'. rewrite Hu in Hd. by injection Hd as <-.
  - exfalso. by apply (Hnone eq_refl id u).
Qed.
End LoginOutcome.

(** ** Deleting and deactivating users *)

Section UserAdministration.
Context `{JwtLibrary} `{Bcrypt} `{Mongoose} `{AuditStore} `{ObjectIdCast}.
Variable env : Env.
Variable now : Z.
Variable salt : string.

Lemma deleteUser_outcome (id current : string) (s : ServerState) :
  deleteUser id current s =
    if decide (id = current) then (Throw (Err "You cannot delete your own account"), s)
    else match castObjectId id with
         | None => (Throw (cast_error id), s)
         | Some k =>
             match users s !! k with
             | None => (Throw (Err "User not found"), s)
             | Some _ => (Ok tt, with_users (delete k) s)
             end
         end.
Proof.
  unfold deleteUser. case_decide; [done|].
  destruct (castObjectId id) as [k|]; [|done].
  unfold mbind, Async_bind, User_findById, gets. by destruct (users s !! k).
Qed.

(** The chain of routes/userRoutes.js up to the controller, for an
    administrator's valid token. *)
Lemma userRoutes_admin (controller : Handler) (req : Request) (s : ServerState)
    (token : string) (p : Payload) (u : User) :
  bearer_token req = Some token -> verifyAccessToken env now token = Ok p ->
  users s !! userId p = Some u -> role u = admin ->
  userRoutes env now controller req s
    = (st ← controller
              (with_user {| decoded := p; req_role := Some admin;
                            req_userData := Some (userData (hydrate (userId p) u)) |}
                 (with_user {| decoded := p; req_role := None; req_userData := None |} req));
       match st with
       | Respond r => mret (Respond r)
       | Next req' => mret (Next req')
       end) s.
Proof.
  intros Hb Hv Hu Hr. unfold userRoutes. cbn [run_chain].
  unfold mbind at 1, Async_bind at 1.
  rewrite (protect_accepted_token env now req s token p Hb Hv).
  unfold mbind at 1, Async_bind at 1.
  rewrite (authorize_allowed [admin]
             (with_user {| decoded := p; req_role := None; req_userData := None |} req)
             {| decoded := p; req_role := None; req_userData := None |} u s eq_refl Hu)
    by (rewrite Hr; apply list_elem_of_here).
  rewrite Hr. reflexivity.
Qed.

(** The controller's answer to an error that is neither of the two it
    knows. *)
Lemma cast_error_message (value : string) :
  message (cast_error value) <> "You cannot delete your own account" /\
  message (cast_error value) <> "User not found" /\
  message (cast_error value) <> EmptyString.
Proof. split; [|split]; discriminate. Qed.

(** X12. The guard against deleting one's own account compares
    spellings.  [DELETE /api/users/:id] with a valid administrator token and
    the id spelled exactly as the token's subject is answered 403 'You cannot
    delete your own account', and nothing changes.  With any other spelling
    that Mongoose casts to the subject's ObjectId (its hexadecimal digits in
    upper case, for one) the guard lets the call through: the answer is 200
    and the administrator's own account is removed. *)
Theorem remove_own_account_guard (req : Request) (s : ServerState) (token : string)
    (p : Payload) (u : User) :
  bearer_token req = Some token -> verifyAccessToken env now token = Ok p ->
  users s !! userId p = Some u -> role u = admin ->
  userRoutes env now (remove (userId p)) req s
    = (Ok (Respond (json_error 403 "You cannot delete your own account")), s) /\
  forall id,
    id <> userId p -> castObjectId id = Some (userId p) ->
    exists s',
      userRoutes env now (remove id) req s
        = (Ok (Respond {| status := 200; success := true;
                          res_message := Some "User deleted successfully";
                          data := no_data; cookie_ops := [] |}), s') /\
      users s' = delete (userId p) (users s).
Proof.
  intros Hb Hv Hu Hr. split.
  - rewrite (userRoutes_admin _ req s token p u Hb Hv Hu Hr).
    unfold mbind at 1, Async_bind at 1.
    unfold remove, try_catch_async, req_user_userId. cbn [user with_user].
    unfold mbind, Async_bind, mret at 1, Async_ret at 1. cbn [decoded].
    rewrite deleteUser_outcome, decide_True by done. reflexivity.
  - intros id Hne Hcast.
    rewrite (userRoutes_admin _ req s token p u Hb Hv Hu Hr).
    unfold mbind at 1, Async_bind at 1.
    unfold remove, try_catch_async, req_user_userId. cbn [user with_user].
    unfold mbind, Async_bind, mret at 1, Async_ret at 1. cbn [decoded].
    rewrite deleteUser_outcome, decide_False, Hcast, Hu by done.
    unfold fire_and_forget. rewrite logActivity_settles.
    destruct (audit_fault _); eexists; (split; [reflexivity|done]).
Qed.

(** X13. An administrator deleting an account by an [id] that is not
    the spelling of their own.  When [id] casts to no ObjectId the answer is
    400 with the CastError's message and nothing changes; when it casts to
    one that is not stored the answer is 404 'User not found' and nothing
    changes; when it casts to a stored one the answer is 200, exactly that
    user is removed from the collection, and, the audit store taking the
    entry, one 'user.deleted' entry naming the administrator and the [id] as
    given is handed to the audit trail. *)
Theorem remove_account_outcomes (id : string) (req : Request) (s : ServerState)
    (token : string) (p : Payload) (u : User) :
  bearer_token req = Some token -> verifyAccessToken env now token = Ok p ->
  users s !! userId p = Some u -> role u = admin -> id <> userId p ->
  (forall entry, audit_fault entry = None) ->
  let req' :=
    with_user {| decoded := p; req_role := Some admin;
                 req_userData := Some (userData (hydrate (userId p) u)) |}
      (with_user {| decoded := p; req_role := None; req_userData := None |} req) in
    userRoutes env now (remove id) req s =
      match castObjectId id with
      | None => (Ok (Respond (json_error 400 (message (cast_error id)))), s)
      | Some k =>
          match users s !! k with
          | None => (Ok (Respond (json_error 404 "User not found")), s)
          | Some _ =>
              (Ok (Respond {| status := 200; success := true;
                              res_message := Some "User deleted successfully";
                              data := no_data; cookie_ops := [] |}),
               with_activityLogs
                 (fun l => l ++ [audit_entry (userId p) act_user_deleted (Some "user")
                                   (Some id) (Some req')])
                 (with_users (delete k) s))
          end
      end.
Proof.
  intros Hb Hv Hu Hr Hne Hup req'. subst req'.
  rewrite (userRoutes_admin _ req s token p u Hb Hv Hu Hr).
  unfold mbind at 1, Async_bind at 1.
  unfold remove, try_catch_async, req_user_userId. cbn [user with_user].
  unfold mbind, Async_bind, mret at 1, Async_ret at 1. cbn [decoded].
  rewrite deleteUser_outcome, decide_False by done.
  destruct (castObjectId id) as [k|].
  - destruct (users s !! k); [|reflexivity].
    unfold fire_and_forget. rewrite logActivity_settles, Hup. reflexivity.
  - destruct (cast_error_message id) as (Hown & Hnf & Hempty).
    unfold message_or. by rewrite !decide_False.
Qed.

Lemma toggleUserStatus_outcome (id : string) (s : ServerState) :
  toggleUserStatus now salt id s =
    match users s !! id with
    | None => (Throw (Err "User not found"), s)
    | Some u =>
        match validation_error
                (assign path_isActive (with_isActive (negb (isActive u)) u) (hydrate id u)) with
        | Some e => (Throw e, s)
        | None =>
            let u' := with_updatedAt now (with_isActive (negb (isActive u)) u) in
            (Ok (Some (select_without_password (hydrate id u'))),
             with_users <[id := u']> s)
        end
    end.
Proof.
  unfold toggleUserStatus, mbind at 1, Async_bind at 1, User_findById at 1, gets.
  destruct (users s !! id) as [u|] eqn:Hu; [|done]. cbn [fmap option_fmap option_map].
  unfold mbind at 1, Async_bind at 1, save_validated. cbn [fields hydrate].
  destruct (validation_error _) as [e|]; [done|].
  assert (save now salt
            (assign path_isActive (with_isActive (negb (isActive u)) u) (hydrate id u)) s
          = (Ok (hydrate id (with_updatedAt now (with_isActive (negb (isActive u)) u))),
             with_users <[id := with_updatedAt now (with_isActive (negb (isActive u)) u)]> s))
    as ->.
  { assert (assign path_isActive (with_isActive (negb (isActive u)) u) (hydrate id u)
            = {| _id := id; fields := with_isActive (negb (isActive u)) u;
                 modified := [path_isActive] |}) as ->.
    { unfold assign. rewrite decide_False; [by destruct u|].
      destruct u as [? ? ? ? [] ? ? ?]; cbn; intros [=]. }
    assert (touch now (pre_save salt
              {| _id := id; fields := with_isActive (negb (isActive u)) u;
                 modified := [path_isActive] |})
            = assign path_updatedAt
                (with_updatedAt now (with_isActive (negb (isActive u)) u))
                {| _id := id; fields := with_isActive (negb (isActive u)) u;
                   modified := [path_isActive] |}) as Hdoc by reflexivity.
    unfold save. rewrite Hdoc. clear Hdoc. unfold assign. cbn [fields _id modified].
    destruct (decide (copy_path _ path_updatedAt _ = _)) as [E|E];
      unfold with_users, hydrate; cbn [fields _id modified users activityLogs console
                                        unhandledRejections].
    - assert (updatedAt u = now) as Hua by (destruct u; cbn in E; by injection E).
      do 2 f_equal; try (destruct u; cbn in *; by rewrite Hua).
      apply map_eq. intros k. destruct (decide (k = id)) as [->|Hk].
      + rewrite lookup_alter_eq, lookup_insert_eq, Hu. cbn. f_equal.
        destruct u; cbn in *. by rewrite Hua.
      + by rewrite lookup_alter_ne, lookup_insert_ne.
    - do 2 f_equal; try (by destruct u).
      apply map_eq. intros k. destruct (decide (k = id)) as [->|Hk].
      + rewrite lookup_alter_eq, lookup_insert_eq, Hu. cbn. by destruct u.
      + by rewrite lookup_alter_ne, lookup_insert_ne. }
  unfold mbind, Async_bind, User_findById, gets. cbn [users with_users].
  by rewrite lookup_insert_eq.
Qed.
End UserAdministration.

Lemma sample_users_request_token :
  bearer_token sample_users_request
  = Some (accessToken (@generateTokens symbolic_jwt sample_env 5000 "64f0c0ffee")).
Proof.
  apply bearer_token_standard.
  - reflexivity.
  - intros E. apply (f_equal (fun t => bool_decide (t = EmptyString))) in E.
    vm_compute in E. discriminate.
  - vm_compute. reflexivity.
Qed.

Lemma sample_access_token_verifies :
  @verifyAccessToken symbolic_jwt sample_env 6000
     (accessToken (@generateTokens symbolic_jwt sample_env 5000 "64f0c0ffee"))
  = Ok (access_payload "64f0c0ffee" 5000).
Proof. vm_compute. reflexivity. Qed.

Lemma hex_admin_request_token :
  bearer_token hex_admin_request
  = Some (accessToken (@generateTokens symbolic_jwt sample_env 5000 hex_admin_id)).
Proof.
  apply bearer_token_standard.
  - reflexivity.
  - intros E. apply (f_equal (fun t => bool_decide (t = EmptyString))) in E.
    vm_compute in E. discriminate.
  - vm_compute. reflexivity.
Qed.

Lemma hex_admin_token_verifies :
  @verifyAccessToken symbolic_jwt sample_env 6000
     (accessToken (@generateTokens symbolic_jwt sample_env 5000 hex_admin_id))
  = Ok (access_payload hex_admin_id 5000).
Proof. vm_compute. reflexivity. Qed.

Lemma remove_own_account_guard_witness :
  @userRoutes symbolic_jwt sample_env 6000 (@remove audit_up hex_cast hex_admin_id)
     hex_admin_request hex_users_state
  = (Ok (Respond (json_error 403 "You cannot delete your own account")), hex_users_state) /\
  exists s',
    @userRoutes symbolic_jwt sample_env 6000
       (@remove audit_up hex_cast "64F0C0FFEE64F0C0FFEE64F0") hex_admin_request
       hex_users_state
    = (Ok (Respond {| status := 200; success := true;
                      res_message := Some "User deleted successfully";
                      data := no_data; cookie_ops := [] |}), s') /\
    users s' !! hex_admin_id = None.
Proof.
  destruct (@remove_own_account_guard symbolic_jwt audit_up hex_cast sample_env 6000
              hex_admin_request hex_users_state _ (access_payload hex_admin_id 5000)
              (sample_user admin) hex_admin_request_token hex_admin_token_verifies
              eq_refl eq_refl) as (Hexact & Hother).
  split; [exact Hexact|].
  destruct (Hother "64F0C0FFEE64F0C0FFEE64F0") as (s' & Hs & Hu);
    [discriminate|reflexivity|].
  exists s'. split; [exact Hs|]. rewrite Hu. apply lookup_delete_eq.
Defined.

Lemma remove_account_outcomes_witness :
  (exists s',
     @userRoutes symbolic_jwt sample_env 6000 (@remove audit_up hex_cast hex_other_id)
        hex_admin_request hex_users_state
     = (Ok (Respond {| status := 200; success := true;
                       res_message := Some "User deleted successfully";
                       data := no_data; cookie_ops := [] |}), s') /\
     users s' = {[ hex_admin_id := sample_user admin ]} /\
     map log_action (activityLogs s') = [act_user_deleted] /\
     map log_userId (activityLogs s') = [hex_admin_id]) /\
  @userRoutes symbolic_jwt sample_env 6000 (@remove audit_up hex_cast "42")
     hex_admin_request hex_users_state
  = (Ok (Respond (json_error 400 (message (cast_error "42")))), hex_users_state).
Proof.
  split.
  - eexists. split.
    + apply (@remove_account_outcomes symbolic_jwt audit_up hex_cast sample_env 6000
               hex_other_id hex_admin_request hex_users_state _
               (access_payload hex_admin_id 5000) (sample_user admin)
               hex_admin_request_token hex_admin_token_verifies);
        [reflexivity|reflexivity|discriminate|reflexivity].
    + split; [|split; reflexivity]. vm_compute. reflexivity.
  - apply (@remove_account_outcomes symbolic_jwt audit_up hex_cast sample_env 6000
             "42" hex_admin_request hex_users_state _
             (access_payload hex_admin_id 5000) (sample_user admin)
             hex_admin_request_token hex_admin_token_verifies);
      [reflexivity|reflexivity|discriminate|reflexivity].
Defined.

Section Deactivation.
Context `{JwtLibrary} `{Bcrypt} `{Mongoose}.
Variable env : Env.

(** X14. [toggleUserStatus] on a stored user: when validation lets the
    document through, the stored user gets the opposite [isActive] and a
    new [updatedAt], every other field, the password hash among them,
    staying as it was, no other user is touched, and the returned view
    shows the new status; when validation refuses, nothing is written. *)
Theorem toggleUserStatus_flips (now : Z) (salt id : string) (u : User) (s : ServerState) :
  users s !! id = Some u ->
  match validation_error
          (assign path_isActive (with_isActive (negb (isActive u)) u) (hydrate id u)) with
  | None =>
      exists view,
        toggleUserStatus now salt id s
          = (Ok (Some view), with_users <[id := toggled now u]> s) /\
        pu_id view = id /\ pu_isActive view = negb (isActive u)
  | Some e => toggleUserStatus now salt id s = (Throw e, s)
  end.
Proof.
  intros Hu. rewrite toggleUserStatus_outcome, Hu.
  destruct (validation_error _); [done|].
  eexists. split; [reflexivity|done].
Qed.

(** X15. Toggling twice gives the account back: after two calls that
    validation lets through, the stored user is the one before, but for
    [updatedAt], which is the time of the second call. *)
Theorem toggleUserStatus_twice (t1 t2 : Z) (salt1 salt2 id : string) (u : User)
    (s : ServerState) :
  users s !! id = Some u ->
  (forall doc, validation_error doc = None) ->
  exists v1 v2 s1 s2,
    toggleUserStatus t1 salt1 id s = (Ok v1, s1) /\
    toggleUserStatus t2 salt2 id s1 = (Ok v2, s2) /\
    s2 = with_users <[id := with_updatedAt t2 u]> s.
Proof.
  intros Hu Hval.
  rewrite toggleUserStatus_outcome, Hu, Hval. do 4 eexists. split; [reflexivity|].
  rewrite toggleUserStatus_outcome. cbn [users with_users].
  rewrite lookup_insert_eq, Hval. split; [reflexivity|].
  unfold with_users. cbn. f_equal. rewrite insert_insert_eq.
  f_equal. destruct u as [? ? ? ? a ? ? ?]. cbn. by destruct a.
Qed.

(** X16. Deactivating an active account stops its logins: once
    [toggleUserStatus] has run on the one stored user with that email (an
    email in stored form), [loginUser] with that email fails with 'Account is deactivated. Please
    contact administrator.' for every password, the right one included,
    and writes nothing. *)
Theorem deactivated_account_cannot_login (t1 now : Z) (salt1 salt id pw : string) (u : User)
    (s : ServerState) :
  users s !! id = Some u -> isActive u = true -> stored_form (email u) ->
  (forall id' u', users s !! id' = Some u' -> email u' = email u -> id' = id) ->
  (forall doc, validation_error doc = None) ->
  exists v s1,
    toggleUserStatus t1 salt1 id s = (Ok v, s1) /\
    loginUser env now salt (email u) pw s1
      = (Throw (Err "Account is deactivated. Please contact administrator."), s1).
Proof.
  intros Hu Ha Hform Huniq Hval.
  rewrite toggleUserStatus_outcome, Hu, Hval. do 2 eexists. split; [reflexivity|].
  rewrite (loginUser_unique env now salt (email u) pw _ id
             (with_updatedAt t1 (with_isActive (negb (isActive u)) u))).
  - cbn. by rewrite Ha.
  - cbn. by rewrite lookup_insert_eq.
  - by rewrite Hform.
  - rewrite Hform. intros id' u' Hl He. cbn in Hl.
    destruct (decide (id' = id)) as [|Hne]; [done|].
    rewrite lookup_insert_ne in Hl by done. by apply (Huniq id' u').
Qed.
End Deactivation.

Lemma toggleUserStatus_flips_witness :
  exists view,
    @toggleUserStatus symbolic_bcrypt sample_mongoose 7000 "pepper" "64f0c0ffee"
      (sample_state viewer)
    = (Ok (Some view),
       with_users <["64f0c0ffee" := toggled 7000 (sample_user viewer)]> (sample_state viewer))
    /\ pu_id view = "64f0c0ffee" /\ pu_isActive view = false.
Proof.
  exact (@toggleUserStatus_flips symbolic_bcrypt sample_mongoose 7000 "pepper" "64f0c0ffee"
           (sample_user viewer) (sample_state viewer) eq_refl).
Defined.

Lemma toggleUserStatus_twice_witness :
  exists v1 v2 s1 s2,
    @toggleUserStatus symbolic_bcrypt sample_mongoose 7000 "pepper" "64f0c0ffee"
      (sample_state viewer) = (Ok v1, s1) /\
    @toggleUserStatus symbolic_bcrypt sample_mongoose 8000 "salt" "64f0c0ffee" s1
      = (Ok v2, s2) /\
    s2 = with_users <["64f0c0ffee" := with_updatedAt 8000 (sample_user viewer)]>
           (sample_state viewer).
Proof.
  apply (@toggleUserStatus_twice symbolic_bcrypt sample_mongoose 7000 8000 "pepper" "salt"
           "64f0c0ffee" (sample_user viewer) (sample_state viewer) eq_refl).
  reflexivity.
Defined.

Lemma deactivated_account_cannot_login_witness :
  exists v s1,
    @toggleUserStatus symbolic_bcrypt sample_mongoose 7000 "pepper" "64f0c0ffee"
      (sample_state viewer) = (Ok v, s1) /\
    @loginUser symbolic_jwt symbolic_bcrypt sample_env 8000 "pepper"
      "ada@example.com" "correct horse" s1
    = (Throw (Err "Account is deactivated. Please contact administrator."), s1).
Proof.
  apply (@deactivated_account_cannot_login symbolic_jwt symbolic_bcrypt sample_mongoose
           sample_env 7000 8000 "pepper" "pepper" "64f0c0ffee" "correct horse"
           (sample_user viewer) (sample_state viewer) eq_refl eq_refl eq_refl).
  - intros id' u' Hl _. cbn [sample_state users] in Hl.
    by apply lookup_singleton_Some in Hl as [<- _].
  - reflexivity.
Defined.

(** ** Registration *)

Lemma lower_char_idem (c : ascii) : lower_char (lower_char c) = lower_char c.
Proof. destruct c as [[] [] [] [] [] [] [] []]; reflexivity. Qed.

Lemma toLowerCase_idem (s : string) : toLowerCase (toLowerCase s) = toLowerCase s.
Proof. induction s as [|c rest IH]; simpl; [done|]. by rewrite lower_char_idem, IH. Qed.

(** [trim] and [toLowerCase] commute, and each is idempotent: an email
    that went through the schema's setters is in stored form. *)
Lemma is_space_lower_char (c : ascii) : is_space (lower_char c) = is_space c.
Proof. destruct c as [[] [] [] [] [] [] [] []]; reflexivity. Qed.

Lemma toLowerCase_trimStart (s : string) :
  toLowerCase (trimStart s) = trimStart (toLowerCase s).
Proof.
  induction s as [|c rest IH]; [done|]. cbn [trimStart toLowerCase].
  rewrite is_space_lower_char. by destruct (is_space c).
Qed.

Lemma toLowerCase_trimEnd (s : string) :
  toLowerCase (trimEnd s) = trimEnd (toLowerCase s).
Proof.
  induction s as [|c rest IH]; [done|]. cbn [trimEnd toLowerCase].
  rewrite <- IH, is_space_lower_char.
  destruct (trimEnd rest) as [|d kept]; [by destruct (is_space c)|done].
Qed.

Lemma trimEnd_cons (c : ascii) (rest : string) :
  trimEnd (String c rest)
  = match trimEnd rest with
    | EmptyString => if is_space c then EmptyString else String c EmptyString
    | kept => String c kept
    end.
Proof. reflexivity. Qed.

Lemma trimEnd_idem (s : string) : trimEnd (trimEnd s) = trimEnd s.
Proof.
  induction s as [|c rest IH]; [done|]. rewrite trimEnd_cons.
  destruct (trimEnd rest) as [|d kept] eqn:E.
  - destruct (is_space c) eqn:Hc; [done|]. rewrite trimEnd_cons. cbn [trimEnd].
    by rewrite Hc.
  - rewrite trimEnd_cons. by rewrite IH.
Qed.

Lemma trimStart_trimEnd (s : string) :
  trimStart (trimEnd (trimStart s)) = trimEnd (trimStart s).
Proof.
  induction s as [|c rest IH]; [done|]. cbn [trimStart].
  destruct (is_space c) eqn:Hc; [done|]. rewrite trimEnd_cons.
  destruct (trimEnd rest) as [|d kept]; rewrite ?Hc; cbn [trimStart]; by rewrite Hc.
Qed.

Lemma trim_idem (s : string) : trim (trim s) = trim s.
Proof. unfold trim. by rewrite trimStart_trimEnd, trimEnd_idem. Qed.

Lemma stored_form_cast (e : string) : stored_form (trim (toLowerCase e)).
Proof.
  unfold stored_form, trim at 2.
  rewrite toLowerCase_trimEnd, toLowerCase_trimStart, toLowerCase_idem.
  apply trim_idem.
Qed.

Lemma User_findOne_outcome (e : string) (s : ServerState) :
  exists found,
    User_findOne e s = (Ok found, s) /\
    (found = None ->
     forall id u, users s !! id = Some u -> email u <> trim (toLowerCase e)) /\
    (forall doc, found = Some doc ->
       users s !! _id doc = Some (fields doc) /\
       email (fields doc) = trim (toLowerCase e)).
Proof.
  destruct (User_findOne_stored e s) as (found & Hf & Hdoc).
  exists found. split; [done|]. split.
  - intros -> id u Hu He. unfold User_findOne, gets in Hf.
    destruct (list_find _ _) as [[i [k v]]|] eqn:Hl; [discriminate|].
    apply list_find_None in Hl.
    apply elem_of_map_to_list, list_elem_of_In in Hu. rewrite Forall_forall in Hl.
    exact (Hl (id, u) Hu He).
  - intros doc ->. destruct (Hdoc doc eq_refl) as (? & _ & ?). done.
Qed.

Section Registration.
Context `{JwtLibrary} `{Bcrypt} `{Mongoose} `{AuditStore}.
Variable env : Env.
Variable now : Z.
Variable salt : string.

Lemma User_create_outcome (e pw n : string) (r : Role) (s : ServerState)
    (doc : UserDocument) (s' : ServerState) :
  User_create now salt e pw n r true s = (Ok doc, s') ->
  _id doc = new_ObjectId (users s) /\
  fields doc = registered_user now salt e pw n r /\
  users s !! new_ObjectId (users s) = None /\
  (forall id u, users s !! id = Some u -> email u <> trim (toLowerCase e)) /\
  s' = with_users <[new_ObjectId (users s) := registered_user now salt e pw n r]> s.
Proof.
  unfold User_create. cbv zeta. destruct (validation_error _); [done|].
  unfold pre_save, isModified. cbn [modified].
  rewrite (bool_decide_eq_true_2
             (path_password ∈ [path_email; path_password; path_name; path_role;
                               path_isActive]))
    by (apply list_elem_of_further, list_elem_of_here).
  cbn [negb _id fields email password with_password].
  destruct (bool_decide (is_Some _)) eqn:Hid; [done|].
  destruct (bool_decide (Exists _ _)) eqn:Hex; [done|]. cbn [orb].
  intros [= <- <-]. cbn.
  apply bool_decide_eq_false in Hid, Hex.
  split; [done|]. split; [done|]. split.
  - destruct (users s !! new_ObjectId (users s)) eqn:E; [|done]. exfalso. by apply Hid.
  - split; [|done]. intros id u Hu He. apply Hex.
    apply Exists_exists. exists (id, u). split; [|done].
    by apply list_elem_of_In, elem_of_map_to_list.
Qed.

Lemma registerUser_success (e pw n : string) (r : option string) (s s' : ServerState)
    (res : LoginResult) :
  registerUser env now salt e pw n r s = (Ok res, s') ->
  let id := new_ObjectId (users s) in
  let u := registered_user now salt e pw n (registered_role r) in
  users s !! id = None /\
  (forall id' u', users s !! id' = Some u' -> email u' <> email u) /\
  s' = with_users <[id := u]> s /\
  res = {| lr_user := userData (hydrate id u);
           lr_accessToken := accessToken (generateTokens env now id);
           lr_refreshToken := refreshToken (generateTokens env now id) |}.
Proof.
  unfold registerUser, mbind at 1, Async_bind at 1.
  destruct (User_findOne_outcome (toLowerCase e) s) as (found & -> & _ & _).
  destruct found; [done|].
  destruct (_ && _); [done|].
  unfold mbind, Async_bind.
  destruct (User_create _ _ _ _ _ _ _ _) as [[doc|err] s1] eqn:Hc; [|done].
  assert (forall r', registered_user now salt (toLowerCase e) pw n r'
                     = registered_user now salt e pw n r') as Hreg.
  { intros r'. unfold registered_user. by rewrite toLowerCase_idem. }
  apply User_create_outcome in Hc as (Hid & Hfields & Hfresh & Huniq & Hs).
  rewrite Hreg in Hfields, Hs. rewrite toLowerCase_idem in Huniq.
  intros [= <- <-]. cbn zeta. unfold registered_role.
  split; [done|]. split; [done|]. split; [done|].
  destruct doc as [i f m]. cbn in Hid, Hfields. subst i f. reflexivity.
Qed.

Lemma registerUser_failure (e pw n : string) (r : option string) (s s' : ServerState)
    (err : Error) :
  registerUser env now salt e pw n r s = (Throw err, s') -> s' = s.
Proof.
  unfold registerUser, mbind at 1, Async_bind at 1.
  destruct (User_findOne_outcome (toLowerCase e) s) as (found & -> & _ & _).
  destruct found; [by intros [= _ <-]|].
  destruct (_ && _); [by intros [= _ <-]|].
  unfold mbind, Async_bind, User_create. cbv zeta.
  destruct (validation_error _); [by intros [= _ <-]|].
  destruct (_ || _); [by intros [= _ <-]|done].
Qed.

(** X17. An email that is taken cannot be registered again, however it
    is capitalised or padded: when a stored user has the email the request's
    becomes under the schema's [lowercase] and [trim], [register] answers
    with a 400 error, sets no cookie, and leaves the users and the audit
    trail as they were. *)
Theorem register_taken_email (req : Request) (b : gmap string string) (e : string)
    (s : ServerState) (id : string) (u : User) :
  body req = Some b -> truthy (b !! "email") = Some e ->
  users s !! id = Some u -> email u = trim (toLowerCase e) ->
  exists msg s',
    register env now salt req s = (Ok (Respond (json_error 400 msg)), s') /\
    users s' = users s /\ activityLogs s' = activityLogs s /\
    unhandledRejections s' = unhandledRejections s.
Proof.
  intros Hb He Hu Hemail. unfold register, try_catch_async. rewrite Hb, He.
  destruct (truthy (b !! "password")) as [pw|]; [|by eexists _, _].
  destruct (truthy (b !! "name")) as [n|]; [|by eexists _, _].
  destruct (js_length pw <? 6)%nat; [by eexists _, _|].
  destruct (_ && _); [by eexists _, _|].
  unfold mbind at 1, Async_bind at 1.
  destruct (registerUser env now salt e pw n (b !! "role") s) as [[res|err] s1] eqn:Hr.
  - apply registerUser_success in Hr as (_ & Huniq & _). exfalso.
    by apply (Huniq id u Hu).
  - apply registerUser_failure in Hr as ->. by eexists _, _.
Qed.

(** X18. The usual refusal: for a well-formed request (a password of
    six UTF-16 units or more, a name, a valid role or none) whose email is
    ASCII, has no space around it and, lower-cased, is a stored user's,
    [register] answers 400 'User with this email already exists'; only the
    console gets the error. *)
Theorem register_existing_email (req : Request) (b : gmap string string) (e pw n : string)
    (s : ServerState) (id : string) (u : User) :
  body req = Some b -> truthy (b !! "email") = Some e ->
  truthy (b !! "password") = Some pw -> truthy (b !! "name") = Some n ->
  (6 <= js_length pw)%nat -> ascii_only e = true ->
  (forall r, truthy (b !! "role") = Some r -> validRoles_includes r = true) ->
  stored_form (toLowerCase e) ->
  users s !! id = Some u -> email u = toLowerCase e ->
  register env now salt req s
  = (Ok (Respond (json_error 400 "User with this email already exists")),
     with_console (fun c => c ++ ["Registration error: User with this email already exists";
                                  "Error stack:"]) s).
Proof.
  intros Hb He Hp Hn Hlen _ Hrole Hform Hu Hemail. unfold register, try_catch_async.
  rewrite Hb, He, Hp, Hn.
  replace (js_length pw <? 6)%nat with false by (symmetry; apply Nat.ltb_ge; lia).
  replace (bool_decide (is_Some (truthy (b !! "role")))
           && negb (validRoles_includes (default EmptyString (b !! "role")))) with false.
  2:{ symmetry. destruct (b !! "role") as [r|] eqn:Er; [|done].
      change (default EmptyString (Some r)) with r.
      destruct (decide (r = EmptyString)) as [->|Hne]; [done|].
      rewrite (Hrole r); [apply andb_false_r|]. unfold truthy. by rewrite decide_False. }
  unfold mbind at 1, Async_bind at 1, registerUser, mbind at 1, Async_bind at 1.
  destruct (User_findOne_outcome (toLowerCase e) s) as (found & -> & Hnone & _).
  destruct found; [done|]. exfalso. apply (Hnone eq_refl id u Hu).
  by rewrite Hform.
Qed.


(** X20. Register, then sign in: after a registration that succeeded,
    [loginUser] with the email the registration returned and the same
    password succeeds on the new account, whenever [bcrypt.compare] accepts a
    password against its own hash. *)
Theorem register_then_login (e pw n : string) (r : option string)
    (s s1 : ServerState) (res : LoginResult) (later : Z) :
  bcrypt_compare pw (bcrypt_hash pw salt) = true ->
  registerUser env now salt e pw n r s = (Ok res, s1) ->
  exists res' s2,
    loginUser env later salt (ud_email (lr_user res)) pw s1 = (Ok res', s2) /\
    ud_id (lr_user res') = ud_id (lr_user res) /\
    lastLogin <$> users s2 !! ud_id (lr_user res) = Some (Some later).
Proof.
  intros Hb Hr. apply registerUser_success in Hr as (Hfresh & Huniq & -> & ->).
  cbn [lr_user ud_id ud_email userData hydrate _id fields].
  set (id := new_ObjectId (users s)) in *.
  set (u := registered_user now salt e pw n _) in *.
  assert (trim (toLowerCase (email u)) = email u) as Hform
    by apply (stored_form_cast e).
  rewrite (loginUser_unique env later salt (email u) pw _ id u).
  - cbn [isActive u registered_user negb password]. rewrite Hb. cbn [negb].
    eexists _, _. split; [reflexivity|]. split; [done|].
    cbn [users with_users]. by rewrite lookup_insert_eq.
  - cbn [users with_users]. by rewrite lookup_insert_eq.
  - by rewrite Hform.
  - rewrite Hform. intros id' u' Hu' He'. cbn [users with_users] in Hu'.
    destruct (decide (id' = id)) as [->|Hne]; [done|].
    rewrite lookup_insert_ne in Hu' by done. exfalso. by apply (Huniq id' u').
Qed.
End Registration.

Lemma register_taken_email_witness :
  exists msg s',
    @register symbolic_jwt symbolic_bcrypt sample_mongoose audit_up sample_env 7000 "pepper"
      (sample_register_request "  Ada@Example.COM " "another horse" "Ada L") (sample_state viewer)
    = (Ok (Respond (json_error 400 msg)), s') /\
    users s' = users (sample_state viewer) /\
    activityLogs s' = activityLogs (sample_state viewer) /\
    unhandledRejections s' = unhandledRejections (sample_state viewer).
Proof.
  apply (register_taken_email sample_env 7000 "pepper"
           (sample_register_request "  Ada@Example.COM " "another horse" "Ada L")
           {[ "email" := "  Ada@Example.COM "; "password" := "another horse";
              "name" := "Ada L" ]}
           "  Ada@Example.COM " (sample_state viewer) "64f0c0ffee" (sample_user viewer));
    reflexivity.
Defined.

Lemma register_existing_email_witness :
  @register symbolic_jwt symbolic_bcrypt sample_mongoose audit_up sample_env 7000 "pepper"
    (sample_register_request "Ada@Example.COM" "another horse" "Ada L") (sample_state viewer)
  = (Ok (Respond (json_error 400 "User with this email already exists")),
     with_console (fun c => c ++ ["Registration error: User with this email already exists";
                                  "Error stack:"]) (sample_state viewer)).
Proof.
  apply (register_existing_email sample_env 7000 "pepper"
           (sample_register_request "Ada@Example.COM" "another horse" "Ada L")
           {[ "email" := "Ada@Example.COM"; "password" := "another horse";
              "name" := "Ada L" ]}
           "Ada@Example.COM" "another horse" "Ada L" (sample_state viewer)
           "64f0c0ffee" (sample_user viewer));
    try reflexivity.
  - simpl. lia.
  - intros r Hr. vm_compute in Hr. discriminate.
Defined.


Lemma register_then_login_witness :
  exists res s1 res' s2,
    @registerUser symbolic_jwt symbolic_bcrypt sample_mongoose sample_env 7000 "pepper"
      " Grace@Example.com" "cobol rules" " Grace " None (sample_state viewer)
    = (Ok res, s1) /\
    @loginUser symbolic_jwt symbolic_bcrypt sample_env 9000 "pepper"
      (ud_email (lr_user res)) "cobol rules" s1 = (Ok res', s2) /\
    ud_id (lr_user res') = ud_id (lr_user res) /\
    lastLogin <$> users s2 !! ud_id (lr_user res) = Some (Some 9000).
Proof.
  assert (is_ok (@registerUser symbolic_jwt symbolic_bcrypt sample_mongoose sample_env 7000
                   "pepper" " Grace@Example.com" "cobol rules" " Grace " None
                   (sample_state viewer)).1 = true) as Hok
    by (vm_compute; reflexivity).
  destruct (@registerUser symbolic_jwt symbolic_bcrypt sample_mongoose sample_env 7000
              "pepper" " Grace@Example.com" "cobol rules" " Grace " None
              (sample_state viewer)) as [[res|err] s1] eqn:Hr; [|discriminate Hok].
  assert (@bcrypt_compare symbolic_bcrypt "cobol rules"
            (@bcrypt_hash symbolic_bcrypt "cobol rules" "pepper") = true) as Hb
    by (vm_compute; reflexivity).
  destruct (@register_then_login symbolic_jwt symbolic_bcrypt sample_mongoose
              sample_env 7000 "pepper" " Grace@Example.com" "cobol rules" " Grace "
              None (sample_state viewer) s1 res 9000 Hb Hr)
    as (res' & s2 & Hl & Hid & Hlast).
  exists res, s1, res', s2.
  split; [reflexivity|]. split; [exact Hl|]. split; [exact Hid|exact Hlast].
Defined.

Section RegisterController.
Context `{JwtLibrary} `{Bcrypt} `{Mongoose} `{AuditStore}.
Variable env : Env.
Variable now : Z.
Variable salt : string.

(** X21. A registration that succeeds signs the user in: for a
    well-formed request (a password of six UTF-16 units or more, an ASCII
    email and name) on which [registerUser] succeeds, [register] answers
    201 with the new user and the access token in the body and the refresh
    token in one HTTP-only, same-site strict cookie of seven days; the user
    collection is as [registerUser] left it; no rejection is left unhandled;
    and when the audit store takes the entry, the audit trail gains one
    entry for the new user, whose action is 'login'. *)
Theorem register_created (req : Request) (b : gmap string string) (e pw n : string)
    (s s1 : ServerState) (res : LoginResult) :
  body req = Some b -> truthy (b !! "email") = Some e ->
  truthy (b !! "password") = Some pw -> truthy (b !! "name") = Some n ->
  (6 <= js_length pw)%nat -> ascii_only e = true -> ascii_only n = true ->
  (forall r, truthy (b !! "role") = Some r -> validRoles_includes r = true) ->
  registerUser env now salt e pw n (b !! "role") s = (Ok res, s1) ->
  exists s2,
    register env now salt req s
      = (Ok (Respond
               {| status := 201; success := true; res_message := None;
                  data := data_session (lr_user res) (lr_accessToken res);
                  cookie_ops :=
                    [res_cookie "refreshToken" (lr_refreshToken res)
                       {| httpOnly := true;
                          secure := bool_decide (NODE_ENV env = "production");
                          sameSite := "strict"; maxAge := Some 604800000 |}] |}), s2) /\
    users s2 = users s1 /\
    unhandledRejections s2 = unhandledRejections s /\
    ((forall entry, audit_fault entry = None) ->
     activityLogs s2
       = activityLogs s
           ++ [audit_entry (ud_id (lr_user res)) act_login (Some "auth") None (Some req)]).
Proof.
  intros Hb He Hp Hn Hlen _ _ Hrole Hr. unfold register, try_catch_async.
  rewrite Hb, He, Hp, Hn.
  replace (js_length pw <? 6)%nat with false by (symmetry; apply Nat.ltb_ge; lia).
  replace (bool_decide (is_Some (truthy (b !! "role")))
           && negb (validRoles_includes (default EmptyString (b !! "role")))) with false.
  2:{ symmetry. destruct (b !! "role") as [r|] eqn:Er; [|done].
      change (default EmptyString (Some r)) with r.
      destruct (decide (r = EmptyString)) as [->|Hne]; [done|].
      rewrite (Hrole r); [apply andb_false_r|]. unfold truthy. by rewrite decide_False. }
  unfold mbind, Async_bind. rewrite Hr.
  unfold fire_and_forget. rewrite logActivity_settles.
  apply registerUser_success in Hr as (_ & _ & -> & _).
  destruct (audit_fault _) as [err|] eqn:Hfault; eexists;
    (split; [reflexivity|]); (split; [reflexivity|]); (split; [reflexivity|]).
  - intros Hup. by rewrite Hup in Hfault.
  - intros _. reflexivity.
Qed.
End RegisterController.

(** [password.length] counts UTF-16 units, not bytes: five accented
    letters are ten bytes and too short a password. *)
Example register_short_accented_password :
  js_length "ééééé" = 5%nat /\ String.length "ééééé" = 10%nat /\
  @register symbolic_jwt symbolic_bcrypt sample_mongoose audit_up sample_env 7000 "pepper"
    (sample_register_request "grace@example.com" "ééééé" "Grace") (sample_state viewer)
  = (Ok (Respond (json_error 400 "Password must be at least 6 characters")),
     sample_state viewer).
Proof. split; [|split]; vm_compute; reflexivity. Qed.

Lemma register_created_witness :
  exists res s1 r s2,
    @registerUser symbolic_jwt symbolic_bcrypt sample_mongoose sample_env 7000 "pepper"
      "grace@example.com" "cobol rules" "Grace" None (sample_state viewer) = (Ok res, s1) /\
    @register symbolic_jwt symbolic_bcrypt sample_mongoose audit_up sample_env 7000 "pepper"
      (sample_register_request "grace@example.com" "cobol rules" "Grace") (sample_state viewer)
    = (Ok (Respond r), s2) /\
    status r = 201 /\ users s2 = users s1 /\
    map log_action (activityLogs s2) = [act_login].
Proof.
  assert (is_ok (@registerUser symbolic_jwt symbolic_bcrypt sample_mongoose sample_env 7000
                   "pepper" "grace@example.com" "cobol rules" "Grace" None
                   (sample_state viewer)).1 = true) as Hok
    by (vm_compute; reflexivity).
  destruct (@registerUser symbolic_jwt symbolic_bcrypt sample_mongoose sample_env 7000
              "pepper" "grace@example.com" "cobol rules" "Grace" None
              (sample_state viewer)) as [[res|err] s1] eqn:Hr; [|discriminate Hok].
  assert (forall r, truthy (({[ "email" := "grace@example.com"; "password" := "cobol rules";
                               "name" := "Grace" ]} : gmap string string) !! "role") = Some r ->
                    validRoles_includes r = true) as Hrole.
  { intros r Hrole. vm_compute in Hrole. discriminate. }
  assert ((6 <= js_length "cobol rules")%nat) as Hlen by (vm_compute; lia).
  destruct (@register_created symbolic_jwt symbolic_bcrypt sample_mongoose audit_up
              sample_env 7000 "pepper"
              (sample_register_request "grace@example.com" "cobol rules" "Grace")
              {[ "email" := "grace@example.com"; "password" := "cobol rules";
                 "name" := "Grace" ]}
              "grace@example.com" "cobol rules" "Grace" (sample_state viewer) s1 res
              eq_refl eq_refl eq_refl eq_refl Hlen eq_refl eq_refl Hrole Hr)
    as (s2 & Hreg & Hu & _ & Hlog).
  eexists res, s1, _, s2. split; [reflexivity|]. split; [exact Hreg|].
  split; [reflexivity|]. split; [exact Hu|].
  rewrite Hlog by reflexivity. reflexivity.
Defined.

(** ** The client's storage and session *)

Section ClientStorage.
Import Client.

Lemma storage_getItem_removeItem (k k' : string) (b : Browser) :
  storage_getItem k (storage_removeItem k' b)
  = if decide (k = k') then None else storage_getItem k b.
Proof.
  destruct b as [ls [] p]; unfold storage_getItem, storage_removeItem; cbn.
  - destruct (decide (k = k')) as [->|Hne].
    + by rewrite lookup_delete_eq.
    + by rewrite lookup_delete_ne.
  - by destruct (decide _).
Qed.

Lemma storage_getItem_setItem (k k' v : string) (b : Browser) :
  storage_available b = true ->
  storage_getItem k (storage_setItem k' v b)
  = if decide (k = k') then Some v else storage_getItem k b.
Proof.
  destruct b as [ls [] p]; [intros _|done]. unfold storage_getItem, storage_setItem; cbn.
  destruct (decide (k = k')) as [->|Hne].
  - by rewrite lookup_insert_eq.
  - by rewrite lookup_insert_ne.
Qed.

Lemma getItem_clearAuthData (k : string) (b : Browser) :
  storage_getItem k (clearAuthData b)
  = if bool_decide (k ∈ [ACCESS_TOKEN; REFRESH_TOKEN; USER]) then None
    else storage_getItem k b.
Proof.
  unfold clearAuthData, removeUser, clearTokens. rewrite !storage_getItem_removeItem.
  destruct (decide (k = USER)) as [->|Hu]; [done|].
  destruct (decide (k = REFRESH_TOKEN)) as [->|Hr]; [done|].
  destruct (decide (k = ACCESS_TOKEN)) as [->|Ha]; [done|].
  rewrite bool_decide_eq_false_2; [done|].
  intros Hin. rewrite !elem_of_cons, elem_of_nil in Hin.
  destruct Hin as [?|[?|[?|[]]]]; done.
Qed.

Lemma pathname_clearAuthData (b : Browser) : pathname (clearAuthData b) = pathname b.
Proof. by destruct b as [ls [] p]. Qed.

Lemma pathname_redirect_to_login (b : Browser) : pathname (redirect_to_login b) = "/login".
Proof. unfold redirect_to_login. by case_decide. Qed.

Lemma getItem_redirect_to_login (k : string) (b : Browser) :
  storage_getItem k (redirect_to_login b) = storage_getItem k b.
Proof. unfold redirect_to_login. by case_decide. Qed.

(** After [clearAuthData] the three keys of the session read as absent. *)
Lemma clearAuthData_facts (b : Browser) :
  getAccessToken (clearAuthData b) = None /\
  getRefreshToken (clearAuthData b) = None /\
  getUser (clearAuthData b) = None /\
  initialState (clearAuthData b) = no_session.
Proof.
  assert (getAccessToken (clearAuthData b) = None) as Ha
    by (unfold getAccessToken; by rewrite getItem_clearAuthData).
  assert (getRefreshToken (clearAuthData b) = None) as Hr
    by (unfold getRefreshToken; by rewrite getItem_clearAuthData).
  assert (getUser (clearAuthData b) = None) as Hu
    by (unfold getUser; by rewrite getItem_clearAuthData).
  split; [done|]. split; [done|]. split; [done|].
  unfold initialState. by rewrite Ha, Hr, Hu.
Qed.

(** The [logout] reducer removes the same keys in another order. *)
Lemma logout_clearAuthData (st : AuthState) (b : Browser) :
  logout st b = (no_session, clearAuthData b).
Proof.
  unfold logout. f_equal.
  destruct b as [ls [] p]; [|done].
  unfold clearAuthData, clearTokens, removeUser, storage_removeItem, with_localStorage. cbn.
  f_equal.
  rewrite (delete_delete (delete ACCESS_TOKEN ls) USER REFRESH_TOKEN).
  by rewrite (delete_delete ls USER ACCESS_TOKEN).
Qed.

(** X22. [clearAuthData] removes the session and nothing else: after
    it the access token, the refresh token and the user read as absent, every
    other key (the theme among them) reads as before, a reload starts signed
    out, and the [logout] reducer leaves the browser in the same state. *)
Theorem clearAuthData_clears_session_only (b : Browser) :
  getAccessToken (clearAuthData b) = None /\
  getRefreshToken (clearAuthData b) = None /\
  getUser (clearAuthData b) = None /\
  (forall k, k ∉ [ACCESS_TOKEN; REFRESH_TOKEN; USER] ->
     storage_getItem k (clearAuthData b) = storage_getItem k b) /\
  getTheme (clearAuthData b) = getTheme b /\
  initialState (clearAuthData b) = no_session /\
  forall st, logout st b = (no_session, clearAuthData b).
Proof.
  destruct (clearAuthData_facts b) as (Ha & Hr & Hu & Hi).
  split; [exact Ha|]. split; [exact Hr|]. split; [exact Hu|].
  split; [|split; [|split]].
  - intros k Hk. rewrite getItem_clearAuthData. by rewrite bool_decide_eq_false_2.
  - unfold getTheme. by rewrite getItem_clearAuthData.
  - exact Hi.
  - intros st. apply logout_clearAuthData.
Qed.

(** X23. The tokens survive a reload: with the storage available,
    after [setCredentials] with a user's JSON text and an access token, the
    storage holds that text under [user], the state a reloaded page starts
    from ([initialState]) has that access token, and as refresh token the one
    given or else the one the storage held before, and every request after
    the reload leaves with [Authorization: Bearer] and that token.  (Whether
    the reloaded page counts as authenticated depends on [JSON.parse] of the
    stored text as well, and is not stated.) *)
Theorem tokens_survive_reload (u token : string) (refresh : option string)
    (st : AuthState) (b : Browser) :
  storage_available b = true -> token <> EmptyString ->
  let b' := (setCredentials (Some u) (Some token) refresh st b).2 in
  storage_getItem USER b' = Some u /\
  auth_accessToken (initialState b') = Some token /\
  auth_refreshToken (initialState b')
  = match truthy refresh with
    | Some r => Some r
    | None => getRefreshToken b
    end /\
  forall config,
    Authorization (request_interceptor config b') = Some ("Bearer " +:+ token).
Proof.
  intros Hav Ht b'. subst b'. destruct b as [ls av p]. cbn in Hav. subst av.
  unfold setCredentials. cbn [snd js_string default].
  change (default "undefined" (Some u)) with u.
  change (default "undefined" (Some token)) with token.
  unfold request_interceptor, initialState, getUser, getAccessToken, getRefreshToken,
    setAccessToken, setUser, setRefreshToken. cbn [auth_accessToken auth_refreshToken].
  destruct (truthy refresh) as [r|];
    rewrite ?storage_getItem_setItem by done;
    repeat (rewrite decide_True by done) || (rewrite decide_False by done);
    cbn [truthy]; rewrite ?decide_False by done; done.
Qed.

(** X24. With the storage out of reach (private mode) a login holds
    for the page only: [setCredentials] marks the state authenticated, but
    nothing is stored, so the request interceptor attaches no token to any
    request and a reload starts signed out. *)
Theorem session_without_storage (u token refresh : option string)
    (st : AuthState) (b : Browser) :
  storage_available b = false ->
  isAuthenticated (setCredentials u token refresh st b).1 = true /\
  (setCredentials u token refresh st b).2 = b /\
  initialState b = no_session /\
  forall config, request_interceptor config b = config.
Proof.
  intros Hav. destruct b as [ls av p]. cbn in Hav. subst av.
  split; [done|]. split; [|split; [done|done]].
  unfold setCredentials. cbn. by destruct (truthy refresh).
Qed.

(** X25. The theme setting round-trips and is independent of the
    session: with the storage available, the theme read after [setTheme m] is
    [m], also after the session was cleared, and setting it changes nothing
    of the stored session. *)
Theorem theme_round_trip (m : ThemeMode) (b : Browser) :
  storage_available b = true ->
  getTheme (setTheme m b) = m /\
  getTheme (clearAuthData (setTheme m b)) = m /\
  initialState (setTheme m b) = initialState b.
Proof.
  intros Hav.
  assert (getTheme (setTheme m b) = m) as Hm.
  { unfold getTheme, setTheme.
    destruct m; rewrite ?storage_getItem_removeItem, ?storage_getItem_setItem by done; done. }
  split; [done|]. split.
  - unfold getTheme at 1. rewrite getItem_clearAuthData.
    rewrite bool_decide_eq_false_2; [exact Hm|].
    intros Hin. rewrite !elem_of_cons, elem_of_nil in Hin.
    destruct Hin as [?|[?|[?|[]]]]; done.
  - unfold initialState, getUser, getAccessToken, getRefreshToken, setTheme.
    destruct m; rewrite ?storage_getItem_removeItem, ?storage_getItem_setItem by done; done.
Qed.
End ClientStorage.

Lemma tokens_survive_reload_witness :
  let b' := (Client.setCredentials (Some "{ada}") (Some "access-2") None no_session
               (Client.browser signed_in_client)).2 in
  Client.storage_getItem Client.USER b' = Some "{ada}" /\
  Client.auth_accessToken (Client.initialState b') = Some "access-2" /\
  Client.auth_refreshToken (Client.initialState b') = Some "refresh-1" /\
  forall config,
    Client.Authorization (Client.request_interceptor config b') = Some "Bearer access-2".
Proof.
  exact (tokens_survive_reload "{ada}" "access-2" None no_session
           (Client.browser signed_in_client) eq_refl ltac:(discriminate)).
Defined.

Lemma session_without_storage_witness :
  Client.isAuthenticated
    (Client.setCredentials (Some "{ada}") (Some "access-1") None no_session private_browser).1
  = true /\
  (Client.setCredentials (Some "{ada}") (Some "access-1") None no_session private_browser).2
  = private_browser /\
  Client.initialState private_browser = no_session /\
  forall config, Client.request_interceptor config private_browser = config.
Proof.
  exact (session_without_storage (Some "{ada}") (Some "access-1") None no_session
           private_browser eq_refl).
Defined.

Lemma theme_round_trip_witness :
  getTheme (setTheme theme_light (Client.browser signed_in_client)) = theme_light /\
  getTheme (Client.clearAuthData (setTheme theme_light (Client.browser signed_in_client)))
  = theme_light /\
  Client.initialState (setTheme theme_light (Client.browser signed_in_client))
  = Client.initialState (Client.browser signed_in_client).
Proof. exact (theme_round_trip theme_light (Client.browser signed_in_client) eq_refl). Defined.

(** ** The client on the wire *)

Section ClientSession.
Import Client.
Context `{Network}.
Variable API_BASE_URL : string.

(** A query settles whenever the instance has fuel for its one retry. *)
Lemma axiosBaseQuery_settles (n : nat) (url : option string) (method : Method)
    (body : option string) (c : ClientState) :
  exists q c' sent,
    axiosBaseQuery API_BASE_URL (S (S n)) url method body c = Some (q, c') /\
    wire c' = wire c ++ sent /\
    (count_requests sent <= 2)%nat /\ (count_refreshes sent <= 1)%nat.
Proof.
  unfold axiosBaseQuery. destruct (truthy url) as [u|].
  - rewrite apiClient_fuel.
    destruct (apiClient_wire API_BASE_URL
                {| cfg_url := Some u; cfg_method := method; Authorization := None;
                   cfg_data := body; _retry := false |} c)
      as (r & c' & sent & -> & Hw & Hq & Hf).
    destruct r as [r|err]; eexists _, _, sent; (split; [reflexivity|]);
      (split; [|split; [exact Hq|exact Hf]]); [exact Hw|].
    by destruct (_ && _).
  - exists (query_error 500 None), c, []. rewrite app_nil_r.
    split; [reflexivity|]. split; [reflexivity|]. split; cbn; lia.
Qed.

(** X26. Signing out always signs out: whatever the server answers to
    the logout call, and if it cannot be reached at all, [logout] of the auth
    hook settles with the state signed out, no token and no user left in the
    storage, the page at the login and a reload starting signed out; it has
    put at most two requests and one refresh call on the wire. *)
Theorem useAuth_logout_always_signs_out (n : nat) (st : AuthState) (c : ClientState) :
  exists c' sent,
    useAuth_logout API_BASE_URL (S (S n)) st c = Some (no_session, c') /\
    getAccessToken (browser c') = None /\
    getRefreshToken (browser c') = None /\
    getUser (browser c') = None /\
    pathname (browser c') = "/login" /\
    initialState (browser c') = no_session /\
    wire c' = wire c ++ sent /\
    (count_requests sent <= 2)%nat /\ (count_refreshes sent <= 1)%nat.
Proof.
  unfold useAuth_logout.
  destruct (axiosBaseQuery_settles n (Some "/auth/logout") POST None c)
    as (q & c1 & sent & -> & Hw & Hq & Hf).
  destruct (clearAuthData_facts (browser c1)) as (Ha & Hr & Hu & Hi).
  rewrite (logout_clearAuthData st). eexists _, sent. split; [reflexivity|]. cbn [browser wire].
  assert (forall k, storage_getItem k (with_pathname "/login" (clearAuthData (browser c1)))
                    = storage_getItem k (clearAuthData (browser c1))) as Hk by done.
  unfold initialState, getUser, getAccessToken, getRefreshToken in *. rewrite !Hk.
  rewrite Ha, Hr, Hu. done.
Qed.

(** X27. A 401 ends the session: when a query to an endpoint other
    than the login comes back as a 401 error, the stored tokens and user are
    gone and the page is at the login, whatever the interceptor did before
    (no refresh token, refresh refused, or retry refused). *)
Theorem query_401_ends_session (fuel : nat) (u : string) (method : Method)
    (body : option string) (c c' : ClientState) (answer : option Body) :
  u <> EmptyString -> includes "/auth/login" u = false ->
  axiosBaseQuery API_BASE_URL fuel (Some u) method body c
    = Some (query_error 401 answer, c') ->
  getAccessToken (browser c') = None /\
  getRefreshToken (browser c') = None /\
  getUser (browser c') = None /\
  pathname (browser c') = "/login" /\
  initialState (browser c') = no_session.
Proof.
  intros Hne Hu. unfold axiosBaseQuery, truthy. rewrite decide_False by done.
  destruct (apiClient _ _ _ _) as [[[r|err] c1]|]; [done| |done].
  rewrite Hu. cbn [negb]. rewrite andb_true_r.
  destruct (error_status err) as [code|] eqn:Hs; [|done].
  destruct (decide (code = 0)) as [->|Hz]; [done|].
  intros [= -> _ <-]. rewrite bool_decide_eq_true_2 by done. cbn [browser with_browser].
  destruct (clearAuthData_facts (browser c1)) as (Ha & Hr & Hus & Hi).
  unfold initialState, getUser, getAccessToken, getRefreshToken in *.
  rewrite !getItem_redirect_to_login, Ha, Hr, Hus.
  by rewrite pathname_redirect_to_login.
Qed.

(** X28. The token the client sends is the token the server reads:
    when the storage holds an access token without a space, the
    [Authorization] header the request interceptor sets on a request is
    parsed by [bearer_token] in [protect] to that very token. *)
Theorem interceptor_header_read_back (config : Config) (b : Browser) (token : string)
    (req : Request) :
  truthy (getAccessToken b) = Some token -> has_char " " token = false ->
  headers req !! "authorization" = Authorization (request_interceptor config b) ->
  bearer_token req = Some token.
Proof.
  intros Ht Hsp Hh. unfold request_interceptor in Hh. rewrite Ht in Hh. cbn in Hh.
  apply bearer_token_standard; [done| |done].
  unfold truthy in Ht. destruct (getAccessToken b) as [t|]; [|done].
  case_decide; [done|]. by injection Ht as <-.
Qed.
End ClientSession.

Lemma query_401_ends_session_witness :
  exists answer c',
    @Client.axiosBaseQuery expired_server "/api" 2 (Some "/dashboard/kpis") GET None
      signed_in_client = Some (Client.query_error 401 answer, c') /\
    Client.getAccessToken (Client.browser c') = None /\
    Client.getRefreshToken (Client.browser c') = None /\
    Client.pathname (Client.browser c') = "/login" /\
    getTheme (Client.browser c') = theme_dark.
Proof.
  assert (exists answer c',
            @Client.axiosBaseQuery expired_server "/api" 2 (Some "/dashboard/kpis") GET None
              signed_in_client = Some (Client.query_error 401 answer, c') /\
            getTheme (Client.browser c') = theme_dark) as (answer & c' & Hq & Ht)
    by (eexists _, _; split; vm_compute; reflexivity).
  destruct (@query_401_ends_session expired_server "/api" 2 "/dashboard/kpis" GET None
              signed_in_client c' answer ltac:(discriminate) eq_refl Hq)
    as (Ha & Hr & _ & Hp & _).
  exists answer, c'. split; [exact Hq|]. split; [exact Ha|]. split; [exact Hr|].
  split; [exact Hp|exact Ht].
Defined.

Lemma interceptor_header_read_back_witness :
  bearer_token
    (request_with GET "/dashboard/kpis"
       (Client.Authorization
          (Client.request_interceptor kpis_call (Client.browser signed_in_client))))
  = Some "access-1".
Proof.
  exact (interceptor_header_read_back kpis_call (Client.browser signed_in_client) "access-1"
           (request_with GET "/dashboard/kpis"
              (Client.Authorization
                 (Client.request_interceptor kpis_call (Client.browser signed_in_client))))
           eq_refl eq_refl eq_refl).
Defined.

(** ** The origin check *)

Lemma startsWith_prefix (p s : string) :
  startsWith p s = true <-> exists post, s = p +:+ post.
Proof.
  revert s. induction p as [|a p IH]; intros s.
  - split; [intros _; by exists s|done].
  - destruct s as [|b s]; cbn [startsWith].
    + split; [done|]. by intros (post & Hs).
    + rewrite andb_true_iff, bool_decide_eq_true, IH. split.
      * intros (-> & post & ->). by exists post.
      * intros (post & Hs). injection Hs as -> ->. split; [done|]. by exists post.
Qed.

Lemma includes_infix (needle s : string) :
  Client.includes needle s = true <-> exists pre post, s = pre +:+ needle +:+ post.
Proof.
  induction s as [|b s IH]; cbn [Client.includes]; rewrite orb_true_iff, startsWith_prefix.
  - split.
    + intros [(post & Hs)|Hf]; [|done]. by exists EmptyString, post.
    + intros (pre & post & Hs). left.
      destruct pre as [|a pre]; [|done]. by exists post.
  - rewrite IH. split.
    + intros [(post & Hs)|(pre & post & ->)].
      * by exists EmptyString, post.
      * by exists (String b pre), post.
    + intros (pre & post & Hs). destruct pre as [|a pre].
      * left. by exists post.
      * right. injection Hs as -> ->. by exists pre, post.
Qed.

(** X29. Which origins the CORS check lets in: a request without an
    [Origin]; an origin of the allowed list; outside production, every
    origin; and, in production too, every origin that has ['.netlify.app']
    anywhere in it, so also one such as
    [https://x.netlify.app.attacker.example].  No other origin passes. *)
Theorem cors_origin_allowed_iff (allowed : list string) (env : Env) (origin : option string) :
  cors_origin_allowed allowed env origin = true <->
  truthy origin = None \/
  exists o, origin = Some o /\
    (o ∈ allowed \/ (exists pre post, o = pre +:+ ".netlify.app" +:+ post)
     \/ NODE_ENV env <> "production").
Proof.
  unfold cors_origin_allowed.
  destruct (truthy origin) as [o|] eqn:Ho; [|by split; [left|]].
  assert (origin = Some o) as ->.
  { unfold truthy in Ho. destruct origin as [o'|]; [|done]. case_decide; [done|].
    by injection Ho as <-. }
  split.
  - intros Hc. right. exists o. split; [done|].
    destruct (bool_decide (o ∈ allowed)) eqn:Hin;
      [left; by apply bool_decide_eq_true in Hin|].
    destruct (Client.includes ".netlify.app" o) eqn:Hn;
      [right; left; by apply includes_infix in Hn|].
    destruct (bool_decide (NODE_ENV env = "production")) eqn:Hp; [done|].
    right. right. by apply bool_decide_eq_false in Hp.
  - intros [Hnone|(o' & [= <-] & Hor)]; [done|].
    destruct (bool_decide (o ∈ allowed)) eqn:Hin; [done|].
    destruct (Client.includes ".netlify.app" o) eqn:Hn; [done|].
    destruct Hor as [Hallowed|[Hinfix|Hdev]].
    + apply bool_decide_eq_false in Hin. done.
    + apply includes_infix in Hinfix. congruence.
    + by rewrite bool_decide_eq_false_2.
Qed.

(** ** A refresh that succeeds *)

Section TransparentRefresh.
Import Client.
Context `{Network}.
Variable API_BASE_URL : string.

Lemma getAccessToken_after_refresh (t : string) (r : option string) (b : Browser) :
  getAccessToken (match r with
                  | Some x => setRefreshToken x (setAccessToken t b)
                  | None => setAccessToken t b
                  end)
  = if storage_available b then Some t else None.
Proof.
  destruct b as [ls [] p]; destruct r as [x|]; try done;
    unfold getAccessToken, setRefreshToken, setAccessToken;
    rewrite ?storage_getItem_setItem by done; done.
Qed.

Lemma apiClient_unfold (n : nat) (config : Config) (c : ClientState) :
  apiClient API_BASE_URL (S n) config c
  = match server (wire c) (ev_request (request_interceptor config (browser c))) with
    | wire_response code b =>
        if validateStatus code then
          Some (Fulfilled {| r_status := code; r_data := b;
                             r_config := Some (request_interceptor config (browser c)) |},
                {| browser := browser c;
                   wire := wire c ++ [ev_request (request_interceptor config (browser c))] |})
        else
          response_rejected API_BASE_URL (apiClient API_BASE_URL n)
            (AxiosError (Some (request_interceptor config (browser c))) (Some (code, b)))
            {| browser := browser c;
               wire := wire c ++ [ev_request (request_interceptor config (browser c))] |}
    | wire_failure =>
        response_rejected API_BASE_URL (apiClient API_BASE_URL n)
          (AxiosError (Some (request_interceptor config (browser c))) None)
          {| browser := browser c;
             wire := wire c ++ [ev_request (request_interceptor config (browser c))] |}
    end.
Proof. reflexivity. Qed.

(** X30. A refresh that succeeds is invisible to the caller's
    request: when a call other than the login is answered 401, the storage
    holds a refresh token and the refresh endpoint answers 200 with a new
    access token, the instance sends the same request once more with
    [Authorization: Bearer <new token>] and the retry flag, whether or not
    the storage can be written; these three messages are all it sends; and
    where the storage is available it now holds the new access token. *)
Theorem refresh_then_retry_with_new_token (config : Config) (c : ClientState)
    (b body : Body) (token t : string) (d : BodyData) :
  truthy (getRefreshToken (browser c)) = Some token ->
  _retry config = false ->
  (forall u, cfg_url config = Some u -> includes "/auth/login" u = false) ->
  let first := ev_request (request_interceptor config (browser c)) in
  server (wire c) first = wire_response 401 b ->
  server (wire c ++ [first]) (ev_refresh token) = wire_response 200 body ->
  b_data body = Some d -> d_accessToken d = Some t ->
  exists r c' retry,
    apiClient API_BASE_URL 2 config c = Some (r, c') /\
    wire c' = wire c ++ [first; ev_refresh token; ev_request retry] /\
    Authorization retry = Some ("Bearer " +:+ t) /\
    _retry retry = true /\
    cfg_url retry = cfg_url config /\ cfg_method retry = cfg_method config /\
    cfg_data retry = cfg_data config /\
    getAccessToken (browser c')
    = if storage_available (browser c) then Some t else None.
Proof.
  intros Hk Hr Hu first H401 Hrefresh Hd Ht.
  rewrite apiClient_unfold. fold first. rewrite H401.
  change (validateStatus 401) with false. cbv iota.
  unfold response_rejected.
  rewrite request_interceptor_retry, request_interceptor_url, Hr.
  assert (match cfg_url config with
          | Some u => includes "/auth/login" u
          | None => false
          end = false) as ->.
  { destruct (cfg_url config) as [u|]; [by apply Hu|done]. }
  cbn [error_status]. rewrite bool_decide_eq_true_2 by done. cbn [negb andb]. cbv zeta.
  cbn [browser]. rewrite Hk. unfold refresh_call, send. cbn [wire browser].
  rewrite Hrefresh.
  change (validateStatus 200) with true. cbv iota. rewrite Hd, Ht.
  change (js_string (Some t)) with t.
  set (c3 := match truthy (d_refreshToken d) with Some _ => _ | None => _ end).
  set (cfg2 := with_Authorization _ _).
  assert (browser c3 = match truthy (d_refreshToken d) with
                       | Some x => setRefreshToken x (setAccessToken t (browser c))
                       | None => setAccessToken t (browser c)
                       end) as Hb3
    by (unfold c3; by destruct (truthy (d_refreshToken d))).
  assert (wire c3 = wire c ++ [first; ev_refresh token]) as Hw3.
  { unfold c3. destruct (truthy (d_refreshToken d)); cbn [wire with_browser];
      by rewrite <- app_assoc. }
  assert (getAccessToken (browser c3)
          = if storage_available (browser c) then Some t else None) as Hacc
    by (rewrite Hb3; apply getAccessToken_after_refresh).
  assert (_retry cfg2 = true) as Hflag by done.
  destruct (apiClient_retried API_BASE_URL 0 cfg2 c3 Hflag) as (r & -> & _).
  set (cfg3 := request_interceptor cfg2 (browser c3)).
  exists r, {| browser := browser c3; wire := wire c3 ++ [ev_request cfg3] |}, cfg3.
  split; [reflexivity|]. cbn [wire browser]. split.
  { rewrite Hw3, <- app_assoc. reflexivity. }
  split.
  { unfold cfg3, request_interceptor. rewrite Hacc.
    destruct (storage_available (browser c)); [|done]. cbn [truthy].
    by destruct (decide (t = EmptyString)). }
  split; [unfold cfg3; by rewrite request_interceptor_retry|].
  split; [unfold cfg3; rewrite request_interceptor_url; apply request_interceptor_url|].
  split; [|split; [|exact Hacc]].
  - unfold cfg3, cfg2, request_interceptor.
    destruct (truthy (getAccessToken (browser c3))), (truthy (getAccessToken (browser c)));
      done.
  - unfold cfg3, cfg2, request_interceptor.
    destruct (truthy (getAccessToken (browser c3))), (truthy (getAccessToken (browser c)));
      done.
Qed.
End TransparentRefresh.

Lemma refresh_then_retry_with_new_token_witness :
  exists r c' retry,
    @Client.apiClient refreshing_server "/api" 2 kpis_call signed_in_client = Some (r, c') /\
    Client.wire c'
    = [Client.ev_request
         (Client.request_interceptor kpis_call (Client.browser signed_in_client));
       Client.ev_refresh "refresh-1"; Client.ev_request retry] /\
    Client.Authorization retry = Some "Bearer access-2" /\
    Client._retry retry = true /\
    Client.getAccessToken (Client.browser c') = Some "access-2".
Proof.
  destruct (@refresh_then_retry_with_new_token refreshing_server "/api" kpis_call
              signed_in_client
              {| Client.b_success := false;
                 Client.b_message := Some "Invalid or expired access token";
                 Client.b_data := None |}
              {| Client.b_success := true; Client.b_message := None;
                 Client.b_data :=
                   Some {| Client.d_user := None;
                           Client.d_accessToken := Some "access-2";
                           Client.d_refreshToken := None |} |}
              "refresh-1" "access-2"
              {| Client.d_user := None; Client.d_accessToken := Some "access-2";
                 Client.d_refreshToken := None |}
              eq_refl eq_refl)
    as (r & c' & retry & Ha & Hw & Hauth & Hflag & _ & _ & _ & Hacc);
    try reflexivity.
  - intros u [= <-]. reflexivity.
  - exists r, c', retry. split; [exact Ha|]. split; [exact Hw|].
    split; [exact Hauth|]. split; [exact Hflag|exact Hacc].
Defined.
